(** * PowerHAL: a model of [power.cpp] and its boost state machines

    The development embeds the Intel power HAL module ([src/power.cpp]):
    the attribute I/O helpers [sysfs_write] / [sysfs_read], the
    scheduler-boost engine ([schedtune_boost], the de-boost worker thread and
    [schedtune_power_init]) and the hint dispatcher [power_hint] with its
    touch / vsync cadence state machine.

    Modelling conventions.
    - The kernel is an oracle: each call that reaches the kernel takes an
      [io_outcome] saying what [open] and [read]/[write] return, and every
      system call made is appended to a trace.
    - The monotonic clock is an input: each hint (and each worker step) is
      given the [timespec] that [clock_gettime(CLOCK_MONOTONIC)] returns at
      that moment.
    - [int] and [long long] arithmetic is on [Z] with the two's-complement
      wrap-around written out.  [time_t] / [long] differences of clock
      readings are on [Z].
    - The [double] value [diff] (milliseconds between two clock readings) is
      the exact rational it denotes; only its comparisons with the integer
      thresholds 20, 30 and 100 are used by the code.
    - A hint runs with the module mutex held from entry to exit and the
      worker's deadline check runs with the same mutex held, so hints and
      worker steps are atomic actions that interleave. *)

From Stdlib Require Import ZArith QArith List String Bool Lia.
Import ListNotations.
Local Open Scope Z_scope.

(** ** Machine integers *)

Definition wrap (bits : Z) (x : Z) : Z :=
  (x + 2 ^ (bits - 1)) mod 2 ^ bits - 2 ^ (bits - 1).

(** [int] *)
Definition wrap_int : Z -> Z := wrap 32.
(** [long long] *)
Definition wrap_ll : Z -> Z := wrap 64.

Definition INT_MAX : Z := 2 ^ 31 - 1.

(** ** Constants of [power.cpp] *)

Definition TOUCHBOOST_PULSE_SYSFS : string :=
  "/sys/devices/system/cpu/cpufreq/interactive/touchboostpulse".
Definition cpufreq_boost_interactive : string :=
  "/sys/devices/system/cpu/cpufreq/interactive/boost".
Definition cpufreq_boost_intel_pstate : string :=
  "/sys/devices/system/cpu/intel_pstate/min_perf_pct".

Definition SHORT_TOUCH_TIME : Z := 20.
Definition SCHEDTUNE_BOOST_PATH : string := "/dev/stune/foreground/schedtune.boost".
Definition SCHEDTUNE_BOOST_NORM : string := "10".
Definition SCHEDTUNE_BOOST_INTERACTIVE : string := "40".
Definition SCHEDTUNE_BOOST_TIME_NS : Z := 1000000000.
Definition LONG_TOUCH_TIME : Z := 100.
Definition VSYNC_BOOST_COUNT : Z := 4.
Definition VSYNC_TOUCH_TIME : Z := 30.
Definition NSEC_PER_SEC : Z := 1000000000.

(** ** System calls and their trace *)

Inductive oflag : Type := O_RDONLY | O_WRONLY.

Inductive syscall : Type :=
| SysOpen (path : string) (flags : oflag) (ret : Z)
| SysWrite (fd : Z) (buf : string) (count : Z) (ret : Z)
| SysRead (fd : Z) (count : Z) (ret : Z)
| SysClose (fd : Z)
| SysLogE (msg : string).

(** What the kernel answers during one call of a helper: the value returned
    by [open], the value returned by the single [read] or [write], and the
    [strerror_r] text of [errno]. *)
Record io_outcome : Type := mkIo {
  open_ret : Z;
  rw_ret : Z;
  err_text : string
}.

(** A computation that returns a value and emits system calls. *)
Definition io (A : Type) : Type := (A * list syscall)%type.

Definition io_ret {A : Type} (a : A) : io A := (a, []).

Definition io_bind {A B : Type} (m : io A) (f : A -> io B) : io B :=
  let (a, t1) := m in
  let (b, t2) := f a in
  (b, t1 ++ t2).

Declare Scope io_scope.
Delimit Scope io_scope with io.
Notation "x <- m ;; k" := (io_bind m (fun x => k))
  (at level 61, m at next level, right associativity) : io_scope.
Notation "m ;;; k" := (io_bind m (fun _ => k))
  (at level 61, right associativity) : io_scope.

Definition c_open (k : io_outcome) (path : string) (fl : oflag) : io Z :=
  (open_ret k, [SysOpen path fl (open_ret k)]).

Definition c_write (k : io_outcome) (fd : Z) (buf : string) (count : Z) : io Z :=
  (rw_ret k, [SysWrite fd buf count (rw_ret k)]).

Definition c_read (k : io_outcome) (fd : Z) (count : Z) : io Z :=
  (rw_ret k, [SysRead fd count (rw_ret k)]).

Definition c_close (fd : Z) : io unit := (tt, [SysClose fd]).

Definition ALOGE (what path : string) (k : io_outcome) : io unit :=
  (tt, [SysLogE (what ++ path ++ ": " ++ err_text k)%string]).

Definition strlen (s : string) : Z := Z.of_nat (String.length s).

(** ** Attribute I/O: [sysfs_write], [sysfs_read] *)

Definition sysfs_write (k : io_outcome) (path s : string) : io Z :=
  (fd <- c_open k path O_WRONLY ;;
   if fd <? 0 then
     ALOGE "Error opening " path k ;;;
     io_ret (-1)
   else
     r <- c_write k fd s (strlen s) ;;
     let len := wrap_int r in
     if len <? 0 then
       ALOGE "Error writing to " path k ;;;
       c_close fd ;;;
       io_ret (-1)
     else
       c_close fd ;;;
       io_ret 0)%io.

Definition sysfs_read (k : io_outcome) (path : string) (length : Z) : io Z :=
  (fd <- c_open k path O_RDONLY ;;
   if fd <? 0 then
     ALOGE "Error opening " path k ;;;
     io_ret (-1)
   else
     r <- c_read k fd length ;;
     let len := wrap_int r in
     if len <? 0 then
       ALOGE "Error reading from " path k ;;;
       c_close fd ;;;
       io_ret (-1)
     else
       c_close fd ;;;
       io_ret 0)%io.

(** File descriptors left open by a trace of system calls. *)
Fixpoint open_fds (t : list syscall) (acc : list Z) : list Z :=
  match t with
  | [] => acc
  | SysOpen _ _ fd :: t' =>
      if fd <? 0 then open_fds t' acc else open_fds t' (fd :: acc)
  | SysClose fd :: t' => open_fds t' (List.remove Z.eq_dec fd acc)
  | _ :: t' => open_fds t' acc
  end.

(** ** Clock readings *)

Record timespec : Type := mkTimespec { tv_sec : Z; tv_nsec : Z }.

Definition gettime_ns (ts : timespec) : Z :=
  wrap_ll (tv_sec ts * NSEC_PER_SEC + tv_nsec ts).

(** [nanosleep_ns] splits the duration with C's truncating division. *)
Definition nanosleep_ns (ns : Z) : timespec :=
  mkTimespec (Z.quot ns NSEC_PER_SEC) (Z.rem ns NSEC_PER_SEC).

(** The duration requested by a [timespec] handed to [nanosleep]. *)
Definition timespec_ns (ts : timespec) : Z :=
  tv_sec ts * NSEC_PER_SEC + tv_nsec ts.

(** The clock reading at [ns] nanoseconds. *)
Definition at_ns (ns : Z) : timespec :=
  mkTimespec (ns / NSEC_PER_SEC) (ns mod NSEC_PER_SEC).

(** [(a.tv_sec - b.tv_sec) * 1000 + (double)(a.tv_nsec - b.tv_nsec) / 1e6] *)
Definition diff_ms (a b : timespec) : Q :=
  (inject_Z ((tv_sec a - tv_sec b) * 1000)
   + inject_Z (tv_nsec a - tv_nsec b) / inject_Z 1000000)%Q.

Definition Qlt_bool (x y : Q) : bool := negb (Qle_bool y x).

(** ** Module state *)

(** [struct intel_power_module] (without the HAL [container] header).
    [lock] is [true] while the mutex is held; [signal_lock] is the value of
    the semaphore. *)
Record intel_power_module : Type := mkIntel {
  touchboost_disable : Z;
  timer_set : Z;
  vsync_boost : Z;
  lock : bool;
  schedtune_boost_fd : Z;
  deboost_time : Z;
  signal_lock : Z
}.

(** The file-scope flags and the [static] locals of [power_hint]. *)
Record statics : Type := mkStatics {
  interactiveActive : bool;
  intelPStateActive : bool;
  intelSchedBoostActive : bool;
  curr_time : timespec;
  prev_time : timespec;
  vsync_time : timespec;
  vsync_count : Z;
  consecutive_touch_int : Z
}.

(** Where the de-boost thread stands in [schedtune_deboost_thread]. *)
Inductive worker_pc : Type :=
| W_sem_wait               (* at [sem_wait], outer loop *)
| W_check                  (* about to take the mutex and compare the deadline *)
| W_sleep (until : Z).     (* in [nanosleep], due at [until] *)

(** A system call and the clock value (ns) at which it was made. *)
Definition event : Type := (Z * syscall)%type.

Record world : Type := mkWorld {
  intel : intel_power_module;
  vars : statics;
  worker : option worker_pc;
  trace : list event
}.

Definition upd_intel (f : intel_power_module -> intel_power_module) (w : world) : world :=
  mkWorld (f (intel w)) (vars w) (worker w) (trace w).

Definition upd_vars (f : statics -> statics) (w : world) : world :=
  mkWorld (intel w) (f (vars w)) (worker w) (trace w).

Definition set_touchboost_disable (v : Z) : world -> world :=
  upd_intel (fun m => mkIntel v (timer_set m) (vsync_boost m) (lock m)
                        (schedtune_boost_fd m) (deboost_time m) (signal_lock m)).
Definition set_timer_set (v : Z) : world -> world :=
  upd_intel (fun m => mkIntel (touchboost_disable m) v (vsync_boost m) (lock m)
                        (schedtune_boost_fd m) (deboost_time m) (signal_lock m)).
Definition set_vsync_boost (v : Z) : world -> world :=
  upd_intel (fun m => mkIntel (touchboost_disable m) (timer_set m) v (lock m)
                        (schedtune_boost_fd m) (deboost_time m) (signal_lock m)).
Definition set_lock (v : bool) : world -> world :=
  upd_intel (fun m => mkIntel (touchboost_disable m) (timer_set m) (vsync_boost m) v
                        (schedtune_boost_fd m) (deboost_time m) (signal_lock m)).
Definition set_schedtune_boost_fd (v : Z) : world -> world :=
  upd_intel (fun m => mkIntel (touchboost_disable m) (timer_set m) (vsync_boost m) (lock m)
                        v (deboost_time m) (signal_lock m)).
Definition set_deboost_time (v : Z) : world -> world :=
  upd_intel (fun m => mkIntel (touchboost_disable m) (timer_set m) (vsync_boost m) (lock m)
                        (schedtune_boost_fd m) v (signal_lock m)).
Definition set_signal_lock (v : Z) : world -> world :=
  upd_intel (fun m => mkIntel (touchboost_disable m) (timer_set m) (vsync_boost m) (lock m)
                        (schedtune_boost_fd m) (deboost_time m) v).

Definition set_interactiveActive (v : bool) : world -> world :=
  upd_vars (fun s => mkStatics v (intelPStateActive s) (intelSchedBoostActive s)
                       (curr_time s) (prev_time s) (vsync_time s)
                       (vsync_count s) (consecutive_touch_int s)).
Definition set_intelPStateActive (v : bool) : world -> world :=
  upd_vars (fun s => mkStatics (interactiveActive s) v (intelSchedBoostActive s)
                       (curr_time s) (prev_time s) (vsync_time s)
                       (vsync_count s) (consecutive_touch_int s)).
Definition set_intelSchedBoostActive (v : bool) : world -> world :=
  upd_vars (fun s => mkStatics (interactiveActive s) (intelPStateActive s) v
                       (curr_time s) (prev_time s) (vsync_time s)
                       (vsync_count s) (consecutive_touch_int s)).
Definition set_curr_time (v : timespec) : world -> world :=
  upd_vars (fun s => mkStatics (interactiveActive s) (intelPStateActive s)
                       (intelSchedBoostActive s) v (prev_time s) (vsync_time s)
                       (vsync_count s) (consecutive_touch_int s)).
Definition set_prev_time (v : timespec) : world -> world :=
  upd_vars (fun s => mkStatics (interactiveActive s) (intelPStateActive s)
                       (intelSchedBoostActive s) (curr_time s) v (vsync_time s)
                       (vsync_count s) (consecutive_touch_int s)).
Definition set_vsync_time (v : timespec) : world -> world :=
  upd_vars (fun s => mkStatics (interactiveActive s) (intelPStateActive s)
                       (intelSchedBoostActive s) (curr_time s) (prev_time s) v
                       (vsync_count s) (consecutive_touch_int s)).
Definition set_vsync_count (v : Z) : world -> world :=
  upd_vars (fun s => mkStatics (interactiveActive s) (intelPStateActive s)
                       (intelSchedBoostActive s) (curr_time s) (prev_time s)
                       (vsync_time s) v (consecutive_touch_int s)).
Definition set_consecutive_touch_int (v : Z) : world -> world :=
  upd_vars (fun s => mkStatics (interactiveActive s) (intelPStateActive s)
                       (intelSchedBoostActive s) (curr_time s) (prev_time s)
                       (vsync_time s) (vsync_count s) v).

Definition set_worker (pc : option worker_pc) (w : world) : world :=
  mkWorld (intel w) (vars w) pc (trace w).

Definition add_trace (es : list event) (w : world) : world :=
  mkWorld (intel w) (vars w) (worker w) (trace w ++ es).

(** Run a kernel-facing computation at clock reading [now]: its system calls
    are appended to the trace, stamped with the time. *)
Definition run_io {A : Type} (now : timespec) (m : io A) (w : world) : A * world :=
  (fst m, add_trace (map (fun c => (gettime_ns now, c)) (snd m)) w).

Definition pthread_mutex_lock : world -> world := set_lock true.
Definition pthread_mutex_unlock : world -> world := set_lock false.
Definition sem_post (w : world) : world :=
  set_signal_lock (signal_lock (intel w) + 1) w.

(** The module as the loader finds it: [HAL_MODULE_INFO_SYM] with its three
    zero initialisers, the remaining members and all statics zeroed. *)
Definition zero_time : timespec := mkTimespec 0 0.

Definition HAL_MODULE_INFO_SYM : world :=
  mkWorld (mkIntel 0 0 0 false 0 0 0)
          (mkStatics false false false zero_time zero_time zero_time 0 0)
          None [].

(** ** Scheduler boost engine *)

Definition schedtune_sysfs_boost (k : io_outcome) (fd : Z) (booststr : string) : io Z :=
  (r <- c_write k fd booststr 2 ;;
   let len := wrap_int r in
   if len <? 0 then
     ALOGE "Error writing to " SCHEDTUNE_BOOST_PATH k ;;;
     io_ret len
   else
     io_ret len)%io.

(** [schedtune_boost]: called from [power_hint] with the mutex held. *)
Definition schedtune_boost (k : io_outcome) (clk : timespec) (w : world) : world :=
  let now := gettime_ns clk in
  let w :=
    if deboost_time (intel w) =? 0 then
      let w := snd (run_io clk (schedtune_sysfs_boost k (schedtune_boost_fd (intel w))
                                  SCHEDTUNE_BOOST_INTERACTIVE) w) in
      sem_post w
    else w in
  set_deboost_time (wrap_ll (now + SCHEDTUNE_BOOST_TIME_NS)) w.

(** One scheduling step of [schedtune_deboost_thread] at clock reading [clk].
    [None]: the thread does not exist, or it is blocked at [clk] (semaphore at
    zero, or still asleep).  The section between [pthread_mutex_lock] and
    [pthread_mutex_unlock] is one step. *)
Definition worker_step (k : io_outcome) (clk : timespec) (w : world) : option world :=
  match worker w with
  | None => None
  | Some W_sem_wait =>
      if 0 <? signal_lock (intel w) then
        Some (set_worker (Some W_check)
                (set_signal_lock (signal_lock (intel w) - 1) w))
      else None
  | Some W_check =>
      let w := pthread_mutex_lock w in
      let now := gettime_ns clk in
      if deboost_time (intel w) >? now then
        let sleeptime := wrap_ll (deboost_time (intel w) - now) in
        let w := pthread_mutex_unlock w in
        Some (set_worker (Some (W_sleep (now + timespec_ns (nanosleep_ns sleeptime)))) w)
      else
        let w := snd (run_io clk (schedtune_sysfs_boost k (schedtune_boost_fd (intel w))
                                    SCHEDTUNE_BOOST_NORM) w) in
        let w := set_deboost_time 0 w in
        let w := pthread_mutex_unlock w in
        Some (set_worker (Some W_sem_wait) w)
  | Some (W_sleep until) =>
      if until <=? gettime_ns clk then Some (set_worker (Some W_check) w) else None
  end.

(** [schedtune_power_init]; [k] carries the result of [open]. *)
Definition schedtune_power_init (k : io_outcome) (clk : timespec) (w : world) : Z * world :=
  let w := set_deboost_time 0 w in
  let w := set_signal_lock 1 w in                       (* sem_init(.., 0, 1) *)
  let (fd, w) := run_io clk (c_open k SCHEDTUNE_BOOST_PATH O_WRONLY) w in
  let w := set_schedtune_boost_fd fd w in
  if schedtune_boost_fd (intel w) <? 0 then
    let w := snd (run_io clk (ALOGE "Error opening " SCHEDTUNE_BOOST_PATH k) w) in
    (-1, w)                                             (* sem_close; return -1 *)
  else
    (0, set_worker (Some W_sem_wait) w).                (* pthread_create *)

(** [power_init]: the three probes.  The device and cpuset collaborators
    ([powerMonitor], [cgroupCpusetController]) keep no state here. *)
Definition power_init (k1 k2 k3 : io_outcome) (clk : timespec) (w : world) : world :=
  let (r1, w) := run_io clk (sysfs_read k1 TOUCHBOOST_PULSE_SYSFS 1) w in
  let w := if r1 =? 0 then set_interactiveActive true w else w in
  let (r2, w) := run_io clk (sysfs_read k2 cpufreq_boost_intel_pstate 1) w in
  let w := if r2 =? 0 then set_intelPStateActive true w else w in
  let (r3, w) := schedtune_power_init k3 clk w in
  if r3 =? 0 then set_intelSchedBoostActive true w else w.

(** ** Hint dispatch *)

(** [power_hint_t]; the application-launch case is compiled out unless
    [APP_LAUNCH_BOOST] is defined and falls under [default]. *)
Inductive power_hint_t : Type :=
| POWER_HINT_VSYNC
| POWER_HINT_INTERACTION
| POWER_HINT_LOW_POWER
| POWER_HINT_OTHER (code : Z).

(** [case POWER_HINT_INTERACTION], after the clock was read: the cadence
    test on [diff]. *)
Definition touch_classify (diff : Q) (w : world) : world :=
  if Qlt_bool diff (inject_Z SHORT_TOUCH_TIME) then
    set_consecutive_touch_int (wrap_int (consecutive_touch_int (vars w) + 1)) w
  else if Qlt_bool (inject_Z LONG_TOUCH_TIME) diff then
    let w := set_vsync_boost 0 w in
    let w := set_timer_set 0 w in
    let w := set_touchboost_disable 0 w in
    let w := set_vsync_count 0 w in
    set_consecutive_touch_int 0 w
  else w.

(** Entry into scroll mode. *)
Definition touch_scroll_entry (diff : Q) (w : world) : world :=
  if Qlt_bool diff (inject_Z SHORT_TOUCH_TIME)
     && (touchboost_disable (intel w) =? 0)
     && (consecutive_touch_int (vars w) >? 4)
  then set_touchboost_disable 1 w else w.

(** The timer flag of a long scroll. *)
Definition touch_timer (w : world) : world :=
  if (touchboost_disable (intel w) =? 1)
     && (consecutive_touch_int (vars w) >? 15)
     && (timer_set (intel w) =? 0)
  then set_timer_set 1 w else w.

(** The boost pulse of a touch outside scroll mode. *)
Definition touch_pulse (k : io_outcome) (clk : timespec) (w : world) : world :=
  if touchboost_disable (intel w) =? 0 then
    snd (run_io clk (sysfs_write k TOUCHBOOST_PULSE_SYSFS "1") w)
  else w.

(** [case POWER_HINT_INTERACTION], lines up to its [break]. *)
Definition hint_interaction (k : io_outcome) (clk : timespec) (w : world) : world :=
  if negb (interactiveActive (vars w)) then
    if negb (intelSchedBoostActive (vars w)) then w
    else schedtune_boost k clk w
  else
    let w := set_curr_time clk w in
    let diff := diff_ms (curr_time (vars w)) (prev_time (vars w)) in
    let w := set_prev_time (curr_time (vars w)) w in
    touch_pulse k clk (touch_timer (touch_scroll_entry diff (touch_classify diff w))).

(** [case POWER_HINT_VSYNC], first block: the finger-lifted test made while
    scrolling. *)
Definition vsync_touch_release (clk : timespec) (w : world) : world :=
  if touchboost_disable (intel w) =? 1 then
    let w := set_vsync_time clk w in
    let diff := diff_ms (vsync_time (vars w)) (curr_time (vars w)) in
    if Qlt_bool (inject_Z VSYNC_TOUCH_TIME) diff then
      let w := set_timer_set 0 w in
      let w := set_vsync_boost 1 w in
      let w := set_touchboost_disable 0 w in
      set_vsync_count VSYNC_BOOST_COUNT w
    else w
  else w.

(** [case POWER_HINT_VSYNC], second block: one boost pulse per vsync. *)
Definition vsync_pulse (k : io_outcome) (clk : timespec) (data : Z) (w : world) : world :=
  if negb (vsync_boost (intel w) =? 0) then
    if negb (data =? 0) && (vsync_count (vars w) >? 0) then
      let w := snd (run_io clk (sysfs_write k TOUCHBOOST_PULSE_SYSFS "1") w) in
      let w := set_vsync_count (wrap_int (vsync_count (vars w) - 1)) w in
      if vsync_count (vars w) =? 0 then set_vsync_boost 0 w else w
    else w
  else w.

Definition hint_vsync (k : io_outcome) (clk : timespec) (data : Z) (w : world) : world :=
  vsync_pulse k clk data (vsync_touch_release clk w).

(** [power_hint]: [data] is the payload pointer as an integer. *)
Definition power_hint (k : io_outcome) (clk : timespec) (hint : power_hint_t) (data : Z)
    (w : world) : world :=
  let w := pthread_mutex_lock w in
  match hint with
  | POWER_HINT_INTERACTION =>
      pthread_mutex_unlock (hint_interaction k clk w)
  | POWER_HINT_VSYNC =>
      if negb (interactiveActive (vars w)) then
        pthread_mutex_unlock w                          (* unlock; return *)
      else
        pthread_mutex_unlock (hint_vsync k clk data w)
  | POWER_HINT_LOW_POWER => pthread_mutex_unlock w
  | POWER_HINT_OTHER _ => pthread_mutex_unlock w
  end.

(** ** Runs *)

(** The atomic actions of the process after [power_init]. *)
Inductive action : Type :=
| Hint (k : io_outcome) (clk : timespec) (hint : power_hint_t) (data : Z)
| Worker (k : io_outcome) (clk : timespec).

Definition step (w : world) (a : action) : world :=
  match a with
  | Hint k clk hint data => power_hint k clk hint data w
  | Worker k clk =>
      match worker_step k clk w with
      | Some w' => w'
      | None => w
      end
  end.

Definition exec (acts : list action) (w : world) : world := fold_left step acts w.

(** Observations on a trace. *)

(** Number of times the pulse attribute was asserted: every [sysfs_write] of
    it starts by opening the attribute for writing. *)
Definition is_pulse (e : event) : bool :=
  match snd e with
  | SysOpen path O_WRONLY _ => String.eqb path TOUCHBOOST_PULSE_SYSFS
  | _ => false
  end.

Definition pulses (w : world) : nat := List.length (filter is_pulse (trace w)).

(** The writes made to the scheduler-boost descriptor: time and level. *)
Fixpoint boost_writes (fd : Z) (t : list event) : list (Z * string) :=
  match t with
  | [] => []
  | (at_, SysWrite fd' buf _ _) :: t' =>
      if fd' =? fd then (at_, buf) :: boost_writes fd t' else boost_writes fd t'
  | _ :: t' => boost_writes fd t'
  end.

(** ** Invariants, scenarios and runs used in the statements *)

(** Either no vsync boost is running and no pulse remains, or one is running
    with one to four pulses left. *)
Definition vsync_inv (w : world) : Prop :=
  (vsync_boost (intel w) = 0 /\ vsync_count (vars w) = 0) \/
  (vsync_boost (intel w) = 1 /\ 1 <= vsync_count (vars w) <= 4).

(** Scroll mode excludes vsync boost. *)
Definition scroll_excludes_vsync (w : world) : Prop :=
  touchboost_disable (intel w) = 1 -> vsync_boost (intel w) = 0.

(** The clock reading at [n] milliseconds. *)
Definition ms (n : Z) : timespec := mkTimespec (n / 1000) (n mod 1000 * 1000000).

(** A kernel that serves every call: descriptor 3, one byte moved. *)
Definition served : io_outcome := mkIo 3 1 "Success".

(** An interaction hint at [n] ms, served by the kernel. *)
Definition touch (n : Z) : action := Hint served (ms n) POWER_HINT_INTERACTION 0.

(** A vsync hint at [n] ms with payload [data]. *)
Definition vsync (n : Z) (data : Z) : action := Hint served (ms n) POWER_HINT_VSYNC data.

(** The module after a start-up at 900 ms in which all three probes succeed. *)
Definition booted : world :=
  power_init served served served (ms 900) HAL_MODULE_INFO_SYM.

(** Is the action an interaction hint? *)
Definition is_interaction (a : action) : bool :=
  match a with
  | Hint _ _ POWER_HINT_INTERACTION _ => true
  | _ => false
  end.

(** A scroll (six touches 10 ms apart) is released, the vsync 40 ms later
    starts a vsync boost, and the finger comes back within 100 ms. *)
Definition scroll_release_retouch : list action :=
  [touch 1000; touch 1010; touch 1020; touch 1030; touch 1040; touch 1050;
   vsync 1090 0; touch 1095; touch 1100].

(** The system calls of one assertion of the pulse attribute at [clk]. *)
Definition pulse_events (k : io_outcome) (clk : timespec) : list event :=
  map (fun c => (gettime_ns clk, c)) (snd (sysfs_write k TOUCHBOOST_PULSE_SYSFS "1")).

(** Six touches 10 ms apart after a pause: the sixth is the fifth fast one
    and the module is in scroll mode. *)
Definition scrolling : world :=
  exec [touch 1000; touch 1010; touch 1020; touch 1030; touch 1040; touch 1050] booted.

(** The finger is lifted: a vsync with a null payload 40 ms after the last
    touch. *)
Definition released : world := step scrolling (vsync 1090 0).

(** The module as the cadence test finds it: mutex held, both time stamps
    set to the clock reading. *)
Definition stamped (clk : timespec) (w : world) : world :=
  set_prev_time clk (set_curr_time clk (pthread_mutex_lock w)).

(** The reset values of the cadence state. *)
Definition reset_state (w : world) : Prop :=
  touchboost_disable (intel w) = 0 /\
  timer_set (intel w) = 0 /\
  vsync_boost (intel w) = 0 /\
  vsync_count (vars w) = 0 /\
  consecutive_touch_int (vars w) = 0.

(** Scroll mode holds after each action of [acts] run from [w]. *)
Fixpoint scroll_holds (acts : list action) (w : world) : Prop :=
  match acts with
  | [] => True
  | a :: rest =>
      touchboost_disable (intel (step w a)) = 1 /\ scroll_holds rest (step w a)
  end.

(** The module after one touch that follows a pause: reset values, time
    stamp at 1000 ms. *)
Definition touched : world := step booted (touch 1000).

(** Interaction hints in arrival order: what the kernel answers, the clock
    reading, the payload. *)
Definition touches (hs : list (io_outcome * timespec * Z)) : list action :=
  map (fun h => Hint (fst (fst h)) (snd (fst h)) POWER_HINT_INTERACTION (snd h)) hs.

(** Each hint comes at least [gap] ms after the time stamp before it, the
    first one after [prev]. *)
Fixpoint spaced (gap : Q) (prev : timespec) (hs : list (io_outcome * timespec * Z)) : Prop :=
  match hs with
  | [] => True
  | h :: rest => (gap <= diff_ms (snd (fst h)) prev)%Q /\ spaced gap (snd (fst h)) rest
  end.

(** Let the worker run at clock reading [clk] until it blocks. *)
Fixpoint settle (fuel : nat) (k : io_outcome) (clk : timespec) (w : world) : world :=
  match fuel with
  | O => w
  | S fuel' =>
      match worker_step k clk w with
      | Some w' => settle fuel' k clk w'
      | None => w
      end
  end.

(** Let the clock run up to [t] with no hint arriving: each time the
    worker's sleep ends it wakes at that very instant and runs until it
    blocks again. *)
Fixpoint advance (fuel : nat) (k : io_outcome) (t : Z) (w : world) : world :=
  match fuel with
  | O => w
  | S fuel' =>
      match worker w with
      | Some (W_sleep until) =>
          if until <=? t then advance fuel' k t (settle fuel k (at_ns until) w) else w
      | _ => w
      end
  end.

(** What the engine's state is made of: the descriptor, the deadline, the
    semaphore, the worker's position and the writes made so far. *)
Definition sched_state (w : world) (fd dt sl : Z) (pc : worker_pc)
    (log : list (Z * string)) : Prop :=
  schedtune_boost_fd (intel w) = fd /\
  deboost_time (intel w) = dt /\
  signal_lock (intel w) = sl /\
  worker w = Some pc /\
  boost_writes fd (trace w) = log.

(** Interaction hints take the debounce path: pulse boost is unavailable and
    scheduler boost is available. *)
Definition debounce_path (w : world) : Prop :=
  interactiveActive (vars w) = false /\ intelSchedBoostActive (vars w) = true.

(** A kernel without the attribute asked for. *)
Definition absent : io_outcome := mkIo (-1) (-1) "No such file or directory".

(** A device with the scheduler-boost attribute only, after start-up and the
    worker's first pass. *)
Definition sched_only : world :=
  settle 2 served (ms 901) (power_init absent absent served (ms 900) HAL_MODULE_INFO_SYM).

(** ** Vocabulary of the further properties *)

(** Descriptors opened and not closed again, counted along a trace. *)
Fixpoint fd_balance (t : list event) : Z :=
  match t with
  | [] => 0
  | (_, SysOpen _ _ fd) :: t' => (if fd <? 0 then 0 else 1) + fd_balance t'
  | (_, SysClose _) :: t' => fd_balance t' - 1
  | _ :: t' => fd_balance t'
  end.

(** The three capability flags. *)
Definition caps (w : world) : bool * bool * bool :=
  (interactiveActive (vars w), intelPStateActive (vars w), intelSchedBoostActive (vars w)).

(** Everything the code can read back: the world without its trace. *)
Definition state_of (w : world) : intel_power_module * statics * option worker_pc :=
  (intel w, vars w, worker w).

(** The same call at the same clock reading, whatever the kernel answers. *)
Definition same_call (a b : action) : Prop :=
  match a, b with
  | Hint _ c h d, Hint _ c' h' d' => c = c' /\ h = h' /\ d = d'
  | Worker _ c, Worker _ c' => c = c'
  | _, _ => False
  end.

(** The system calls of one write of a level to the scheduler-boost
    descriptor at [clk]. *)
Definition boost_events (k : io_outcome) (clk : timespec) (fd : Z) (lvl : string)
    : list event :=
  map (fun c => (gettime_ns clk, c)) (snd (schedtune_sysfs_boost k fd lvl)).

(** The level last written to the scheduler-boost descriptor. *)
Definition last_boost_write (fd : Z) (t : list event) : option string :=
  match rev (boost_writes fd t) with
  | [] => None
  | (_, lvl) :: _ => Some lvl
  end.

(** Hints arrive at clock readings that are non-negative and leave room for
    the window. *)
Definition hint_clock_ok (a : action) : Prop :=
  match a with
  | Hint _ clk _ _ => 0 <= gettime_ns clk < 2 ^ 62
  | Worker _ _ => True
  end.

(** Each hint comes less than 20 ms after the time stamp before it, the
    first one after [prev]. *)
Fixpoint rapid (prev : timespec) (hs : list (io_outcome * timespec * Z)) : Prop :=
  match hs with
  | [] => True
  | h :: rest =>
      (diff_ms (snd (fst h)) prev < inject_Z SHORT_TOUCH_TIME)%Q /\ rapid (snd (fst h)) rest
  end.

(** Vsync hints in arrival order. *)
Definition vsyncs (hs : list (io_outcome * timespec * Z)) : list action :=
  map (fun h => Hint (fst (fst h)) (snd (fst h)) POWER_HINT_VSYNC (snd h)) hs.

(** Boost requests, the clock running up to each one and the worker reacting
    at once after it. *)
Fixpoint burst (fuel : nat) (kw : io_outcome) (reqs : list (io_outcome * timespec * Z))
    (w : world) : world :=
  match reqs with
  | [] => w
  | h :: rest =>
      let clk := snd (fst h) in
      burst fuel kw rest
        (settle fuel kw clk
           (power_hint (fst (fst h)) clk POWER_HINT_INTERACTION (snd h)
              (advance fuel kw (gettime_ns clk) w)))
  end.

(** The clock values of a list of requests. *)
Definition request_times (reqs : list (io_outcome * timespec * Z)) : list Z :=
  map (fun h => gettime_ns (snd (fst h))) reqs.

(** Clock values in arrival order from [prev] on, each leaving room for the
    window. *)
Fixpoint in_order (prev : Z) (ts : list Z) : Prop :=
  match ts with
  | [] => True
  | t :: rest => prev <= t < 2 ^ 62 /\ in_order t rest
  end.

(** A debounce over request times: [pending] is the deadline of the episode
    under way.  A request before the deadline moves it; a request at or after
    it finds the normal level written at the deadline and starts an episode;
    the last episode ends at its deadline. *)
Fixpoint debounce_log (pending : option Z) (ts : list Z) : list (Z * string) :=
  match ts with
  | [] =>
      match pending with
      | Some dl => [(dl, SCHEDTUNE_BOOST_NORM)]
      | None => []
      end
  | t :: rest =>
      match pending with
      | None =>
          (t, SCHEDTUNE_BOOST_INTERACTIVE)
            :: debounce_log (Some (t + SCHEDTUNE_BOOST_TIME_NS)) rest
      | Some dl =>
          if t <? dl then debounce_log (Some (t + SCHEDTUNE_BOOST_TIME_NS)) rest
          else (dl, SCHEDTUNE_BOOST_NORM)
                 :: (t, SCHEDTUNE_BOOST_INTERACTIVE)
                 :: debounce_log (Some (t + SCHEDTUNE_BOOST_TIME_NS)) rest
      end
  end.

(** The deadline left after the requests at [ts]. *)
Fixpoint final_deadline (pending : option Z) (ts : list Z) : option Z :=
  match ts with
  | [] => pending
  | t :: rest => final_deadline (Some (t + SCHEDTUNE_BOOST_TIME_NS)) rest
  end.

(** The flags of the cadence state: each is 0 or 1, the timer flag is raised
    only in scroll mode, and both touch time stamps agree. *)
Definition flags_inv (w : world) : Prop :=
  (touchboost_disable (intel w) = 0 \/ touchboost_disable (intel w) = 1) /\
  (timer_set (intel w) = 0 \/ timer_set (intel w) = 1) /\
  (vsync_boost (intel w) = 0 \/ vsync_boost (intel w) = 1) /\
  (timer_set (intel w) = 1 -> touchboost_disable (intel w) = 1) /\
  curr_time (vars w) = prev_time (vars w).

(** Between actions the flags are as above and the mutex is free. *)
Definition cadence_inv (w : world) : Prop :=
  flags_inv w /\ lock (intel w) = false.

(** Pulses a run of vsync hints can still assert: those left, and four more
    if a release is still to come. *)
Definition vsync_budget (w : world) : Z :=
  vsync_count (vars w) + (if touchboost_disable (intel w) =? 1 then VSYNC_BOOST_COUNT else 0).

(** Sixteen touches 10 ms apart, from 1010 ms on. *)
Definition sixteen_touches : list (io_outcome * timespec * Z) :=
  map (fun i => (served, ms (1010 + 10 * Z.of_nat i), 0)) (seq 0 16).

(** The engine between requests: idle at its wait, or with an episode under
    way whose deadline is one window after the last request at [tlast] and
    the worker asleep until some instant after [tlast] and not after the
    deadline. *)
Definition engine_pending (w : world) (fd : Z) (pending : option Z) (tlast : Z)
    (log : list (Z * string)) : Prop :=
  match pending with
  | None => sched_state w fd 0 0 W_sem_wait log
  | Some dl =>
      dl = tlast + SCHEDTUNE_BOOST_TIME_NS /\
      exists u, sched_state w fd dl 0 (W_sleep u) log /\ tlast < u <= dl
  end.

(** Two requests half a second apart and a third one after the window. *)
Definition three_requests : list (io_outcome * timespec * Z) :=
  [(served, ms 2000, 0); (served, ms 2500, 0); (served, ms 4000, 0)].

(** Passes of the worker still to come: the value of the semaphore, and one
    more when the worker is inside its inner loop. *)
Definition passes_due (w : world) : Z :=
  signal_lock (intel w)
  + match worker w with
    | Some W_check | Some (W_sleep _) => 1
    | _ => 0
    end.

(** The engine between actions: the worker exists, the semaphore is not
    negative, at most one pass is due beyond the one of a pending deadline,
    a pending deadline has a pass due, and a deadline is pending exactly
    when the boost level is the one last written. *)
Definition engine_inv (w : world) : Prop :=
  worker w <> None /\
  0 <= signal_lock (intel w) /\
  passes_due w <= (if deboost_time (intel w) =? 0 then 1 else 2) /\
  (deboost_time (intel w) <> 0 -> 1 <= passes_due w) /\
  (deboost_time (intel w) <> 0 <->
   last_boost_write (schedtune_boost_fd (intel w)) (trace w)
   = Some SCHEDTUNE_BOOST_INTERACTIVE).

(** A request that races the worker's first pass, a second request, and the
    worker running at arbitrary instants. *)
Definition racing_schedule : list action :=
  [Hint served (ms 901) POWER_HINT_INTERACTION 0;
   Worker served (ms 902);
   Worker served (ms 903);
   Hint served (ms 1500) POWER_HINT_INTERACTION 0;
   Hint served (ms 1600) POWER_HINT_VSYNC 1;
   Worker served (ms 1901);
   Worker served (ms 2600);
   Worker served (ms 2601);
   Worker served (ms 2602)].

(** A log made of episodes: the boost level written at [t1], not before
    [lo], then the normal level written at [t2], a window or more after
    [t1]; the next episode not before [t2]. *)
Fixpoint episodes (lo : Z) (log : list (Z * string)) : Prop :=
  match log with
  | [] => True
  | (t1, l1) :: rest =>
      match rest with
      | [] => False
      | (t2, l2) :: rest' =>
          l1 = SCHEDTUNE_BOOST_INTERACTIVE /\ l2 = SCHEDTUNE_BOOST_NORM /\
          lo <= t1 /\ t1 + SCHEDTUNE_BOOST_TIME_NS <= t2 /\
          episodes t2 rest'
      end
  end.

(** The instant [t] and the window after it lie inside one episode of the
    log. *)
Fixpoint covered (t : Z) (log : list (Z * string)) : Prop :=
  match log with
  | [] => False
  | (t1, _) :: rest =>
      match rest with
      | [] => False
      | (t2, _) :: rest' =>
          (t1 <= t /\ t + SCHEDTUNE_BOOST_TIME_NS <= t2) \/ covered t rest'
      end
  end.

(** A clock reading as [clock_gettime] gives it, early enough for its
    nanosecond count to fit a [long long]. *)
Definition normalised (ts : timespec) : Prop :=
  0 <= tv_sec ts < 2 ^ 33 /\ 0 <= tv_nsec ts < NSEC_PER_SEC.

(** Error lines and transfers among the system calls of one helper. *)
Fixpoint error_lines (t : list syscall) : list string :=
  match t with
  | [] => []
  | SysLogE msg :: t' => msg :: error_lines t'
  | _ :: t' => error_lines t'
  end.

Fixpoint transfers (t : list syscall) : list syscall :=
  match t with
  | [] => []
  | SysWrite fd buf n r :: t' => SysWrite fd buf n r :: transfers t'
  | SysRead fd n r :: t' => SysRead fd n r :: transfers t'
  | _ :: t' => transfers t'
  end.

(** * Properties *)

(** ** Arithmetic helpers *)

Lemma wrap_int_small (x : Z) : - 2 ^ 31 <= x < 2 ^ 31 -> wrap_int x = x.
Proof.
  intros Hx. unfold wrap_int, wrap.
  change (2 ^ (32 - 1)) with (2 ^ 31).
  rewrite Z.mod_small; lia.
Qed.

Lemma wrap_ll_small (x : Z) : - 2 ^ 63 <= x < 2 ^ 63 -> wrap_ll x = x.
Proof.
  intros Hx. unfold wrap_ll, wrap.
  change (2 ^ (64 - 1)) with (2 ^ 63).
  rewrite Z.mod_small; lia.
Qed.

Lemma Qlt_bool_true (x y : Q) : Qlt_bool x y = true <-> (x < y)%Q.
Proof.
  unfold Qlt_bool. rewrite negb_true_iff. split.
  - intros H. apply Qnot_le_lt. intros Hle.
    apply Qle_bool_iff in Hle. congruence.
  - intros H. destruct (Qle_bool y x) eqn:E; [|reflexivity].
    apply Qle_bool_iff in E. exfalso. exact (Qlt_not_le _ _ H E).
Qed.

Lemma Qlt_bool_false (x y : Q) : Qlt_bool x y = false <-> (y <= x)%Q.
Proof.
  unfold Qlt_bool. rewrite negb_false_iff. apply Qle_bool_iff.
Qed.

(** ** Attribute I/O *)

Example sysfs_write_ok :
  sysfs_write (mkIo 3 1 "ok") "/a" "1" =
  (0, [SysOpen "/a" O_WRONLY 3; SysWrite 3 "1" 1 1; SysClose 3]).
Proof. reflexivity. Qed.

Section AttributeIO.

Variable k : io_outcome.
Variables path s : string.
Variable length : Z.

(** The kernel's answer to the single transfer fits an [int]. *)
Hypothesis rw_fits : -1 <= rw_ret k <= INT_MAX.

Lemma len_negative : (wrap_int (rw_ret k) <? 0) = (rw_ret k <? 0).
Proof.
  unfold INT_MAX in rw_fits. rewrite wrap_int_small; [reflexivity | lia].
Qed.

Lemma sysfs_write_cases :
  sysfs_write k path s =
  if open_ret k <? 0 then
    (-1, [SysOpen path O_WRONLY (open_ret k);
          SysLogE ("Error opening " ++ path ++ ": " ++ err_text k)%string])
  else if rw_ret k <? 0 then
    (-1, [SysOpen path O_WRONLY (open_ret k);
          SysWrite (open_ret k) s (strlen s) (rw_ret k);
          SysLogE ("Error writing to " ++ path ++ ": " ++ err_text k)%string;
          SysClose (open_ret k)])
  else
    (0, [SysOpen path O_WRONLY (open_ret k);
         SysWrite (open_ret k) s (strlen s) (rw_ret k);
         SysClose (open_ret k)]).
Proof.
  unfold sysfs_write, c_open, io_bind.
  destruct (open_ret k <? 0) eqn:Eo; [reflexivity|].
  unfold c_write. rewrite len_negative.
  destruct (rw_ret k <? 0); reflexivity.
Qed.

Lemma sysfs_read_cases :
  sysfs_read k path length =
  if open_ret k <? 0 then
    (-1, [SysOpen path O_RDONLY (open_ret k);
          SysLogE ("Error opening " ++ path ++ ": " ++ err_text k)%string])
  else if rw_ret k <? 0 then
    (-1, [SysOpen path O_RDONLY (open_ret k);
          SysRead (open_ret k) length (rw_ret k);
          SysLogE ("Error reading from " ++ path ++ ": " ++ err_text k)%string;
          SysClose (open_ret k)])
  else
    (0, [SysOpen path O_RDONLY (open_ret k);
         SysRead (open_ret k) length (rw_ret k);
         SysClose (open_ret k)]).
Proof.
  unfold sysfs_read, c_open, io_bind.
  destruct (open_ret k <? 0) eqn:Eo; [reflexivity|].
  unfold c_read. rewrite len_negative.
  destruct (rw_ret k <? 0); reflexivity.
Qed.

End AttributeIO.

(** C7, as the code has it: an [open] failure and a failed transfer give the
    error result -1; every other transfer, a short one included, gives the
    success result 0; nothing else is ever returned; a descriptor that was
    opened is closed by the last system call of the helper on both paths, and
    none is left open. *)
Theorem C7_attribute_io_error_results
    (k : io_outcome) (path s : string) (length : Z)
    (rw_fits : -1 <= rw_ret k <= INT_MAX) :
  let wr := sysfs_write k path s in
  let rd := sysfs_read k path length in
  (fst wr = if (open_ret k <? 0) || (rw_ret k <? 0) then -1 else 0) /\
  (fst rd = if (open_ret k <? 0) || (rw_ret k <? 0) then -1 else 0) /\
  open_fds (snd wr) [] = [] /\
  open_fds (snd rd) [] = [] /\
  (0 <= open_ret k ->
   last (snd wr) (SysLogE path) = SysClose (open_ret k) /\
   last (snd rd) (SysLogE path) = SysClose (open_ret k) /\
   count_occ Z.eq_dec (open_fds (removelast (snd wr)) []) (open_ret k) = 1%nat /\
   count_occ Z.eq_dec (open_fds (removelast (snd rd)) []) (open_ret k) = 1%nat).
Proof.
  intros wr rd. subst wr rd.
  rewrite (sysfs_write_cases k path s rw_fits).
  rewrite (sysfs_read_cases k path length rw_fits).
  destruct (open_ret k <? 0) eqn:Eo.
  - simpl. rewrite Eo. repeat split; try reflexivity; intros; lia.
  - destruct (rw_ret k <? 0) eqn:Er; simpl; rewrite Eo;
      destruct (Z.eq_dec (open_ret k) (open_ret k)); try congruence;
      repeat split; try reflexivity; intros; simpl; rewrite ?Eo; simpl;
      destruct (Z.eq_dec (open_ret k) (open_ret k)); congruence.
Qed.

(** C7 at descriptor 3 with a transfer of one byte out of the three asked. *)
Lemma C7_attribute_io_error_results_witness :
  -1 <= rw_ret (mkIo 3 1 "ok") <= INT_MAX /\
  fst (sysfs_write (mkIo 3 1 "ok") cpufreq_boost_intel_pstate "100") = 0 /\
  open_fds (snd (sysfs_write (mkIo 3 1 "ok") cpufreq_boost_intel_pstate "100")) [] = [].
Proof.
  assert (H : -1 <= rw_ret (mkIo 3 1 "ok") <= INT_MAX)
    by (unfold INT_MAX; simpl; lia).
  split; [exact H|].
  destruct (C7_attribute_io_error_results (mkIo 3 1 "ok")
              cpufreq_boost_intel_pstate "100" 4 H) as (Hw & _ & Hc & _).
  split; [exact Hw | exact Hc].
Defined.

(** C7 as worded fails: a short write (one byte of three) and a short read
    (no byte of four) come back as success, not as an error. *)
Lemma C7_short_transfer_is_success :
  let k1 := mkIo 3 1 "ok" in
  let k0 := mkIo 3 0 "ok" in
  (0 <= rw_ret k1 < strlen "100" /\
   fst (sysfs_write k1 cpufreq_boost_intel_pstate "100") = 0) /\
  (0 <= rw_ret k0 < 4 /\
   fst (sysfs_read k0 cpufreq_boost_intel_pstate 4) = 0).
Proof.
  simpl. repeat split; try lia; reflexivity.
Qed.

(** ** Traces and pulses *)

Lemma pulses_add_trace (es : list event) (w : world) :
  pulses (add_trace es w) = (pulses w + List.length (filter is_pulse es))%nat.
Proof.
  unfold pulses, add_trace. simpl. rewrite filter_app, length_app. reflexivity.
Qed.

(** A write to the scheduler-boost descriptor asserts no pulse. *)
Lemma pulses_schedtune_sysfs_boost (k : io_outcome) (clk : timespec) (fd : Z)
    (lvl : string) (w : world) :
  pulses (snd (run_io clk (schedtune_sysfs_boost k fd lvl) w)) = pulses w.
Proof.
  unfold run_io. cbn [snd]. rewrite pulses_add_trace.
  unfold schedtune_sysfs_boost, c_write, io_bind.
  destruct (wrap_int (rw_ret k) <? 0); simpl; lia.
Qed.

(** Unfolding of the field updates, and case analysis on the tests met. *)
Ltac setters :=
  cbv [set_touchboost_disable set_timer_set set_vsync_boost set_lock
       set_schedtune_boost_fd set_deboost_time set_signal_lock
       set_interactiveActive set_intelPStateActive set_intelSchedBoostActive
       set_curr_time set_prev_time set_vsync_time set_vsync_count
       set_consecutive_touch_int set_worker sem_post
       pthread_mutex_lock pthread_mutex_unlock upd_intel upd_vars] in *;
  cbn [intel vars worker trace touchboost_disable timer_set vsync_boost lock
       schedtune_boost_fd deboost_time signal_lock interactiveActive
       intelPStateActive intelSchedBoostActive curr_time prev_time vsync_time
       vsync_count consecutive_touch_int] in *.

Ltac break_if :=
  match goal with
  | |- context [if ?c then _ else _] => destruct c eqn:?
  end.

(** ** The dispatch lock *)

Lemma power_hint_unlocks (k : io_outcome) (clk : timespec) (hint : power_hint_t)
    (data : Z) (w : world) :
  lock (intel (power_hint k clk hint data w)) = false.
Proof.
  unfold power_hint. destruct hint; repeat break_if; reflexivity.
Qed.

(** C8: with pulse boost unavailable a vsync hint changes nothing: every
    member of the module, every static, the worker and the trace of system
    calls are as before, and the mutex taken on entry is free again. *)
Theorem C8_vsync_ignored_without_pulse_boost
    (k : io_outcome) (clk : timespec) (data : Z) (w : world)
    (Hoff : interactiveActive (vars w) = false)
    (Hfree : lock (intel w) = false) :
  power_hint k clk POWER_HINT_VSYNC data w = w /\
  lock (intel (power_hint k clk POWER_HINT_VSYNC data w)) = false.
Proof.
  split; [|apply power_hint_unlocks].
  destruct w as [[tbd ts vb lk fd dt sl] v wk tr].
  unfold power_hint. setters. rewrite Hoff. simpl in Hfree. subst lk. reflexivity.
Qed.

Lemma C8_vsync_ignored_without_pulse_boost_witness :
  interactiveActive (vars HAL_MODULE_INFO_SYM) = false /\
  lock (intel HAL_MODULE_INFO_SYM) = false /\
  power_hint (mkIo 3 1 "ok") (mkTimespec 7 0) POWER_HINT_VSYNC 1 HAL_MODULE_INFO_SYM
  = HAL_MODULE_INFO_SYM.
Proof.
  split; [reflexivity|]. split; [reflexivity|].
  apply (C8_vsync_ignored_without_pulse_boost (mkIo 3 1 "ok") (mkTimespec 7 0) 1
           HAL_MODULE_INFO_SYM); reflexivity.
Defined.

(** ** The vsync pulse counter *)

Lemma vsync_inv_fields (w w' : world) :
  vsync_boost (intel w') = vsync_boost (intel w) ->
  vsync_count (vars w') = vsync_count (vars w) ->
  vsync_inv w -> vsync_inv w'.
Proof. unfold vsync_inv. intros -> ->. exact (fun H => H). Qed.

Ltac same_vsync w H :=
  apply (vsync_inv_fields w); [reflexivity | reflexivity | exact H].

Lemma schedtune_boost_touch_fields (k : io_outcome) (clk : timespec) (w : world) :
  let w' := schedtune_boost k clk w in
  touchboost_disable (intel w') = touchboost_disable (intel w) /\
  timer_set (intel w') = timer_set (intel w) /\
  vsync_boost (intel w') = vsync_boost (intel w) /\
  vars w' = vars w.
Proof.
  unfold schedtune_boost. destruct (deboost_time (intel w) =? 0);
    repeat split; reflexivity.
Qed.

Lemma vsync_inv_touch_classify (diff : Q) (w : world) :
  vsync_inv w -> vsync_inv (touch_classify diff w).
Proof.
  intros H. unfold touch_classify.
  destruct (Qlt_bool diff (inject_Z SHORT_TOUCH_TIME)); [same_vsync w H|].
  destruct (Qlt_bool (inject_Z LONG_TOUCH_TIME) diff); [|exact H].
  left. split; reflexivity.
Qed.

Lemma vsync_inv_touch_scroll_entry (diff : Q) (w : world) :
  vsync_inv w -> vsync_inv (touch_scroll_entry diff w).
Proof.
  intros H. unfold touch_scroll_entry. break_if; [same_vsync w H | exact H].
Qed.

Lemma vsync_inv_touch_timer (w : world) : vsync_inv w -> vsync_inv (touch_timer w).
Proof.
  intros H. unfold touch_timer. break_if; [same_vsync w H | exact H].
Qed.

Lemma vsync_inv_touch_pulse (k : io_outcome) (clk : timespec) (w : world) :
  vsync_inv w -> vsync_inv (touch_pulse k clk w).
Proof.
  intros H. unfold touch_pulse. break_if; [same_vsync w H | exact H].
Qed.

Lemma vsync_inv_hint_interaction (k : io_outcome) (clk : timespec) (w : world) :
  vsync_inv w -> vsync_inv (hint_interaction k clk w).
Proof.
  intros H. unfold hint_interaction.
  destruct (negb (interactiveActive (vars w))).
  - destruct (negb (intelSchedBoostActive (vars w))); [exact H|].
    destruct (schedtune_boost_touch_fields k clk w) as (_ & _ & Hb & Hv).
    apply (vsync_inv_fields w); [exact Hb | now rewrite Hv | exact H].
  - cbv zeta.
    apply vsync_inv_touch_pulse, vsync_inv_touch_timer,
      vsync_inv_touch_scroll_entry, vsync_inv_touch_classify.
    same_vsync w H.
Qed.

Lemma vsync_inv_touch_release (clk : timespec) (w : world) :
  vsync_inv w -> vsync_inv (vsync_touch_release clk w).
Proof.
  intros H. unfold vsync_touch_release.
  destruct (touchboost_disable (intel w) =? 1); [|exact H].
  cbv zeta. break_if; [|same_vsync w H].
  right. cbn. unfold VSYNC_BOOST_COUNT. lia.
Qed.

Lemma vsync_inv_pulse (k : io_outcome) (clk : timespec) (data : Z) (w : world) :
  vsync_inv w -> vsync_inv (vsync_pulse k clk data w).
Proof.
  intros H. unfold vsync_pulse.
  destruct (negb (vsync_boost (intel w) =? 0)); [|exact H].
  destruct (negb (data =? 0) && (vsync_count (vars w) >? 0)) eqn:Eg; [|exact H].
  apply andb_true_iff in Eg. destruct Eg as [_ Hpos]. apply Z.gtb_lt in Hpos.
  destruct H as [[_ H0] | [H1 Hr]]; [lia|].
  cbv zeta.
  set (w1 := set_vsync_count _ _).
  assert (Hc : vsync_count (vars w1) = vsync_count (vars w) - 1).
  { subst w1. cbn. apply wrap_int_small. lia. }
  assert (Hb : vsync_boost (intel w1) = 1) by exact H1.
  destruct (vsync_count (vars w1) =? 0) eqn:Ez.
  - apply Z.eqb_eq in Ez. left. split; [reflexivity | exact Ez].
  - apply Z.eqb_neq in Ez. right. split; [exact Hb | lia].
Qed.

Lemma vsync_inv_power_hint (k : io_outcome) (clk : timespec) (hint : power_hint_t)
    (data : Z) (w : world) :
  vsync_inv w -> vsync_inv (power_hint k clk hint data w).
Proof.
  intros H.
  assert (Hl : vsync_inv (pthread_mutex_lock w)) by same_vsync w H.
  assert (Hu : forall x, vsync_inv x -> vsync_inv (pthread_mutex_unlock x))
    by (intros x Hx; same_vsync x Hx).
  unfold power_hint. destruct hint.
  - destruct (negb (interactiveActive (vars (pthread_mutex_lock w)))).
    + apply Hu, Hl.
    + apply Hu. unfold hint_vsync. apply vsync_inv_pulse, vsync_inv_touch_release, Hl.
  - apply Hu, vsync_inv_hint_interaction, Hl.
  - apply Hu, Hl.
  - apply Hu, Hl.
Qed.

(** The worker touches the deadline, the semaphore, the mutex and the trace
    only. *)
Lemma worker_step_touch_fields (k : io_outcome) (clk : timespec) (w w' : world) :
  worker_step k clk w = Some w' ->
  touchboost_disable (intel w') = touchboost_disable (intel w) /\
  timer_set (intel w') = timer_set (intel w) /\
  vsync_boost (intel w') = vsync_boost (intel w) /\
  vars w' = vars w.
Proof.
  unfold worker_step. destruct (worker w) as [[ | | u]|]; try discriminate.
  - destruct (0 <? signal_lock (intel w)); [|discriminate].
    intros [= <-]. repeat split; reflexivity.
  - cbv zeta.
    destruct (deboost_time (intel (pthread_mutex_lock w)) >? gettime_ns clk);
      intros [= <-]; repeat split; reflexivity.
  - destruct (u <=? gettime_ns clk); [|discriminate].
    intros [= <-]. repeat split; reflexivity.
Qed.

Lemma vsync_inv_step (a : action) (w : world) : vsync_inv w -> vsync_inv (step w a).
Proof.
  intros H. destruct a as [k clk hint data | k clk]; simpl.
  - apply vsync_inv_power_hint, H.
  - destruct (worker_step k clk w) as [w'|] eqn:E; [|exact H].
    destruct (worker_step_touch_fields k clk w w' E) as (_ & _ & Hb & Hv).
    apply (vsync_inv_fields w); [exact Hb | now rewrite Hv | exact H].
Qed.

Lemma vsync_inv_exec (acts : list action) (w : world) :
  vsync_inv w -> vsync_inv (exec acts w).
Proof.
  revert w. induction acts as [|a acts IH]; intros w H; simpl.
  - exact H.
  - apply IH, vsync_inv_step, H.
Qed.

Lemma power_init_touch_fields (k1 k2 k3 : io_outcome) (clk : timespec) (w : world) :
  let w' := power_init k1 k2 k3 clk w in
  touchboost_disable (intel w') = touchboost_disable (intel w) /\
  timer_set (intel w') = timer_set (intel w) /\
  vsync_boost (intel w') = vsync_boost (intel w) /\
  vsync_count (vars w') = vsync_count (vars w) /\
  consecutive_touch_int (vars w') = consecutive_touch_int (vars w).
Proof.
  unfold power_init, schedtune_power_init.
  cbn [run_io fst snd].
  repeat break_if; repeat split; reflexivity.
Qed.

Lemma vsync_inv_boot (k1 k2 k3 : io_outcome) (clk : timespec) :
  vsync_inv (power_init k1 k2 k3 clk HAL_MODULE_INFO_SYM).
Proof.
  destruct (power_init_touch_fields k1 k2 k3 clk HAL_MODULE_INFO_SYM)
    as (_ & _ & Hb & Hc & _).
  apply (vsync_inv_fields HAL_MODULE_INFO_SYM); [exact Hb | exact Hc |].
  left. split; reflexivity.
Qed.

Ltac zbool :=
  repeat match goal with
  | H : (_ && _) = true |- _ => apply andb_true_iff in H; destruct H
  | H : negb _ = true |- _ => apply negb_true_iff in H
  | H : negb _ = false |- _ => apply negb_false_iff in H
  | H : (_ =? _) = true |- _ => apply Z.eqb_eq in H
  | H : (_ =? _) = false |- _ => apply Z.eqb_neq in H
  | H : (_ >? _) = true |- _ => apply Z.gtb_lt in H
  | H : (_ <? _) = true |- _ => apply Z.ltb_lt in H
  | H : (_ <? _) = false |- _ => apply Z.ltb_ge in H
  | H : (_ <=? _) = true |- _ => apply Z.leb_le in H
  | H : (_ <=? _) = false |- _ => apply Z.leb_gt in H
  end.

Example scroll_release_retouch_state :
  let w := exec scroll_release_retouch booted in
  (touchboost_disable (intel w), vsync_boost (intel w), vsync_count (vars w),
   consecutive_touch_int (vars w)) = (1, 1, 4, 6).
Proof. vm_compute. reflexivity. Qed.

(** C9: from start-up on, whatever hints and worker steps follow, the count
    of vsync pulses left is never negative; and the pulse block changes the
    count only when it was positive. *)
Theorem C9_vsync_count_never_negative
    (k1 k2 k3 : io_outcome) (clk0 : timespec) (acts : list action) :
  0 <= vsync_count (vars (exec acts (power_init k1 k2 k3 clk0 HAL_MODULE_INFO_SYM))) /\
  (forall k clk data w,
      vsync_count (vars (vsync_pulse k clk data w)) <> vsync_count (vars w) ->
      0 < vsync_count (vars w)).
Proof.
  split.
  - destruct (vsync_inv_exec acts _ (vsync_inv_boot k1 k2 k3 clk0)) as [[_ H]|[_ H]]; lia.
  - intros k clk data w. unfold vsync_pulse.
    destruct (negb (vsync_boost (intel w) =? 0)); [|congruence].
    destruct (negb (data =? 0) && (vsync_count (vars w) >? 0)) eqn:E; [|congruence].
    intros _. zbool. assumption.
Qed.

(** C3, second half as worded, fails: after [scroll_release_retouch] the
    module is in scroll mode with the vsync boost still running. *)
Lemma C3_scroll_mode_with_vsync_boost :
  ~ scroll_excludes_vsync (exec scroll_release_retouch booted).
Proof.
  unfold scroll_excludes_vsync. intros H.
  assert (Et : touchboost_disable (intel (exec scroll_release_retouch booted)) = 1)
    by (vm_compute; reflexivity).
  assert (Eb : vsync_boost (intel (exec scroll_release_retouch booted)) = 1)
    by (vm_compute; reflexivity).
  specialize (H Et). rewrite Eb in H. discriminate H.
Qed.

(** Interaction hints never switch the vsync boost on. *)
Lemma hint_interaction_keeps_vsync_off (k : io_outcome) (clk : timespec) (w : world) :
  vsync_boost (intel w) = 0 ->
  vsync_boost (intel (hint_interaction k clk w)) = 0.
Proof.
  intros H. unfold hint_interaction.
  destruct (negb (interactiveActive (vars w))).
  - destruct (negb (intelSchedBoostActive (vars w))); [exact H|].
    destruct (schedtune_boost_touch_fields k clk w) as (_ & _ & Hb & _).
    rewrite Hb. exact H.
  - cbv zeta. unfold touch_pulse. break_if; cbn [run_io snd add_trace intel];
      unfold touch_timer; break_if;
      unfold touch_scroll_entry; break_if;
      unfold touch_classify; repeat break_if; first [exact H | reflexivity].
Qed.

Lemma vsync_touch_release_cases (clk : timespec) (w : world) :
  let r := vsync_touch_release clk w in
  touchboost_disable (intel r) = 0 \/ intel r = intel w.
Proof.
  unfold vsync_touch_release.
  destruct (touchboost_disable (intel w) =? 1); [|right; reflexivity].
  cbv zeta. break_if; [left | right]; reflexivity.
Qed.

Lemma vsync_pulse_fields (k : io_outcome) (clk : timespec) (data : Z) (w : world) :
  let p := vsync_pulse k clk data w in
  touchboost_disable (intel p) = touchboost_disable (intel w) /\
  timer_set (intel p) = timer_set (intel w) /\
  (vsync_boost (intel p) = vsync_boost (intel w) \/ vsync_boost (intel p) = 0).
Proof.
  unfold vsync_pulse.
  destruct (negb (vsync_boost (intel w) =? 0)) eqn:Eb.
  - destruct (negb (data =? 0) && (vsync_count (vars w) >? 0)).
    + cbv zeta. break_if; repeat split; try reflexivity; [right | left]; reflexivity.
    + repeat split; left; reflexivity.
  - repeat split; left; reflexivity.
Qed.

Lemma scroll_excludes_vsync_step (w : world) (a : action) :
  scroll_excludes_vsync w ->
  vsync_boost (intel w) = 0 \/ is_interaction a = false ->
  scroll_excludes_vsync (step w a).
Proof.
  intros Hinv Hcase. destruct a as [k clk hint data | k clk]; simpl.
  - destruct hint; simpl in Hcase.
    + (* vsync *)
      unfold power_hint.
      destruct (negb (interactiveActive (vars (pthread_mutex_lock w)))); [exact Hinv|].
      unfold scroll_excludes_vsync, hint_vsync.
      change (touchboost_disable (intel (pthread_mutex_unlock ?x)))
        with (touchboost_disable (intel x)).
      change (vsync_boost (intel (pthread_mutex_unlock ?x)))
        with (vsync_boost (intel x)).
      set (r := vsync_touch_release clk (pthread_mutex_lock w)).
      destruct (vsync_pulse_fields k clk data r) as (Ht & _ & Hb).
      rewrite Ht. intros Hr.
      destruct (vsync_touch_release_cases clk (pthread_mutex_lock w)) as [H0 | Hsame];
        fold r in H0 || fold r in Hsame.
      * rewrite H0 in Hr. discriminate Hr.
      * destruct Hb as [Hb | Hb]; [|exact Hb].
        rewrite Hb, Hsame. apply Hinv. rewrite Hsame in Hr. exact Hr.
    + (* interaction *)
      destruct Hcase as [Hvb | Hno]; [|discriminate].
      intros _. unfold power_hint.
      change (vsync_boost (intel (pthread_mutex_unlock ?x)))
        with (vsync_boost (intel x)).
      apply hint_interaction_keeps_vsync_off. exact Hvb.
    + exact Hinv.
    + exact Hinv.
  - destruct (worker_step k clk w) as [w'|] eqn:E; [|exact Hinv].
    destruct (worker_step_touch_fields k clk w w' E) as (Ht & _ & Hb & _).
    unfold scroll_excludes_vsync in *. rewrite Ht, Hb. exact Hinv.
Qed.

(** C3, as the code has it: in every state reached from start-up a vsync
    boost is running exactly when pulses remain (so pulses left imply the
    boost flag); and scroll mode excluding vsync boost, true at start-up, is
    kept by every action except an interaction hint that arrives while the
    vsync boost is running. *)
Theorem C3_vsync_boost_invariants
    (k1 k2 k3 : io_outcome) (clk0 : timespec) (acts : list action) :
  let w := exec acts (power_init k1 k2 k3 clk0 HAL_MODULE_INFO_SYM) in
  (0 < vsync_count (vars w) -> vsync_boost (intel w) = 1) /\
  (vsync_boost (intel w) <> 0 -> 0 < vsync_count (vars w)) /\
  scroll_excludes_vsync (power_init k1 k2 k3 clk0 HAL_MODULE_INFO_SYM) /\
  (forall a : action,
      scroll_excludes_vsync w ->
      vsync_boost (intel w) = 0 \/ is_interaction a = false ->
      scroll_excludes_vsync (step w a)).
Proof.
  intros w.
  pose proof (vsync_inv_exec acts _ (vsync_inv_boot k1 k2 k3 clk0)) as Hinv.
  fold w in Hinv. repeat split.
  - destruct Hinv as [[_ H]|[H _]]; [lia | intros _; exact H].
  - destruct Hinv as [[H _]|[_ H]]; [congruence | intros _; lia].
  - destruct (power_init_touch_fields k1 k2 k3 clk0 HAL_MODULE_INFO_SYM)
      as (_ & _ & Hb & _).
    unfold scroll_excludes_vsync. intros _. rewrite Hb. reflexivity.
  - intros a. apply scroll_excludes_vsync_step.
Qed.

(** ** Vsync hints *)

Lemma pulse_events_count (k : io_outcome) (clk : timespec) :
  List.length (filter is_pulse (pulse_events k clk)) = 1%nat.
Proof.
  unfold pulse_events, sysfs_write, c_open, c_write, io_bind.
  destruct (open_ret k <? 0); [reflexivity|].
  destruct (wrap_int (rw_ret k) <? 0); reflexivity.
Qed.

Lemma pulses_same_trace (w w' : world) : trace w' = trace w -> pulses w' = pulses w.
Proof. unfold pulses. intros ->. reflexivity. Qed.

Lemma pulses_one_more (w w' : world) (k : io_outcome) (clk : timespec) :
  trace w' = trace w ++ pulse_events k clk -> pulses w' = S (pulses w).
Proof.
  unfold pulses. intros ->.
  rewrite filter_app, length_app, pulse_events_count. lia.
Qed.

Lemma unlock_lock_free (w : world) :
  lock (intel w) = false -> pthread_mutex_unlock (pthread_mutex_lock w) = w.
Proof.
  destruct w as [[tbd ts vb lk fd dt sl] v wk tr]. simpl. intros ->. reflexivity.
Qed.

Lemma power_hint_vsync_active (k : io_outcome) (clk : timespec) (data : Z) (w : world) :
  interactiveActive (vars w) = true ->
  power_hint k clk POWER_HINT_VSYNC data w =
  pthread_mutex_unlock
    (vsync_pulse k clk data (vsync_touch_release clk (pthread_mutex_lock w))).
Proof.
  intros H. unfold power_hint, hint_vsync.
  change (interactiveActive (vars (pthread_mutex_lock w)))
    with (interactiveActive (vars w)).
  rewrite H. reflexivity.
Qed.

Lemma vsync_touch_release_skip (clk : timespec) (w : world) :
  touchboost_disable (intel w) <> 1 -> vsync_touch_release clk w = w.
Proof.
  intros H. unfold vsync_touch_release.
  apply Z.eqb_neq in H. rewrite H. reflexivity.
Qed.

Lemma vsync_pulse_skip (k : io_outcome) (clk : timespec) (data : Z) (w : world) :
  vsync_boost (intel w) = 0 -> vsync_pulse k clk data w = w.
Proof.
  intros H. unfold vsync_pulse. rewrite H. reflexivity.
Qed.

Lemma vsync_pulse_null (k : io_outcome) (clk : timespec) (w : world) :
  vsync_pulse k clk 0 w = w.
Proof.
  unfold vsync_pulse. destruct (negb (vsync_boost (intel w) =? 0)); reflexivity.
Qed.

(** The pulse block when it fires. *)
Lemma vsync_pulse_fire (k : io_outcome) (clk : timespec) (data : Z) (w : world) :
  vsync_boost (intel w) <> 0 ->
  data <> 0 ->
  1 <= vsync_count (vars w) <= 4 ->
  let p := vsync_pulse k clk data w in
  vsync_count (vars p) = vsync_count (vars w) - 1 /\
  vsync_boost (intel p) =
    (if vsync_count (vars w) =? 1 then 0 else vsync_boost (intel w)) /\
  touchboost_disable (intel p) = touchboost_disable (intel w) /\
  timer_set (intel p) = timer_set (intel w) /\
  interactiveActive (vars p) = interactiveActive (vars w) /\
  trace p = trace w ++ pulse_events k clk.
Proof.
  intros Hvb Hd Hvc. unfold vsync_pulse.
  apply Z.eqb_neq in Hvb, Hd. rewrite Hvb, Hd.
  assert (Hpos : (vsync_count (vars w) >? 0) = true) by (apply Z.gtb_lt; lia).
  rewrite Hpos. cbn [negb andb]. cbv zeta.
  set (w1 := set_vsync_count _ _).
  assert (Hc : vsync_count (vars w1) = vsync_count (vars w) - 1).
  { subst w1. cbn. apply wrap_int_small. lia. }
  rewrite Hc.
  destruct (vsync_count (vars w) =? 1) eqn:E1; zbool.
  - replace (vsync_count (vars w) - 1 =? 0) with true by (symmetry; apply Z.eqb_eq; lia).
    repeat split; try reflexivity. exact Hc.
  - replace (vsync_count (vars w) - 1 =? 0) with false by (symmetry; apply Z.eqb_neq; lia).
    repeat split; try reflexivity. exact Hc.
Qed.

(** A vsync hint outside scroll mode while a vsync boost runs, with a
    non-null payload and pulses left: one pulse, one decrement, and the boost
    flag cleared by the decrement that reaches zero. *)
Lemma vsync_boost_pulse_step (k : io_outcome) (clk : timespec) (data : Z) (w : world) :
  interactiveActive (vars w) = true ->
  touchboost_disable (intel w) <> 1 ->
  vsync_boost (intel w) <> 0 ->
  data <> 0 ->
  1 <= vsync_count (vars w) <= 4 ->
  let w' := power_hint k clk POWER_HINT_VSYNC data w in
  vsync_count (vars w') = vsync_count (vars w) - 1 /\
  vsync_boost (intel w') =
    (if vsync_count (vars w) =? 1 then 0 else vsync_boost (intel w)) /\
  touchboost_disable (intel w') = touchboost_disable (intel w) /\
  timer_set (intel w') = timer_set (intel w) /\
  interactiveActive (vars w') = true /\
  pulses w' = S (pulses w).
Proof.
  intros Hia Hns Hvb Hd Hvc w'. subst w'.
  rewrite (power_hint_vsync_active k clk data w Hia).
  rewrite (vsync_touch_release_skip clk (pthread_mutex_lock w) Hns).
  destruct (vsync_pulse_fire k clk data (pthread_mutex_lock w) Hvb Hd Hvc)
    as (Hc & Hb & Ht & Hs & Hi & Htr).
  repeat split.
  - exact Hc.
  - exact Hb.
  - exact Ht.
  - exact Hs.
  - rewrite <- Hia. exact Hi.
  - apply (pulses_one_more w _ k clk). exact Htr.
Qed.

(** A vsync hint outside scroll mode with no vsync boost running is a
    no-op. *)
Lemma vsync_idle_step (k : io_outcome) (clk : timespec) (data : Z) (w : world) :
  touchboost_disable (intel w) <> 1 ->
  vsync_boost (intel w) = 0 ->
  lock (intel w) = false ->
  power_hint k clk POWER_HINT_VSYNC data w = w.
Proof.
  intros Hns Hvb Hfree.
  destruct (interactiveActive (vars w)) eqn:Hia.
  - rewrite (power_hint_vsync_active k clk data w Hia).
    rewrite (vsync_touch_release_skip clk (pthread_mutex_lock w) Hns).
    rewrite (vsync_pulse_skip k clk data (pthread_mutex_lock w) Hvb).
    apply unlock_lock_free, Hfree.
  - unfold power_hint.
    change (interactiveActive (vars (pthread_mutex_lock w)))
      with (interactiveActive (vars w)).
    rewrite Hia. apply unlock_lock_free, Hfree.
Qed.
(** C4, as the code has it: outside scroll mode, with the vsync boost
    running and four pulses left, each of four vsync hints with a non-null
    payload asserts the pulse attribute once and takes one off the count; the
    fourth brings it to zero and clears the boost flag; a fifth such hint
    asserts nothing and leaves the whole state as it was. *)
Theorem C4_four_vsync_pulses_then_idle
    (w : world)
    (k1 k2 k3 k4 k5 : io_outcome) (c1 c2 c3 c4 c5 : timespec) (d1 d2 d3 d4 d5 : Z)
    (Hia : interactiveActive (vars w) = true)
    (Hns : touchboost_disable (intel w) <> 1)
    (Hvb : vsync_boost (intel w) <> 0)
    (Hvc : vsync_count (vars w) = 4)
    (Hd1 : d1 <> 0) (Hd2 : d2 <> 0) (Hd3 : d3 <> 0) (Hd4 : d4 <> 0) (Hd5 : d5 <> 0) :
  let w1 := power_hint k1 c1 POWER_HINT_VSYNC d1 w in
  let w2 := power_hint k2 c2 POWER_HINT_VSYNC d2 w1 in
  let w3 := power_hint k3 c3 POWER_HINT_VSYNC d3 w2 in
  let w4 := power_hint k4 c4 POWER_HINT_VSYNC d4 w3 in
  let w5 := power_hint k5 c5 POWER_HINT_VSYNC d5 w4 in
  (vsync_count (vars w1) = 3 /\ pulses w1 = (1 + pulses w)%nat /\
   vsync_boost (intel w1) = vsync_boost (intel w)) /\
  (vsync_count (vars w2) = 2 /\ pulses w2 = (2 + pulses w)%nat /\
   vsync_boost (intel w2) = vsync_boost (intel w)) /\
  (vsync_count (vars w3) = 1 /\ pulses w3 = (3 + pulses w)%nat /\
   vsync_boost (intel w3) = vsync_boost (intel w)) /\
  (vsync_count (vars w4) = 0 /\ pulses w4 = (4 + pulses w)%nat /\
   vsync_boost (intel w4) = 0) /\
  w5 = w4.
Proof.
  intros w1 w2 w3 w4 w5.
  destruct (vsync_boost_pulse_step k1 c1 d1 w Hia Hns Hvb Hd1 ltac:(lia))
    as (Hc1 & Hb1 & Ht1 & _ & Hi1 & Hp1).
  fold w1 in Hc1, Hb1, Ht1, Hi1, Hp1. rewrite Hvc in Hc1, Hb1. simpl in Hc1, Hb1.
  destruct (vsync_boost_pulse_step k2 c2 d2 w1 Hi1 ltac:(congruence)
              ltac:(congruence) Hd2 ltac:(lia))
    as (Hc2 & Hb2 & Ht2 & _ & Hi2 & Hp2).
  fold w2 in Hc2, Hb2, Ht2, Hi2, Hp2. rewrite Hc1 in Hc2, Hb2. simpl in Hc2, Hb2.
  destruct (vsync_boost_pulse_step k3 c3 d3 w2 Hi2 ltac:(congruence)
              ltac:(congruence) Hd3 ltac:(lia))
    as (Hc3 & Hb3 & Ht3 & _ & Hi3 & Hp3).
  fold w3 in Hc3, Hb3, Ht3, Hi3, Hp3. rewrite Hc2 in Hc3, Hb3. simpl in Hc3, Hb3.
  destruct (vsync_boost_pulse_step k4 c4 d4 w3 Hi3 ltac:(congruence)
              ltac:(congruence) Hd4 ltac:(lia))
    as (Hc4 & Hb4 & Ht4 & _ & Hi4 & Hp4).
  fold w4 in Hc4, Hb4, Ht4, Hi4, Hp4. rewrite Hc3 in Hc4, Hb4. simpl in Hc4, Hb4.
  repeat split; try assumption; try congruence; try lia.
  subst w5. apply vsync_idle_step; [congruence | exact Hb4 |].
  subst w4. apply power_hint_unlocks.
Qed.

Example released_state :
  (touchboost_disable (intel released), timer_set (intel released),
   vsync_boost (intel released), vsync_count (vars released)) = (0, 0, 1, 4).
Proof. vm_compute. reflexivity. Qed.

Lemma C4_four_vsync_pulses_then_idle_witness :
  (interactiveActive (vars released) = true /\
   touchboost_disable (intel released) <> 1 /\
   vsync_boost (intel released) <> 0 /\
   vsync_count (vars released) = 4) /\
  let w1 := power_hint served (ms 1100) POWER_HINT_VSYNC 1 released in
  let w2 := power_hint served (ms 1116) POWER_HINT_VSYNC 1 w1 in
  let w3 := power_hint served (ms 1133) POWER_HINT_VSYNC 1 w2 in
  let w4 := power_hint served (ms 1150) POWER_HINT_VSYNC 1 w3 in
  let w5 := power_hint served (ms 1166) POWER_HINT_VSYNC 1 w4 in
  (vsync_count (vars w4) = 0 /\ pulses w4 = (4 + pulses released)%nat /\
   vsync_boost (intel w4) = 0) /\
  w5 = w4.
Proof.
  assert (Hia : interactiveActive (vars released) = true) by (vm_compute; reflexivity).
  assert (Hns : touchboost_disable (intel released) <> 1)
    by (intros H; vm_compute in H; discriminate H).
  assert (Hvb : vsync_boost (intel released) <> 0)
    by (intros H; vm_compute in H; discriminate H).
  assert (Hvc : vsync_count (vars released) = 4) by (vm_compute; reflexivity).
  assert (Hd : 1 <> 0) by discriminate.
  split; [repeat split; assumption|].
  exact (proj2 (proj2 (proj2
           (C4_four_vsync_pulses_then_idle released
              served served served served served
              (ms 1100) (ms 1116) (ms 1133) (ms 1150) (ms 1166) 1 1 1 1 1
              Hia Hns Hvb Hvc Hd Hd Hd Hd Hd)))).
Defined.

(** C4 as worded fails when scroll mode was entered again while the boost
    ran: four non-null vsyncs 8 ms apart, all within 30 ms of the last touch,
    use up the four pulses, and the fifth, 37 ms after the touch, starts a
    new boost and asserts the attribute. *)
Lemma C4_fifth_vsync_pulses_in_scroll_mode :
  let w := exec scroll_release_retouch booted in
  let w4 := exec [vsync 1105 1; vsync 1113 1; vsync 1121 1; vsync 1129 1] w in
  let w5 := step w4 (vsync 1137 1) in
  (vsync_boost (intel w) = 1 /\ vsync_count (vars w) = 4) /\
  (vsync_boost (intel w4) = 0 /\ vsync_count (vars w4) = 0 /\
   pulses w4 = (4 + pulses w)%nat) /\
  pulses w5 = S (pulses w4) /\
  vsync_count (vars w5) = 3 /\
  w5 <> w4.
Proof.
  intros w w4 w5.
  assert (H5 : vsync_count (vars w5) = 3) by (vm_compute; reflexivity).
  assert (H4 : vsync_count (vars w4) = 0) by (vm_compute; reflexivity).
  repeat split; try (vm_compute; reflexivity); try assumption.
  intros E. rewrite E in H5. rewrite H4 in H5. discriminate H5.
Qed.

Lemma vsync_touch_release_fire (clk : timespec) (w : world) :
  touchboost_disable (intel w) = 1 ->
  (inject_Z VSYNC_TOUCH_TIME < diff_ms clk (curr_time (vars w)))%Q ->
  vsync_touch_release clk w =
  set_vsync_count VSYNC_BOOST_COUNT
    (set_touchboost_disable 0 (set_vsync_boost 1 (set_timer_set 0 (set_vsync_time clk w)))).
Proof.
  intros Hs Hgap. apply Qlt_bool_true in Hgap.
  unfold vsync_touch_release. rewrite Hs. cbn [Z.eqb Pos.eqb]. cbv zeta.
  change (diff_ms (vsync_time (vars (set_vsync_time clk w)))
                  (curr_time (vars (set_vsync_time clk w))))
    with (diff_ms clk (curr_time (vars w))).
  rewrite Hgap. reflexivity.
Qed.

(** C5, as the code has it: in scroll mode, on a vsync hint more than 30 ms
    after the last touch, the release block sets vsync boost on, the timer
    flag off, scroll mode off and the count to four; the pulse block of the
    same hint then runs, so the hint ends with the count at four and no pulse
    when the payload is null, and with one pulse asserted and the count at
    three when it is not. *)
Theorem C5_vsync_after_release_enters_boost
    (k : io_outcome) (clk : timespec) (data : Z) (w : world)
    (Hia : interactiveActive (vars w) = true)
    (Hscroll : touchboost_disable (intel w) = 1)
    (Hgap : (inject_Z VSYNC_TOUCH_TIME < diff_ms clk (curr_time (vars w)))%Q) :
  let e := vsync_touch_release clk (pthread_mutex_lock w) in
  let w' := power_hint k clk POWER_HINT_VSYNC data w in
  (vsync_boost (intel e) = 1 /\ timer_set (intel e) = 0 /\
   touchboost_disable (intel e) = 0 /\ vsync_count (vars e) = 4) /\
  w' = pthread_mutex_unlock (vsync_pulse k clk data e) /\
  (vsync_boost (intel w') = 1 /\ timer_set (intel w') = 0 /\
   touchboost_disable (intel w') = 0) /\
  (data = 0 -> vsync_count (vars w') = 4 /\ pulses w' = pulses w) /\
  (data <> 0 -> vsync_count (vars w') = 3 /\ pulses w' = S (pulses w)).
Proof.
  intros e w'.
  assert (He : e = set_vsync_count VSYNC_BOOST_COUNT
                     (set_touchboost_disable 0
                        (set_vsync_boost 1
                           (set_timer_set 0 (set_vsync_time clk (pthread_mutex_lock w))))))
    by (apply vsync_touch_release_fire; assumption).
  assert (Hw' : w' = pthread_mutex_unlock (vsync_pulse k clk data e))
    by (apply power_hint_vsync_active; exact Hia).
  assert (Hvb : vsync_boost (intel e) = 1) by (rewrite He; reflexivity).
  assert (Hts : timer_set (intel e) = 0) by (rewrite He; reflexivity).
  assert (Htb : touchboost_disable (intel e) = 0) by (rewrite He; reflexivity).
  assert (Hvc : vsync_count (vars e) = 4) by (rewrite He; reflexivity).
  assert (Htr : trace e = trace w) by (rewrite He; reflexivity).
  split; [repeat split; assumption|].
  split; [exact Hw'|].
  destruct (Z.eq_dec data 0) as [Hd | Hd].
  - subst data. rewrite vsync_pulse_null in Hw'. rewrite Hw'.
    split; [repeat split; assumption|].
    split; [intros _ | intros Hn; congruence].
    split; [exact Hvc | apply pulses_same_trace; exact Htr].
  - destruct (vsync_pulse_fire k clk data e) as (Hc & Hb & Ht & Hs & _ & Hp);
      [rewrite Hvb; discriminate | exact Hd | rewrite Hvc; lia |].
    rewrite Hvc in Hc, Hb. cbn in Hc, Hb. rewrite Hw'.
    split; [repeat split|].
    + rewrite <- Hvb. exact Hb.
    + rewrite <- Hts. exact Hs.
    + rewrite <- Htb. exact Ht.
    + split; [intros H0; congruence | intros _].
      split; [exact Hc|].
      apply (pulses_one_more w _ k clk). rewrite <- Htr. exact Hp.
Qed.

Lemma C5_vsync_after_release_enters_boost_witness :
  (interactiveActive (vars scrolling) = true /\
   touchboost_disable (intel scrolling) = 1 /\
   (inject_Z VSYNC_TOUCH_TIME < diff_ms (ms 1090) (curr_time (vars scrolling)))%Q) /\
  let w' := power_hint served (ms 1090) POWER_HINT_VSYNC 0 scrolling in
  (vsync_boost (intel w') = 1 /\ timer_set (intel w') = 0 /\
   touchboost_disable (intel w') = 0) /\
  vsync_count (vars w') = 4 /\ pulses w' = pulses scrolling.
Proof.
  assert (Hia : interactiveActive (vars scrolling) = true) by (vm_compute; reflexivity).
  assert (Hs : touchboost_disable (intel scrolling) = 1) by (vm_compute; reflexivity).
  assert (Hg : (inject_Z VSYNC_TOUCH_TIME
                < diff_ms (ms 1090) (curr_time (vars scrolling)))%Q)
    by (vm_compute; reflexivity).
  split; [repeat split; assumption|].
  pose proof (C5_vsync_after_release_enters_boost served (ms 1090) 0 scrolling Hia Hs Hg)
    as H.
  cbv zeta in H. destruct H as (_ & _ & Hflags & Hnull & _).
  cbv zeta. split; [exact Hflags | exact (Hnull eq_refl)].
Defined.

(** C5 as worded fails for a non-null payload: the hint that enters the
    vsync boost also spends the first pulse and ends with three left. *)
Lemma C5_non_null_payload_leaves_three :
  touchboost_disable (intel scrolling) = 1 /\
  (inject_Z VSYNC_TOUCH_TIME < diff_ms (ms 1090) (curr_time (vars scrolling)))%Q /\
  vsync_count (vars (step scrolling (vsync 1090 1))) = 3 /\
  vsync_count (vars (step scrolling (vsync 1090 1))) <> 4.
Proof.
  assert (H : vsync_count (vars (step scrolling (vsync 1090 1))) = 3)
    by (vm_compute; reflexivity).
  repeat split; try (vm_compute; reflexivity); try assumption.
  rewrite H. discriminate.
Qed.

(** ** Interaction hints *)

Lemma power_hint_interaction_active (k : io_outcome) (clk : timespec) (data : Z)
    (w : world) :
  interactiveActive (vars w) = true ->
  power_hint k clk POWER_HINT_INTERACTION data w =
  let diff := diff_ms clk (prev_time (vars w)) in
  pthread_mutex_unlock
    (touch_pulse k clk
       (touch_timer (touch_scroll_entry diff (touch_classify diff (stamped clk w))))).
Proof.
  intros H. unfold power_hint, hint_interaction.
  change (interactiveActive (vars (pthread_mutex_lock w)))
    with (interactiveActive (vars w)).
  rewrite H. reflexivity.
Qed.

Lemma power_hint_interaction_inactive (k : io_outcome) (clk : timespec) (data : Z)
    (w : world) :
  interactiveActive (vars w) = false ->
  let w' := power_hint k clk POWER_HINT_INTERACTION data w in
  touchboost_disable (intel w') = touchboost_disable (intel w) /\
  vars w' = vars w.
Proof.
  intros H. unfold power_hint, hint_interaction.
  change (interactiveActive (vars (pthread_mutex_lock w)))
    with (interactiveActive (vars w)).
  rewrite H. cbn [negb].
  destruct (negb (intelSchedBoostActive (vars (pthread_mutex_lock w)))).
  - split; reflexivity.
  - destruct (schedtune_boost_touch_fields k clk (pthread_mutex_lock w))
      as (Ht & _ & _ & Hv).
    split; [exact Ht | exact Hv].
Qed.

Lemma touch_pulse_frame (k : io_outcome) (clk : timespec) (w : world) :
  let p := touch_pulse k clk w in
  intel p = intel w /\ vars p = vars w /\ worker p = worker w /\
  trace p = (if touchboost_disable (intel w) =? 0
             then trace w ++ pulse_events k clk else trace w).
Proof.
  unfold touch_pulse. destruct (touchboost_disable (intel w) =? 0);
    repeat split; reflexivity.
Qed.

Lemma touch_timer_frame (w : world) :
  let p := touch_timer w in
  touchboost_disable (intel p) = touchboost_disable (intel w) /\
  vsync_boost (intel p) = vsync_boost (intel w) /\
  vars p = vars w /\ trace p = trace w.
Proof.
  unfold touch_timer. break_if; repeat split; reflexivity.
Qed.

Lemma touch_scroll_entry_frame (diff : Q) (w : world) :
  let p := touch_scroll_entry diff w in
  touchboost_disable (intel p) =
    (if Qlt_bool diff (inject_Z SHORT_TOUCH_TIME)
        && (touchboost_disable (intel w) =? 0)
        && (consecutive_touch_int (vars w) >? 4)
     then 1 else touchboost_disable (intel w)) /\
  vsync_boost (intel p) = vsync_boost (intel w) /\
  vars p = vars w /\ trace p = trace w.
Proof.
  unfold touch_scroll_entry. break_if; repeat split; reflexivity.
Qed.

(** An interaction hint with pulse boost available, in terms of the state
    [c] left by the cadence test. *)
Lemma interaction_active_fields (k : io_outcome) (clk : timespec) (data : Z)
    (w : world) :
  interactiveActive (vars w) = true ->
  let diff := diff_ms clk (prev_time (vars w)) in
  let c := touch_classify diff (stamped clk w) in
  let w' := power_hint k clk POWER_HINT_INTERACTION data w in
  vars w' = vars c /\
  touchboost_disable (intel w') =
    (if Qlt_bool diff (inject_Z SHORT_TOUCH_TIME)
        && (touchboost_disable (intel c) =? 0)
        && (consecutive_touch_int (vars c) >? 4)
     then 1 else touchboost_disable (intel c)) /\
  vsync_boost (intel w') = vsync_boost (intel c) /\
  trace w' = (if touchboost_disable (intel w') =? 0
              then trace c ++ pulse_events k clk else trace c).
Proof.
  intros Hia diff c w'.
  assert (E : w' = pthread_mutex_unlock
                     (touch_pulse k clk (touch_timer (touch_scroll_entry diff c))))
    by (apply power_hint_interaction_active; exact Hia).
  destruct (touch_scroll_entry_frame diff c) as (Ht1 & Hb1 & Hv1 & Hr1).
  destruct (touch_timer_frame (touch_scroll_entry diff c)) as (Ht2 & Hb2 & Hv2 & Hr2).
  destruct (touch_pulse_frame k clk (touch_timer (touch_scroll_entry diff c)))
    as (Hi3 & Hv3 & _ & Hr3).
  assert (Hv : vars w' = vars c).
  { rewrite E. change (vars (pthread_mutex_unlock ?x)) with (vars x).
    rewrite Hv3, Hv2, Hv1. reflexivity. }
  assert (Ht : touchboost_disable (intel w') =
               touchboost_disable (intel (touch_scroll_entry diff c))).
  { rewrite E.
    change (touchboost_disable (intel (pthread_mutex_unlock ?x)))
      with (touchboost_disable (intel x)).
    rewrite Hi3, Ht2. reflexivity. }
  assert (Hb : vsync_boost (intel w') = vsync_boost (intel c)).
  { rewrite E.
    change (vsync_boost (intel (pthread_mutex_unlock ?x))) with (vsync_boost (intel x)).
    rewrite Hi3, Hb2, Hb1. reflexivity. }
  repeat split.
  - exact Hv.
  - rewrite Ht. exact Ht1.
  - exact Hb.
  - rewrite Ht. rewrite E. change (trace (pthread_mutex_unlock ?x)) with (trace x).
    rewrite Hr3, Ht2, Hr2, Hr1. reflexivity.
Qed.

Lemma touch_classify_fast (diff : Q) (w : world) :
  Qlt_bool diff (inject_Z SHORT_TOUCH_TIME) = true ->
  touch_classify diff w =
  set_consecutive_touch_int (wrap_int (consecutive_touch_int (vars w) + 1)) w.
Proof. intros H. unfold touch_classify. rewrite H. reflexivity. Qed.

Lemma touch_classify_slow (diff : Q) (w : world) :
  Qlt_bool diff (inject_Z SHORT_TOUCH_TIME) = false ->
  let c := touch_classify diff w in
  (consecutive_touch_int (vars w) = 0 -> consecutive_touch_int (vars c) = 0) /\
  (touchboost_disable (intel w) = 0 -> touchboost_disable (intel c) = 0) /\
  interactiveActive (vars c) = interactiveActive (vars w) /\
  prev_time (vars c) = prev_time (vars w).
Proof.
  intros H. unfold touch_classify. rewrite H.
  destruct (Qlt_bool (inject_Z LONG_TOUCH_TIME) diff); repeat split; auto.
Qed.

(** A touch less than 20 ms after the previous one. *)
Lemma fast_touch_step (k : io_outcome) (clk : timespec) (data : Z) (w : world) :
  interactiveActive (vars w) = true ->
  (diff_ms clk (prev_time (vars w)) < inject_Z SHORT_TOUCH_TIME)%Q ->
  0 <= consecutive_touch_int (vars w) < INT_MAX ->
  let w' := power_hint k clk POWER_HINT_INTERACTION data w in
  consecutive_touch_int (vars w') = consecutive_touch_int (vars w) + 1 /\
  touchboost_disable (intel w') =
    (if (touchboost_disable (intel w) =? 0)
        && (consecutive_touch_int (vars w) + 1 >? 4)
     then 1 else touchboost_disable (intel w)) /\
  prev_time (vars w') = clk /\
  interactiveActive (vars w') = true /\
  vsync_boost (intel w') = vsync_boost (intel w) /\
  vsync_count (vars w') = vsync_count (vars w) /\
  pulses w' = (if touchboost_disable (intel w') =? 0 then S (pulses w) else pulses w).
Proof.
  intros Hia Hfast Hrange w'.
  apply Qlt_bool_true in Hfast.
  destruct (interaction_active_fields k clk data w Hia) as (Hv & Ht & Hb & Hr).
  fold w' in Hv, Ht, Hb, Hr. clearbody w'.
  rewrite (touch_classify_fast _ _ Hfast) in Hv, Ht, Hb, Hr.
  rewrite Hfast in Ht. cbn [andb] in Ht.
  assert (Hw : wrap_int (consecutive_touch_int (vars w) + 1)
               = consecutive_touch_int (vars w) + 1)
    by (apply wrap_int_small; unfold INT_MAX in Hrange; lia).
  cbn in Hv, Ht, Hb, Hr. rewrite Hw in Hv, Ht.
  rewrite Hv. cbn. rewrite Hia.
  repeat split; try assumption.
  destruct (touchboost_disable (intel w') =? 0).
  - apply (pulses_one_more w _ k clk). exact Hr.
  - apply pulses_same_trace. exact Hr.
Qed.

Lemma pulses_schedtune_boost (k : io_outcome) (clk : timespec) (w : world) :
  pulses (schedtune_boost k clk w) = pulses w.
Proof.
  unfold schedtune_boost. destruct (deboost_time (intel w) =? 0).
  - cbv zeta.
    transitivity (pulses (snd (run_io clk
                     (schedtune_sysfs_boost k (schedtune_boost_fd (intel w))
                        SCHEDTUNE_BOOST_INTERACTIVE) w))).
    + apply pulses_same_trace. reflexivity.
    + apply pulses_schedtune_sysfs_boost.
  - apply pulses_same_trace. reflexivity.
Qed.

Lemma pulses_worker_step (k : io_outcome) (clk : timespec) (w w' : world) :
  worker_step k clk w = Some w' -> pulses w' = pulses w.
Proof.
  unfold worker_step. destruct (worker w) as [[ | | u]|]; try discriminate.
  - destruct (0 <? signal_lock (intel w)); [|discriminate].
    intros [= <-]. apply pulses_same_trace. reflexivity.
  - cbv zeta.
    destruct (deboost_time (intel (pthread_mutex_lock w)) >? gettime_ns clk);
      intros [= <-].
    + apply pulses_same_trace. reflexivity.
    + transitivity (pulses (snd (run_io clk
                      (schedtune_sysfs_boost k
                         (schedtune_boost_fd (intel (pthread_mutex_lock w)))
                         SCHEDTUNE_BOOST_NORM) (pthread_mutex_lock w)))).
      * apply pulses_same_trace. reflexivity.
      * rewrite pulses_schedtune_sysfs_boost. apply pulses_same_trace. reflexivity.
  - destruct (u <=? gettime_ns clk); [|discriminate].
    intros [= <-]. apply pulses_same_trace. reflexivity.
Qed.

Lemma touch_classify_trace (diff : Q) (w : world) :
  trace (touch_classify diff w) = trace w.
Proof. unfold touch_classify. repeat break_if; reflexivity. Qed.

Lemma touch_classify_vsync_off (diff : Q) (w : world) :
  vsync_boost (intel w) = 0 -> vsync_boost (intel (touch_classify diff w)) = 0.
Proof.
  intros H. unfold touch_classify. repeat break_if; first [exact H | reflexivity].
Qed.

Lemma vsync_touch_release_trace (clk : timespec) (w : world) :
  trace (vsync_touch_release clk w) = trace w.
Proof.
  unfold vsync_touch_release. break_if; [|reflexivity].
  cbv zeta. break_if; reflexivity.
Qed.

(** While no vsync boost runs, an action that ends in scroll mode asserts
    no pulse and starts no vsync boost. *)
Lemma scroll_mode_step_quiet (a : action) (w : world) :
  vsync_boost (intel w) = 0 ->
  touchboost_disable (intel (step w a)) = 1 ->
  vsync_boost (intel (step w a)) = 0 /\ pulses (step w a) = pulses w.
Proof.
  intros Hvb Hpost. destruct a as [k clk hint data | k clk]; simpl in *.
  - destruct hint.
    + (* vsync *)
      destruct (interactiveActive (vars w)) eqn:Hia.
      * rewrite (power_hint_vsync_active k clk data w Hia) in *.
        set (r := vsync_touch_release clk (pthread_mutex_lock w)) in *.
        destruct (vsync_pulse_fields k clk data r) as (Ht & _ & _).
        change (touchboost_disable (intel (pthread_mutex_unlock ?x)))
          with (touchboost_disable (intel x)) in Hpost.
        rewrite Ht in Hpost.
        destruct (vsync_touch_release_cases clk (pthread_mutex_lock w)) as [H0 | Hsame];
          fold r in H0 || fold r in Hsame.
        { rewrite H0 in Hpost. discriminate Hpost. }
        assert (Hr : vsync_boost (intel r) = 0) by (rewrite Hsame; exact Hvb).
        rewrite (vsync_pulse_skip k clk data r Hr).
        split; [exact Hr|].
        apply pulses_same_trace. subst r.
        change (trace (pthread_mutex_unlock ?x)) with (trace x).
        rewrite vsync_touch_release_trace. reflexivity.
      * unfold power_hint in *.
        change (interactiveActive (vars (pthread_mutex_lock w)))
          with (interactiveActive (vars w)) in *.
        rewrite Hia in *. split; [exact Hvb | apply pulses_same_trace; reflexivity].
    + (* interaction *)
      destruct (interactiveActive (vars w)) eqn:Hia.
      * destruct (interaction_active_fields k clk data w Hia) as (_ & _ & Hb & Hr).
        rewrite Hpost in Hr. cbn [Z.eqb Pos.eqb] in Hr.
        rewrite touch_classify_trace in Hr. split.
        -- rewrite Hb. apply touch_classify_vsync_off. exact Hvb.
        -- apply pulses_same_trace. exact Hr.
      * split.
        -- unfold power_hint.
           change (vsync_boost (intel (pthread_mutex_unlock ?x)))
             with (vsync_boost (intel x)).
           apply hint_interaction_keeps_vsync_off. exact Hvb.
        -- unfold power_hint, hint_interaction.
           change (interactiveActive (vars (pthread_mutex_lock w)))
             with (interactiveActive (vars w)).
           rewrite Hia. cbn [negb].
           destruct (negb (intelSchedBoostActive (vars (pthread_mutex_lock w)))).
           ++ apply pulses_same_trace. reflexivity.
           ++ transitivity (pulses (schedtune_boost k clk (pthread_mutex_lock w))).
              ** apply pulses_same_trace. reflexivity.
              ** rewrite pulses_schedtune_boost. apply pulses_same_trace. reflexivity.
    + split; [exact Hvb | apply pulses_same_trace; reflexivity].
    + split; [exact Hvb | apply pulses_same_trace; reflexivity].
  - destruct (worker_step k clk w) as [w'|] eqn:E; [|split; [exact Hvb | reflexivity]].
    destruct (worker_step_touch_fields k clk w w' E) as (_ & _ & Hb & _).
    split; [rewrite Hb; exact Hvb | apply (pulses_worker_step k clk); exact E].
Qed.

Lemma scroll_holds_quiet (acts : list action) (w : world) :
  vsync_boost (intel w) = 0 ->
  scroll_holds acts w ->
  pulses (exec acts w) = pulses w.
Proof.
  revert w. induction acts as [|a acts IH]; intros w Hvb Hs; simpl.
  - reflexivity.
  - destruct Hs as [Hpost Hrest].
    destruct (scroll_mode_step_quiet a w Hvb Hpost) as [Hvb' Hp].
    rewrite (IH (step w a) Hvb' Hrest). exact Hp.
Qed.

(** C2, as the code counts: from the reset values, with pulse boost
    available, five interaction hints that each come less than 20 ms after
    the time stamp recorded before them, the first of the five included
    (it is measured against the stamp an earlier hint left), leave scroll
    mode off after the first four, each of which asserts the pulse
    attribute, and switch it on at the fifth, which asserts nothing; and
    whatever follows asserts nothing for as long as scroll mode stays on. *)
Theorem C2_fifth_fast_touch_enters_scroll_mode
    (w : world)
    (k1 k2 k3 k4 k5 : io_outcome) (c1 c2 c3 c4 c5 : timespec) (d1 d2 d3 d4 d5 : Z)
    (later : list action)
    (Hia : interactiveActive (vars w) = true)
    (Hreset : reset_state w)
    (H1 : (diff_ms c1 (prev_time (vars w)) < inject_Z SHORT_TOUCH_TIME)%Q)
    (H2 : (diff_ms c2 c1 < inject_Z SHORT_TOUCH_TIME)%Q)
    (H3 : (diff_ms c3 c2 < inject_Z SHORT_TOUCH_TIME)%Q)
    (H4 : (diff_ms c4 c3 < inject_Z SHORT_TOUCH_TIME)%Q)
    (H5 : (diff_ms c5 c4 < inject_Z SHORT_TOUCH_TIME)%Q) :
  let w1 := power_hint k1 c1 POWER_HINT_INTERACTION d1 w in
  let w2 := power_hint k2 c2 POWER_HINT_INTERACTION d2 w1 in
  let w3 := power_hint k3 c3 POWER_HINT_INTERACTION d3 w2 in
  let w4 := power_hint k4 c4 POWER_HINT_INTERACTION d4 w3 in
  let w5 := power_hint k5 c5 POWER_HINT_INTERACTION d5 w4 in
  (touchboost_disable (intel w1) = 0 /\ touchboost_disable (intel w2) = 0 /\
   touchboost_disable (intel w3) = 0 /\ touchboost_disable (intel w4) = 0 /\
   touchboost_disable (intel w5) = 1) /\
  (pulses w1 = (1 + pulses w)%nat /\ pulses w2 = (2 + pulses w)%nat /\
   pulses w3 = (3 + pulses w)%nat /\ pulses w4 = (4 + pulses w)%nat /\
   pulses w5 = pulses w4) /\
  (scroll_holds later w5 -> pulses (exec later w5) = pulses w5).
Proof.
  intros w1 w2 w3 w4 w5.
  destruct Hreset as (Ht0 & _ & Hb0 & _ & Hc0).
  unfold INT_MAX.
  destruct (fast_touch_step k1 c1 d1 w Hia H1 ltac:(unfold INT_MAX; lia))
    as (Hc1 & Ht1 & Hp1 & Hi1 & Hb1 & _ & Hn1).
  fold w1 in Hc1, Ht1, Hp1, Hi1, Hb1, Hn1. clearbody w1.
  rewrite Hc0 in Hc1, Ht1. rewrite Ht0 in Ht1. cbn in Hc1, Ht1.
  rewrite Ht1 in Hn1. cbn in Hn1. rewrite <- Hp1 in H2.
  destruct (fast_touch_step k2 c2 d2 w1 Hi1 H2 ltac:(unfold INT_MAX; lia))
    as (Hc2 & Ht2 & Hp2 & Hi2 & Hb2 & _ & Hn2).
  fold w2 in Hc2, Ht2, Hp2, Hi2, Hb2, Hn2. clearbody w2.
  rewrite Hc1 in Hc2, Ht2. rewrite Ht1 in Ht2. cbn in Hc2, Ht2.
  rewrite Ht2 in Hn2. cbn in Hn2. rewrite <- Hp2 in H3.
  destruct (fast_touch_step k3 c3 d3 w2 Hi2 H3 ltac:(unfold INT_MAX; lia))
    as (Hc3 & Ht3 & Hp3 & Hi3 & Hb3 & _ & Hn3).
  fold w3 in Hc3, Ht3, Hp3, Hi3, Hb3, Hn3. clearbody w3.
  rewrite Hc2 in Hc3, Ht3. rewrite Ht2 in Ht3. cbn in Hc3, Ht3.
  rewrite Ht3 in Hn3. cbn in Hn3. rewrite <- Hp3 in H4.
  destruct (fast_touch_step k4 c4 d4 w3 Hi3 H4 ltac:(unfold INT_MAX; lia))
    as (Hc4 & Ht4 & Hp4 & Hi4 & Hb4 & _ & Hn4).
  fold w4 in Hc4, Ht4, Hp4, Hi4, Hb4, Hn4. clearbody w4.
  rewrite Hc3 in Hc4, Ht4. rewrite Ht3 in Ht4. cbn in Hc4, Ht4.
  rewrite Ht4 in Hn4. cbn in Hn4. rewrite <- Hp4 in H5.
  destruct (fast_touch_step k5 c5 d5 w4 Hi4 H5 ltac:(unfold INT_MAX; lia))
    as (Hc5 & Ht5 & Hp5 & Hi5 & Hb5 & _ & Hn5).
  fold w5 in Hc5, Ht5, Hp5, Hi5, Hb5, Hn5. clearbody w5.
  rewrite Hc4 in Hc5, Ht5. rewrite Ht4 in Ht5. cbn in Hc5, Ht5.
  rewrite Ht5 in Hn5. cbn in Hn5.
  split; [repeat split; assumption|].
  split; [repeat split; lia|].
  intros Hs. apply scroll_holds_quiet; [|exact Hs].
  congruence.
Qed.

Lemma C2_fifth_fast_touch_enters_scroll_mode_witness :
  (interactiveActive (vars touched) = true /\ reset_state touched) /\
  let w1 := power_hint served (ms 1010) POWER_HINT_INTERACTION 0 touched in
  let w2 := power_hint served (ms 1020) POWER_HINT_INTERACTION 0 w1 in
  let w3 := power_hint served (ms 1030) POWER_HINT_INTERACTION 0 w2 in
  let w4 := power_hint served (ms 1040) POWER_HINT_INTERACTION 0 w3 in
  let w5 := power_hint served (ms 1050) POWER_HINT_INTERACTION 0 w4 in
  (touchboost_disable (intel w1) = 0 /\ touchboost_disable (intel w2) = 0 /\
   touchboost_disable (intel w3) = 0 /\ touchboost_disable (intel w4) = 0 /\
   touchboost_disable (intel w5) = 1) /\
  (pulses w1 = (1 + pulses touched)%nat /\ pulses w2 = (2 + pulses touched)%nat /\
   pulses w3 = (3 + pulses touched)%nat /\ pulses w4 = (4 + pulses touched)%nat /\
   pulses w5 = pulses w4) /\
  (scroll_holds [vsync 1060 1; touch 1065] w5 ->
   pulses (exec [vsync 1060 1; touch 1065] w5) = pulses w5).
Proof.
  assert (Hia : interactiveActive (vars touched) = true) by (vm_compute; reflexivity).
  assert (Hreset : reset_state touched) by (vm_compute; repeat split; reflexivity).
  split; [split; assumption|].
  apply (C2_fifth_fast_touch_enters_scroll_mode touched
           served served served served served
           (ms 1010) (ms 1020) (ms 1030) (ms 1040) (ms 1050) 0 0 0 0 0
           [vsync 1060 1; touch 1065] Hia Hreset);
    vm_compute; reflexivity.
Defined.

(** C2 as worded fails from the state [power_init] leaves: the touch state
    is at its reset values with the time stamp at zero, so the first of five
    touches 10 ms apart is measured against zero, comes more than 100 ms
    after it and is not counted.  After the fifth touch four fast ones have
    been counted, scroll mode is still off and the fifth has asserted the
    pulse attribute; scroll mode starts at the sixth. *)
Lemma C2_five_touches_from_start_up :
  let w0 := booted in
  let w4 := exec [touch 1000; touch 1010; touch 1020; touch 1030] w0 in
  let w5 := step w4 (touch 1040) in
  let w6 := step w5 (touch 1050) in
  (interactiveActive (vars w0) = true /\ reset_state w0 /\
   prev_time (vars w0) = zero_time) /\
  ((diff_ms (ms 1010) (ms 1000) < inject_Z SHORT_TOUCH_TIME)%Q /\
   (diff_ms (ms 1020) (ms 1010) < inject_Z SHORT_TOUCH_TIME)%Q /\
   (diff_ms (ms 1030) (ms 1020) < inject_Z SHORT_TOUCH_TIME)%Q /\
   (diff_ms (ms 1040) (ms 1030) < inject_Z SHORT_TOUCH_TIME)%Q) /\
  consecutive_touch_int (vars w5) = 4 /\
  touchboost_disable (intel w5) = 0 /\
  touchboost_disable (intel w5) <> 1 /\
  pulses w5 = S (pulses w4) /\
  touchboost_disable (intel w6) = 1.
Proof.
  intros w0 w4 w5 w6.
  assert (H5 : touchboost_disable (intel w5) = 0) by (vm_compute; reflexivity).
  repeat split; try (vm_compute; reflexivity); try assumption.
  rewrite H5. discriminate.
Qed.

Example scroll_holds_after_fifth :
  scroll_holds [vsync 1060 1; touch 1065] scrolling.
Proof. vm_compute. repeat split; reflexivity. Qed.

(** The five touches counted from the first of a session: that one follows
    a pause of more than 100 ms and is not a fast one, so four fast ones have
    been counted at the fifth touch and scroll mode starts at the sixth. *)
Lemma fresh_session_scrolls_at_sixth_touch :
  touchboost_disable
    (intel (exec [touch 1000; touch 1010; touch 1020; touch 1030; touch 1040] booted)) = 0 /\
  consecutive_touch_int
    (vars (exec [touch 1000; touch 1010; touch 1020; touch 1030; touch 1040] booted)) = 4 /\
  touchboost_disable (intel scrolling) = 1.
Proof. vm_compute. repeat split; reflexivity. Qed.

(** A touch that is not a fast one, in a state where nothing has been
    counted: nothing is counted, scroll mode stays off and the pulse
    attribute is asserted. *)
Lemma uncounted_touch_step (k : io_outcome) (clk : timespec) (data : Z) (w : world) :
  interactiveActive (vars w) = true ->
  consecutive_touch_int (vars w) = 0 ->
  touchboost_disable (intel w) = 0 ->
  (inject_Z SHORT_TOUCH_TIME <= diff_ms clk (prev_time (vars w)))%Q ->
  let w' := power_hint k clk POWER_HINT_INTERACTION data w in
  consecutive_touch_int (vars w') = 0 /\
  touchboost_disable (intel w') = 0 /\
  prev_time (vars w') = clk /\
  interactiveActive (vars w') = true /\
  pulses w' = S (pulses w).
Proof.
  intros Hia Hc Ht Hgap w'.
  apply Qlt_bool_false in Hgap.
  destruct (interaction_active_fields k clk data w Hia) as (Hv & Htb & _ & Hr).
  fold w' in Hv, Htb, Hr. clearbody w'.
  rewrite Hgap in Htb. cbn [andb] in Htb.
  destruct (touch_classify_slow _ (stamped clk w) Hgap) as (Hc' & Ht' & Hi' & Hp').
  assert (Htb0 : touchboost_disable (intel w') = 0) by (rewrite Htb; apply Ht'; exact Ht).
  rewrite Htb0 in Hr. cbn [Z.eqb] in Hr. rewrite touch_classify_trace in Hr.
  rewrite Hv.
  repeat split.
  - apply Hc'. exact Hc.
  - exact Htb0.
  - rewrite Hp'. reflexivity.
  - rewrite Hi'. exact Hia.
  - apply (pulses_one_more w _ k clk). exact Hr.
Qed.

(** The five hints when the first is not a fast one (20 ms or more after
    the recorded time stamp, as the first touch after start-up is for any
    clock reading from 20 ms on) and the others are: every one of the five
    asserts the pulse attribute, scroll mode is off after each, and a sixth
    fast hint switches it on and asserts nothing. *)
Lemma first_touch_uncounted_scrolls_at_sixth
    (w : world)
    (k1 k2 k3 k4 k5 k6 : io_outcome) (c1 c2 c3 c4 c5 c6 : timespec)
    (d1 d2 d3 d4 d5 d6 : Z)
    (Hia : interactiveActive (vars w) = true)
    (Hreset : reset_state w)
    (H1 : (inject_Z SHORT_TOUCH_TIME <= diff_ms c1 (prev_time (vars w)))%Q)
    (H2 : (diff_ms c2 c1 < inject_Z SHORT_TOUCH_TIME)%Q)
    (H3 : (diff_ms c3 c2 < inject_Z SHORT_TOUCH_TIME)%Q)
    (H4 : (diff_ms c4 c3 < inject_Z SHORT_TOUCH_TIME)%Q)
    (H5 : (diff_ms c5 c4 < inject_Z SHORT_TOUCH_TIME)%Q)
    (H6 : (diff_ms c6 c5 < inject_Z SHORT_TOUCH_TIME)%Q) :
  let w1 := power_hint k1 c1 POWER_HINT_INTERACTION d1 w in
  let w2 := power_hint k2 c2 POWER_HINT_INTERACTION d2 w1 in
  let w3 := power_hint k3 c3 POWER_HINT_INTERACTION d3 w2 in
  let w4 := power_hint k4 c4 POWER_HINT_INTERACTION d4 w3 in
  let w5 := power_hint k5 c5 POWER_HINT_INTERACTION d5 w4 in
  let w6 := power_hint k6 c6 POWER_HINT_INTERACTION d6 w5 in
  (touchboost_disable (intel w1) = 0 /\ touchboost_disable (intel w2) = 0 /\
   touchboost_disable (intel w3) = 0 /\ touchboost_disable (intel w4) = 0 /\
   touchboost_disable (intel w5) = 0 /\ touchboost_disable (intel w6) = 1) /\
  (pulses w5 = (5 + pulses w)%nat /\ pulses w6 = pulses w5).
Proof.
  intros w1 w2 w3 w4 w5 w6.
  destruct Hreset as (Ht0 & _ & _ & _ & Hc0).
  destruct (uncounted_touch_step k1 c1 d1 w Hia Hc0 Ht0 H1)
    as (Hc1 & Ht1 & Hp1 & Hi1 & Hn1).
  fold w1 in Hc1, Ht1, Hp1, Hi1, Hn1. clearbody w1.
  rewrite <- Hp1 in H2.
  destruct (fast_touch_step k2 c2 d2 w1 Hi1 H2 ltac:(unfold INT_MAX; lia))
    as (Hc2 & Ht2 & Hp2 & Hi2 & _ & _ & Hn2).
  fold w2 in Hc2, Ht2, Hp2, Hi2, Hn2. clearbody w2.
  rewrite Hc1 in Hc2, Ht2. rewrite Ht1 in Ht2. cbn in Hc2, Ht2.
  rewrite Ht2 in Hn2. cbn in Hn2. rewrite <- Hp2 in H3.
  destruct (fast_touch_step k3 c3 d3 w2 Hi2 H3 ltac:(unfold INT_MAX; lia))
    as (Hc3 & Ht3 & Hp3 & Hi3 & _ & _ & Hn3).
  fold w3 in Hc3, Ht3, Hp3, Hi3, Hn3. clearbody w3.
  rewrite Hc2 in Hc3, Ht3. rewrite Ht2 in Ht3. cbn in Hc3, Ht3.
  rewrite Ht3 in Hn3. cbn in Hn3. rewrite <- Hp3 in H4.
  destruct (fast_touch_step k4 c4 d4 w3 Hi3 H4 ltac:(unfold INT_MAX; lia))
    as (Hc4 & Ht4 & Hp4 & Hi4 & _ & _ & Hn4).
  fold w4 in Hc4, Ht4, Hp4, Hi4, Hn4. clearbody w4.
  rewrite Hc3 in Hc4, Ht4. rewrite Ht3 in Ht4. cbn in Hc4, Ht4.
  rewrite Ht4 in Hn4. cbn in Hn4. rewrite <- Hp4 in H5.
  destruct (fast_touch_step k5 c5 d5 w4 Hi4 H5 ltac:(unfold INT_MAX; lia))
    as (Hc5 & Ht5 & Hp5 & Hi5 & _ & _ & Hn5).
  fold w5 in Hc5, Ht5, Hp5, Hi5, Hn5. clearbody w5.
  rewrite Hc4 in Hc5, Ht5. rewrite Ht4 in Ht5. cbn in Hc5, Ht5.
  rewrite Ht5 in Hn5. cbn in Hn5. rewrite <- Hp5 in H6.
  destruct (fast_touch_step k6 c6 d6 w5 Hi5 H6 ltac:(unfold INT_MAX; lia))
    as (Hc6 & Ht6 & Hp6 & Hi6 & _ & _ & Hn6).
  fold w6 in Hc6, Ht6, Hp6, Hi6, Hn6. clearbody w6.
  rewrite Hc5 in Hc6, Ht6. rewrite Ht5 in Ht6. cbn in Hc6, Ht6.
  rewrite Ht6 in Hn6. cbn in Hn6.
  split; [repeat split; assumption|].
  split; lia.
Qed.

(** ** Slow touches *)

Lemma slow_touch_step (k : io_outcome) (clk : timespec) (data : Z) (w : world) :
  consecutive_touch_int (vars w) = 0 ->
  touchboost_disable (intel w) = 0 ->
  (interactiveActive (vars w) = true ->
   (inject_Z 21 <= diff_ms clk (prev_time (vars w)))%Q) ->
  let w' := power_hint k clk POWER_HINT_INTERACTION data w in
  consecutive_touch_int (vars w') = 0 /\
  touchboost_disable (intel w') = 0 /\
  interactiveActive (vars w') = interactiveActive (vars w) /\
  (interactiveActive (vars w) = true -> prev_time (vars w') = clk).
Proof.
  intros Hc Ht Hgap w'.
  destruct (interactiveActive (vars w)) eqn:Hia.
  - specialize (Hgap eq_refl).
    assert (Hslow : Qlt_bool (diff_ms clk (prev_time (vars w)))
                      (inject_Z SHORT_TOUCH_TIME) = false).
    { apply Qlt_bool_false. apply Qle_trans with (inject_Z 21); [|exact Hgap].
      unfold Qle. simpl. lia. }
    destruct (interaction_active_fields k clk data w Hia) as (Hv & Htb & _ & _).
    fold w' in Hv, Htb. clearbody w'.
    rewrite Hslow in Htb. cbn [andb] in Htb.
    destruct (touch_classify_slow _ (stamped clk w) Hslow) as (Hc' & Ht' & Hi' & Hp').
    rewrite Hv, Htb.
    repeat split.
    + apply Hc'. exact Hc.
    + apply Ht'. exact Ht.
    + rewrite Hi'. exact Hia.
    + intros _. rewrite Hp'. reflexivity.
  - destruct (power_hint_interaction_inactive k clk data w Hia) as (Htb & Hv).
    fold w' in Htb, Hv. rewrite Hv, Htb, Hia.
    repeat split; try assumption; try reflexivity. intros H. discriminate H.
Qed.

Lemma slow_touches_keep_reset (hs : list (io_outcome * timespec * Z)) :
  forall (w : world) (prev : timespec) (n : nat),
    consecutive_touch_int (vars w) = 0 ->
    touchboost_disable (intel w) = 0 ->
    (interactiveActive (vars w) = true -> prev_time (vars w) = prev) ->
    spaced (inject_Z 21) prev hs ->
    consecutive_touch_int (vars (exec (firstn n (touches hs)) w)) = 0 /\
    touchboost_disable (intel (exec (firstn n (touches hs)) w)) = 0.
Proof.
  induction hs as [|[[k clk] data] hs IH]; intros w prev n Hc Ht Hp Hs.
  - destruct n; simpl; split; assumption.
  - destruct n as [|n]; [simpl; split; assumption|].
    destruct Hs as [Hgap Hrest]. cbn [fst snd] in Hgap, Hrest.
    cbn [touches map firstn exec fold_left step fst snd].
    destruct (slow_touch_step k clk data w Hc Ht) as (Hc' & Ht' & Hi' & Hp').
    { intros Hia. rewrite (Hp Hia). exact Hgap. }
    apply (IH _ clk n Hc' Ht'); [|exact Hrest].
    intros Hia. apply Hp'. rewrite <- Hi'. exact Hia.
Qed.

(** C6: from a state with the fast-touch count and scroll mode at their
    reset values, after every hint of a sequence of interaction hints that
    each come at least 21 ms after the time stamp recorded before them, the
    count is still 0 and scroll mode is still off. *)
Theorem C6_slow_touches_never_scroll
    (w : world) (hs : list (io_outcome * timespec * Z)) (n : nat)
    (Hcount : consecutive_touch_int (vars w) = 0)
    (Hscroll : touchboost_disable (intel w) = 0)
    (Hspaced : spaced (inject_Z 21) (prev_time (vars w)) hs) :
  consecutive_touch_int (vars (exec (firstn n (touches hs)) w)) = 0 /\
  touchboost_disable (intel (exec (firstn n (touches hs)) w)) = 0.
Proof.
  apply (slow_touches_keep_reset hs w (prev_time (vars w)) n Hcount Hscroll);
    [reflexivity | exact Hspaced].
Qed.

Lemma C6_slow_touches_never_scroll_witness :
  let hs := [(served, ms 1021, 0); (served, ms 1042, 0); (served, ms 1200, 0)] in
  (consecutive_touch_int (vars touched) = 0 /\
   touchboost_disable (intel touched) = 0 /\
   spaced (inject_Z 21) (prev_time (vars touched)) hs) /\
  consecutive_touch_int (vars (exec (firstn 3 (touches hs)) touched)) = 0 /\
  touchboost_disable (intel (exec (firstn 3 (touches hs)) touched)) = 0.
Proof.
  intros hs.
  assert (Hc : consecutive_touch_int (vars touched) = 0) by (vm_compute; reflexivity).
  assert (Ht : touchboost_disable (intel touched) = 0) by (vm_compute; reflexivity).
  assert (Hs : spaced (inject_Z 21) (prev_time (vars touched)) hs).
  { subst hs. cbn [spaced fst snd]. repeat split; vm_compute; discriminate. }
  split; [exact (conj Hc (conj Ht Hs))|].
  exact (C6_slow_touches_never_scroll touched hs 3 Hc Ht Hs).
Defined.

(** The time stamp before the first hint is the zero [timespec] the module
    starts with: a first touch at 5 ms on the clock is counted as a fast one,
    one at 21 ms or later is not. *)
Lemma first_touch_is_measured_from_zero :
  consecutive_touch_int (vars (step booted (touch 5))) = 1 /\
  consecutive_touch_int (vars (step booted (touch 21))) = 0 /\
  prev_time (vars booted) = zero_time.
Proof. vm_compute. repeat split; reflexivity. Qed.

(** ** The scheduler boost engine *)

Lemma settle_step (fuel : nat) (k : io_outcome) (clk : timespec) (w w' : world) :
  worker_step k clk w = Some w' ->
  settle (S fuel) k clk w = settle fuel k clk w'.
Proof. intros H. simpl. rewrite H. reflexivity. Qed.

Lemma settle_blocked (fuel : nat) (k : io_outcome) (clk : timespec) (w : world) :
  worker_step k clk w = None -> settle fuel k clk w = w.
Proof. intros H. destruct fuel; simpl; [|rewrite H]; reflexivity. Qed.

Lemma advance_wake (fuel : nat) (k : io_outcome) (t u : Z) (w : world) :
  worker w = Some (W_sleep u) -> u <= t ->
  advance (S fuel) k t w = advance fuel k t (settle (S fuel) k (at_ns u) w).
Proof.
  intros Hw Hu. cbn [advance]. rewrite Hw.
  apply Z.leb_le in Hu. rewrite Hu. reflexivity.
Qed.

Lemma advance_asleep (fuel : nat) (k : io_outcome) (t u : Z) (w : world) :
  worker w = Some (W_sleep u) -> t < u -> advance fuel k t w = w.
Proof.
  intros Hw Hu. destruct fuel; cbn [advance]; [reflexivity|]. rewrite Hw.
  apply Z.leb_gt in Hu. rewrite Hu. reflexivity.
Qed.

Lemma advance_waiting (fuel : nat) (k : io_outcome) (t : Z) (w : world) :
  worker w = Some W_sem_wait -> advance fuel k t w = w.
Proof.
  intros Hw. destruct fuel; cbn [advance]; [reflexivity|]. rewrite Hw. reflexivity.
Qed.

(** Clock arithmetic. *)

Lemma gettime_ns_at_ns (t : Z) : - 2 ^ 63 <= t < 2 ^ 63 -> gettime_ns (at_ns t) = t.
Proof.
  intros Ht. unfold gettime_ns, at_ns. cbn [tv_sec tv_nsec].
  rewrite Z.mul_comm, <- Z.div_mod by (unfold NSEC_PER_SEC; lia).
  apply wrap_ll_small. exact Ht.
Qed.

Lemma nanosleep_ns_duration (ns : Z) : timespec_ns (nanosleep_ns ns) = ns.
Proof.
  unfold timespec_ns, nanosleep_ns. cbn [tv_sec tv_nsec].
  rewrite Z.mul_comm. symmetry. apply Z.quot_rem'.
Qed.

(** Writes to the scheduler-boost descriptor in a trace. *)

Lemma boost_writes_app (fd : Z) (t1 t2 : list event) :
  boost_writes fd (t1 ++ t2) = boost_writes fd t1 ++ boost_writes fd t2.
Proof.
  induction t1 as [|[at_ c] t1 IH]; simpl; [reflexivity|].
  destruct c; try exact IH.
  destruct (fd0 =? fd); simpl; rewrite IH; reflexivity.
Qed.

Lemma boost_writes_schedtune_sysfs_boost (k : io_outcome) (clk : timespec) (fd : Z)
    (lvl : string) :
  boost_writes fd
    (map (fun c => (gettime_ns clk, c)) (snd (schedtune_sysfs_boost k fd lvl)))
  = [(gettime_ns clk, lvl)].
Proof.
  unfold schedtune_sysfs_boost, c_write, io_bind.
  destruct (wrap_int (rw_ret k) <? 0); simpl; rewrite Z.eqb_refl; reflexivity.
Qed.

Lemma power_hint_request_boost (k : io_outcome) (clk : timespec) (data : Z) (w : world) :
  debounce_path w ->
  power_hint k clk POWER_HINT_INTERACTION data w =
  pthread_mutex_unlock (schedtune_boost k clk (pthread_mutex_lock w)).
Proof.
  intros [Hoff Hon]. unfold power_hint, hint_interaction.
  change (vars (pthread_mutex_lock w)) with (vars w).
  rewrite Hoff, Hon. reflexivity.
Qed.

Lemma debounce_path_request_boost (k : io_outcome) (clk : timespec) (data : Z)
    (w : world) :
  debounce_path w ->
  debounce_path (power_hint k clk POWER_HINT_INTERACTION data w).
Proof.
  intros H. rewrite (power_hint_request_boost k clk data w H).
  destruct (schedtune_boost_touch_fields k clk (pthread_mutex_lock w)) as (_ & _ & _ & Hv).
  unfold debounce_path in *.
  change (vars (pthread_mutex_unlock ?x)) with (vars x). rewrite Hv. exact H.
Qed.

Lemma debounce_path_worker_step (k : io_outcome) (clk : timespec) (w w' : world) :
  worker_step k clk w = Some w' -> debounce_path w -> debounce_path w'.
Proof.
  intros E H. destruct (worker_step_touch_fields k clk w w' E) as (_ & _ & _ & Hv).
  unfold debounce_path in *. rewrite Hv. exact H.
Qed.

(** [requestBoost] with no de-boost pending. *)
Lemma request_boost_idle (k : io_outcome) (clk : timespec) (data : Z) (w : world)
    (fd sl : Z) (pc : worker_pc) (log : list (Z * string)) :
  debounce_path w ->
  sched_state w fd 0 sl pc log ->
  0 <= gettime_ns clk < 2 ^ 62 ->
  sched_state (power_hint k clk POWER_HINT_INTERACTION data w)
    fd (gettime_ns clk + SCHEDTUNE_BOOST_TIME_NS) (sl + 1) pc
    (log ++ [(gettime_ns clk, SCHEDTUNE_BOOST_INTERACTIVE)]).
Proof.
  intros Hpath (Hfd & Hdt & Hsl & Hpc & Hlog) Ht.
  rewrite (power_hint_request_boost k clk data w Hpath).
  unfold schedtune_boost.
  change (deboost_time (intel (pthread_mutex_lock w))) with (deboost_time (intel w)).
  change (schedtune_boost_fd (intel (pthread_mutex_lock w)))
    with (schedtune_boost_fd (intel w)).
  rewrite Hdt, Hfd. cbn [Z.eqb]. cbv zeta.
  rewrite wrap_ll_small by (unfold SCHEDTUNE_BOOST_TIME_NS; lia).
  repeat split; try assumption.
  - cbn. rewrite Hsl. reflexivity.
  - cbn [trace pthread_mutex_unlock set_lock set_deboost_time sem_post set_signal_lock
         upd_intel run_io snd add_trace pthread_mutex_lock].
    rewrite boost_writes_app, Hlog, boost_writes_schedtune_sysfs_boost. reflexivity.
Qed.

(** [requestBoost] while a de-boost is pending: the deadline moves, nothing
    is written and the worker is not signalled. *)
Lemma request_boost_pending (k : io_outcome) (clk : timespec) (data : Z) (w : world)
    (fd dt sl : Z) (pc : worker_pc) (log : list (Z * string)) :
  debounce_path w ->
  sched_state w fd dt sl pc log ->
  dt <> 0 ->
  0 <= gettime_ns clk < 2 ^ 62 ->
  sched_state (power_hint k clk POWER_HINT_INTERACTION data w)
    fd (gettime_ns clk + SCHEDTUNE_BOOST_TIME_NS) sl pc log.
Proof.
  intros Hpath (Hfd & Hdt & Hsl & Hpc & Hlog) Hnz Ht.
  rewrite (power_hint_request_boost k clk data w Hpath).
  unfold schedtune_boost.
  change (deboost_time (intel (pthread_mutex_lock w))) with (deboost_time (intel w)).
  rewrite Hdt. apply Z.eqb_neq in Hnz. rewrite Hnz. cbv zeta.
  rewrite wrap_ll_small by (unfold SCHEDTUNE_BOOST_TIME_NS; lia).
  repeat split; assumption.
Qed.

(** The worker's steps. *)

Lemma worker_sem_wait_pass (k : io_outcome) (clk : timespec) (w : world)
    (fd dt sl : Z) (log : list (Z * string)) :
  sched_state w fd dt sl W_sem_wait log ->
  0 < sl ->
  exists w', worker_step k clk w = Some w' /\ sched_state w' fd dt (sl - 1) W_check log.
Proof.
  intros (Hfd & Hdt & Hsl & Hpc & Hlog) Hpos.
  unfold worker_step. rewrite Hpc, Hsl.
  apply Z.ltb_lt in Hpos. rewrite Hpos.
  eexists. split; [reflexivity|]. repeat split; assumption.
Qed.

Lemma worker_sem_wait_block (k : io_outcome) (clk : timespec) (w : world)
    (fd dt sl : Z) (log : list (Z * string)) :
  sched_state w fd dt sl W_sem_wait log ->
  sl <= 0 ->
  worker_step k clk w = None.
Proof.
  intros (Hfd & Hdt & Hsl & Hpc & Hlog) Hz.
  unfold worker_step. rewrite Hpc, Hsl.
  apply Z.ltb_ge in Hz. rewrite Hz. reflexivity.
Qed.

Lemma worker_check_sleep (k : io_outcome) (clk : timespec) (w : world)
    (fd dt sl : Z) (log : list (Z * string)) :
  sched_state w fd dt sl W_check log ->
  0 <= gettime_ns clk < dt -> dt < 2 ^ 63 ->
  exists w', worker_step k clk w = Some w' /\
             sched_state w' fd dt sl (W_sleep dt) log.
Proof.
  intros (Hfd & Hdt & Hsl & Hpc & Hlog) Ht Hmax.
  unfold worker_step. rewrite Hpc. cbv zeta.
  change (deboost_time (intel (pthread_mutex_lock w))) with (deboost_time (intel w)).
  rewrite Hdt.
  assert (Hgt : (dt >? gettime_ns clk) = true) by (apply Z.gtb_lt; lia). rewrite Hgt.
  rewrite wrap_ll_small by lia. rewrite nanosleep_ns_duration.
  replace (gettime_ns clk + (dt - gettime_ns clk)) with dt by lia.
  eexists. split; [reflexivity|]. repeat split; assumption.
Qed.

Lemma worker_check_deboost (k : io_outcome) (clk : timespec) (w : world)
    (fd dt sl : Z) (log : list (Z * string)) :
  sched_state w fd dt sl W_check log ->
  dt <= gettime_ns clk ->
  exists w', worker_step k clk w = Some w' /\
             sched_state w' fd 0 sl W_sem_wait
               (log ++ [(gettime_ns clk, SCHEDTUNE_BOOST_NORM)]).
Proof.
  intros (Hfd & Hdt & Hsl & Hpc & Hlog) Hdue.
  unfold worker_step. rewrite Hpc. cbv zeta.
  change (deboost_time (intel (pthread_mutex_lock w))) with (deboost_time (intel w)).
  change (schedtune_boost_fd (intel (pthread_mutex_lock w)))
    with (schedtune_boost_fd (intel w)).
  rewrite Hdt, Hfd.
  assert (Hgt : (dt >? gettime_ns clk) = false)
    by (rewrite Z.gtb_ltb; apply Z.ltb_ge; lia).
  rewrite Hgt.
  eexists. split; [reflexivity|]. repeat split; try assumption.
  cbn [trace pthread_mutex_unlock set_lock set_deboost_time set_worker
       upd_intel run_io snd add_trace pthread_mutex_lock].
  rewrite boost_writes_app, Hlog, boost_writes_schedtune_sysfs_boost. reflexivity.
Qed.

Lemma worker_wakes (k : io_outcome) (clk : timespec) (u : Z) (w : world)
    (fd dt sl : Z) (log : list (Z * string)) :
  sched_state w fd dt sl (W_sleep u) log ->
  u <= gettime_ns clk ->
  exists w', worker_step k clk w = Some w' /\ sched_state w' fd dt sl W_check log.
Proof.
  intros (Hfd & Hdt & Hsl & Hpc & Hlog) Hdue.
  unfold worker_step. rewrite Hpc.
  apply Z.leb_le in Hdue. rewrite Hdue.
  eexists. split; [reflexivity|]. repeat split; assumption.
Qed.

Lemma worker_asleep (k : io_outcome) (clk : timespec) (u : Z) (w : world)
    (fd dt sl : Z) (log : list (Z * string)) :
  sched_state w fd dt sl (W_sleep u) log ->
  gettime_ns clk < u ->
  worker_step k clk w = None.
Proof.
  intros (Hfd & Hdt & Hsl & Hpc & Hlog) Hearly.
  unfold worker_step. rewrite Hpc.
  apply Z.leb_gt in Hearly. rewrite Hearly. reflexivity.
Qed.

(** The worker never writes the normal level ahead of the deadline: a step
    taken while the deadline is in the future leaves the trace as it is. *)
Lemma worker_never_early (k : io_outcome) (clk : timespec) (w w' : world) :
  gettime_ns clk < deboost_time (intel w) ->
  worker_step k clk w = Some w' ->
  trace w' = trace w.
Proof.
  intros Hearly. unfold worker_step.
  destruct (worker w) as [[ | | u]|]; try discriminate.
  - destruct (0 <? signal_lock (intel w)); [|discriminate]. intros [= <-]. reflexivity.
  - cbv zeta.
    change (deboost_time (intel (pthread_mutex_lock w))) with (deboost_time (intel w)).
    assert (Hgt : (deboost_time (intel w) >? gettime_ns clk) = true)
      by (apply Z.gtb_lt; exact Hearly).
    rewrite Hgt. intros [= <-]. reflexivity.
  - destruct (u <=? gettime_ns clk); [|discriminate]. intros [= <-]. reflexivity.
Qed.

(** Runs of the worker at one instant. *)

(** Signalled while waiting, deadline ahead: it takes the semaphore, checks
    and goes to sleep until the deadline. *)
Lemma settle_signalled (fuel : nat) (k : io_outcome) (clk : timespec) (w : world)
    (fd dt : Z) (log : list (Z * string)) :
  sched_state w fd dt 1 W_sem_wait log ->
  0 <= gettime_ns clk < dt -> dt < 2 ^ 63 ->
  (2 <= fuel)%nat ->
  sched_state (settle fuel k clk w) fd dt 0 (W_sleep dt) log.
Proof.
  intros Hst Ht Hmax Hfuel.
  destruct fuel as [|[|fuel]]; try lia.
  destruct (worker_sem_wait_pass k clk w fd dt 1 log Hst ltac:(lia)) as (w1 & E1 & H1).
  rewrite (settle_step _ k clk w w1 E1).
  destruct (worker_check_sleep k clk w1 fd dt (1 - 1) log H1 Ht Hmax) as (w2 & E2 & H2).
  rewrite (settle_step _ k clk w1 w2 E2).
  rewrite settle_blocked; [exact H2|].
  apply (worker_asleep k clk dt w2 fd dt (1 - 1) log H2). lia.
Qed.


(** Sleep over, deadline moved ahead meanwhile: back to sleep until the new
    deadline, nothing written. *)
Lemma settle_woken_early (fuel : nat) (k : io_outcome) (clk : timespec) (u : Z)
    (w : world) (fd dt sl : Z) (log : list (Z * string)) :
  sched_state w fd dt sl (W_sleep u) log ->
  u <= gettime_ns clk -> 0 <= gettime_ns clk < dt -> dt < 2 ^ 63 ->
  (2 <= fuel)%nat ->
  sched_state (settle fuel k clk w) fd dt sl (W_sleep dt) log.
Proof.
  intros Hst Hu Ht Hmax Hfuel.
  destruct fuel as [|[|fuel]]; try lia.
  destruct (worker_wakes k clk u w fd dt sl log Hst Hu) as (w1 & E1 & H1).
  rewrite (settle_step _ k clk w w1 E1).
  destruct (worker_check_sleep k clk w1 fd dt sl log H1 Ht Hmax) as (w2 & E2 & H2).
  rewrite (settle_step _ k clk w1 w2 E2).
  rewrite settle_blocked; [exact H2|].
  apply (worker_asleep k clk dt w2 fd dt sl log H2). lia.
Qed.

(** Sleep over, deadline reached: the normal level is written, the deadline
    is cleared and the worker waits for the next signal. *)
Lemma settle_woken_due (fuel : nat) (k : io_outcome) (clk : timespec) (u : Z)
    (w : world) (fd dt : Z) (log : list (Z * string)) :
  sched_state w fd dt 0 (W_sleep u) log ->
  u <= gettime_ns clk -> dt <= gettime_ns clk ->
  (2 <= fuel)%nat ->
  sched_state (settle fuel k clk w) fd 0 0 W_sem_wait
    (log ++ [(gettime_ns clk, SCHEDTUNE_BOOST_NORM)]).
Proof.
  intros Hst Hu Hdue Hfuel.
  destruct fuel as [|[|fuel]]; try lia.
  destruct (worker_wakes k clk u w fd dt 0 log Hst Hu) as (w1 & E1 & H1).
  rewrite (settle_step _ k clk w w1 E1).
  destruct (worker_check_deboost k clk w1 fd dt 0 log H1 Hdue) as (w2 & E2 & H2).
  rewrite (settle_step _ k clk w1 w2 E2).
  rewrite settle_blocked; [exact H2|].
  apply (worker_sem_wait_block k clk w2 _ _ _ _ H2). lia.
Qed.

(** Runs of the clock with a de-boost pending. *)

Lemma sched_state_blocked_waiting (w : world) (fd dt sl : Z) (log : list (Z * string)) :
  sched_state w fd dt sl W_sem_wait log -> worker w = Some W_sem_wait.
Proof. intros (_ & _ & _ & H & _). exact H. Qed.

Lemma sched_state_sleeping (w : world) (fd dt sl u : Z) (log : list (Z * string)) :
  sched_state w fd dt sl (W_sleep u) log -> worker w = Some (W_sleep u).
Proof. intros (_ & _ & _ & H & _). exact H. Qed.

(** Asleep until the deadline itself: once the clock reaches it the normal
    level is written at that instant. *)
Lemma advance_to_deadline (fuel : nat) (k : io_outcome) (t : Z) (w : world)
    (fd dt : Z) (log : list (Z * string)) :
  sched_state w fd dt 0 (W_sleep dt) log ->
  0 <= dt < 2 ^ 63 -> dt <= t ->
  (2 <= fuel)%nat ->
  sched_state (advance fuel k t w) fd 0 0 W_sem_wait
    (log ++ [(dt, SCHEDTUNE_BOOST_NORM)]).
Proof.
  intros Hst Hdt Hdue Hfuel.
  destruct fuel as [|fuel]; [lia|].
  rewrite (advance_wake fuel k t dt w (sched_state_sleeping _ _ _ _ _ _ Hst) Hdue).
  pose proof (gettime_ns_at_ns dt ltac:(lia)) as Eclk.
  pose proof (settle_woken_due (S fuel) k (at_ns dt) dt w fd dt log Hst
                ltac:(lia) ltac:(lia) Hfuel) as H1.
  rewrite Eclk in H1.
  rewrite advance_waiting; [exact H1|].
  exact (sched_state_blocked_waiting _ _ _ _ _ H1).
Qed.

(** Asleep until [u] with the deadline at [dt], not before [u]: nothing is
    written before the deadline, and the normal level is written exactly at
    the deadline. *)
Lemma advance_pending (fuel : nat) (k : io_outcome) (t : Z) (w : world)
    (fd dt u : Z) (log : list (Z * string)) :
  sched_state w fd dt 0 (W_sleep u) log ->
  0 <= u <= dt -> dt < 2 ^ 63 ->
  (3 <= fuel)%nat ->
  (t < dt -> exists pc, sched_state (advance fuel k t w) fd dt 0 pc log) /\
  (dt <= t ->
   sched_state (advance fuel k t w) fd 0 0 W_sem_wait
     (log ++ [(dt, SCHEDTUNE_BOOST_NORM)])).
Proof.
  intros Hst Hu Hmax Hfuel.
  destruct (Z.eq_dec u dt) as [-> | Hne].
  - split.
    + intros Hearly.
      rewrite (advance_asleep fuel k t dt w (sched_state_sleeping _ _ _ _ _ _ Hst) Hearly).
      eexists. exact Hst.
    + intros Hdue. apply advance_to_deadline; try assumption; lia.
  - destruct (Z_lt_le_dec t u) as [Hbefore | Hafter].
    + split; [|intros; lia].
      intros _.
      rewrite (advance_asleep fuel k t u w (sched_state_sleeping _ _ _ _ _ _ Hst) Hbefore).
      eexists. exact Hst.
    + destruct fuel as [|fuel]; [lia|].
      rewrite (advance_wake fuel k t u w (sched_state_sleeping _ _ _ _ _ _ Hst) Hafter).
      pose proof (gettime_ns_at_ns u ltac:(lia)) as Eclk.
      assert (H1 : sched_state (settle (S fuel) k (at_ns u) w) fd dt 0 (W_sleep dt) log).
      { apply (settle_woken_early (S fuel) k (at_ns u) u w fd dt 0 log Hst);
          rewrite ?Eclk; lia. }
      split.
      * intros Hearly.
        rewrite (advance_asleep fuel k t dt _ (sched_state_sleeping _ _ _ _ _ _ H1) Hearly).
        eexists. exact H1.
      * intros Hdue. apply advance_to_deadline; try assumption; lia.
Qed.

(** ** Start-up of the engine *)

Lemma boost_writes_sysfs_read (k : io_outcome) (clk : timespec) (fd : Z)
    (path : string) (n : Z) :
  boost_writes fd (map (fun c => (gettime_ns clk, c)) (snd (sysfs_read k path n))) = [].
Proof.
  unfold sysfs_read, c_open, c_read, io_bind.
  destruct (open_ret k <? 0); [reflexivity|].
  destruct (wrap_int (rw_ret k) <? 0); reflexivity.
Qed.

Lemma schedtune_power_init_ok (k : io_outcome) (clk : timespec) (w : world) :
  0 <= open_ret k ->
  fst (schedtune_power_init k clk w) = 0 /\
  vars (snd (schedtune_power_init k clk w)) = vars w /\
  sched_state (snd (schedtune_power_init k clk w)) (open_ret k) 0 1 W_sem_wait
    (boost_writes (open_ret k) (trace w)).
Proof.
  intros Hopen. unfold schedtune_power_init. cbv zeta.
  cbn [run_io c_open fst snd map].
  change (schedtune_boost_fd (intel (set_schedtune_boost_fd ?v ?x))) with v.
  apply Z.ltb_ge in Hopen. rewrite Hopen. cbn [fst snd].
  repeat split.
  cbn [trace set_worker set_schedtune_boost_fd upd_intel add_trace set_signal_lock
       set_deboost_time].
  rewrite boost_writes_app. cbn [boost_writes]. apply app_nil_r.
Qed.

Lemma power_init_engine (k1 k2 k3 : io_outcome) (clk : timespec) :
  0 <= open_ret k3 ->
  let w0 := power_init k1 k2 k3 clk HAL_MODULE_INFO_SYM in
  intelSchedBoostActive (vars w0) = true /\
  sched_state w0 (open_ret k3) 0 1 W_sem_wait [].
Proof.
  intros Hopen. unfold power_init.
  cbn [run_io]. cbv zeta.
  set (wa := if fst (sysfs_read k1 TOUCHBOOST_PULSE_SYSFS 1) =? 0 then _ else _).
  set (wb := if fst (sysfs_read k2 cpufreq_boost_intel_pstate 1) =? 0 then _ else _).
  assert (Hlog : boost_writes (open_ret k3) (trace wb) = []).
  { subst wb wa.
    destruct (fst (sysfs_read k2 cpufreq_boost_intel_pstate 1) =? 0);
      destruct (fst (sysfs_read k1 TOUCHBOOST_PULSE_SYSFS 1) =? 0);
      cbn [trace add_trace set_interactiveActive set_intelPStateActive upd_vars
           HAL_MODULE_INFO_SYM app];
      rewrite boost_writes_app, !boost_writes_sysfs_read; reflexivity. }
  destruct (schedtune_power_init_ok k3 clk wb Hopen) as (Hr & Hv & Hst).
  destruct (schedtune_power_init k3 clk wb) as [r3 w3].
  cbn [fst snd] in Hr, Hv, Hst. subst r3. cbn [Z.eqb].
  rewrite Hlog in Hst. split; [reflexivity | exact Hst].
Qed.



(** ** Two boosts inside one window *)

(** C1: with the worker idle at its wait, a boost requested at [t0] and a
    second one at [t1], less than the one-second window later, make exactly
    one write of the interactive level, at [t0], and exactly one write of the
    normal level, made by the worker at [t1] plus the window and at no
    earlier instant (for [t1] 500 ms after [t0]: at 1500 ms, nothing at
    1000 ms); the worker then waits again with the deadline cleared. *)
Theorem C1_two_boosts_one_deboost
    (w : world) (k1 k2 kw : io_outcome) (clk0 clk1 : timespec) (d1 d2 : Z)
    (t : Z) (fuel : nat)
    (Hpath : debounce_path w)
    (Hwait : worker w = Some W_sem_wait)
    (Hsem : signal_lock (intel w) = 0)
    (Hnone : deboost_time (intel w) = 0)
    (Ht0 : 0 <= gettime_ns clk0)
    (Ht1 : gettime_ns clk0 <= gettime_ns clk1 < gettime_ns clk0 + SCHEDTUNE_BOOST_TIME_NS)
    (Hmax : gettime_ns clk1 < 2 ^ 62)
    (Hfuel : (3 <= fuel)%nat) :
  let fd := schedtune_boost_fd (intel w) in
  let t0 := gettime_ns clk0 in
  let t1 := gettime_ns clk1 in
  let wa := settle fuel kw clk0 (power_hint k1 clk0 POWER_HINT_INTERACTION d1 w) in
  let wb := advance fuel kw t1 wa in
  let wc := settle fuel kw clk1 (power_hint k2 clk1 POWER_HINT_INTERACTION d2 wb) in
  let wd := advance fuel kw t wc in
  boost_writes fd (trace wc)
    = boost_writes fd (trace w) ++ [(t0, SCHEDTUNE_BOOST_INTERACTIVE)] /\
  (t < t1 + SCHEDTUNE_BOOST_TIME_NS ->
   boost_writes fd (trace wd)
     = boost_writes fd (trace w) ++ [(t0, SCHEDTUNE_BOOST_INTERACTIVE)]) /\
  (t1 + SCHEDTUNE_BOOST_TIME_NS <= t ->
   boost_writes fd (trace wd)
     = boost_writes fd (trace w)
       ++ [(t0, SCHEDTUNE_BOOST_INTERACTIVE);
           (t1 + SCHEDTUNE_BOOST_TIME_NS, SCHEDTUNE_BOOST_NORM)] /\
   deboost_time (intel wd) = 0 /\
   forall k' clk', worker_step k' clk' wd = None).
Proof.
  intros fd t0 t1 wa wb wc wd. subst t0 t1.
  set (log := boost_writes fd (trace w)).
  set (hi := (gettime_ns clk0, SCHEDTUNE_BOOST_INTERACTIVE)).
  assert (Hw : sched_state w fd 0 0 W_sem_wait log)
    by (repeat split; assumption).
  unfold SCHEDTUNE_BOOST_TIME_NS in Ht1.
  (* first request: written, signalled, deadline set *)
  assert (Hr1 : sched_state (power_hint k1 clk0 POWER_HINT_INTERACTION d1 w)
                  fd (gettime_ns clk0 + SCHEDTUNE_BOOST_TIME_NS) (0 + 1) W_sem_wait (log ++ [hi]))
    by (apply request_boost_idle; [exact Hpath | exact Hw | lia]).
  assert (Hp1 : debounce_path (power_hint k1 clk0 POWER_HINT_INTERACTION d1 w))
    by (apply debounce_path_request_boost; exact Hpath).
  (* the worker takes the signal and sleeps until the deadline *)
  assert (Ha : sched_state wa fd (gettime_ns clk0 + SCHEDTUNE_BOOST_TIME_NS) 0
                 (W_sleep (gettime_ns clk0 + SCHEDTUNE_BOOST_TIME_NS)) (log ++ [hi])).
  { apply settle_signalled; try exact Hr1;
      unfold SCHEDTUNE_BOOST_TIME_NS; lia. }
  assert (Hpa : debounce_path wa).
  { subst wa. destruct fuel as [|[|fuel]]; try lia.
    destruct (worker_sem_wait_pass kw clk0 _ _ _ _ _ Hr1 ltac:(lia)) as (x1 & E1 & H1).
    rewrite (settle_step _ kw clk0 _ x1 E1).
    destruct (worker_check_sleep kw clk0 x1 _ _ _ _ H1) as (x2 & E2 & H2);
      [unfold SCHEDTUNE_BOOST_TIME_NS; lia
      |unfold SCHEDTUNE_BOOST_TIME_NS; lia|].
    rewrite (settle_step _ kw clk0 x1 x2 E2).
    rewrite settle_blocked.
    - apply (debounce_path_worker_step kw clk0 x1 x2 E2).
      apply (debounce_path_worker_step kw clk0 _ x1 E1). exact Hp1.
    - apply (worker_asleep kw clk0 _ x2 _ _ _ _ H2).
      unfold SCHEDTUNE_BOOST_TIME_NS. lia. }
  (* nothing happens up to the second request *)
  assert (Eb : wb = wa).
  { subst wb. apply (advance_asleep fuel kw (gettime_ns clk1)
                      (gettime_ns clk0 + SCHEDTUNE_BOOST_TIME_NS) wa).
    - exact (sched_state_sleeping _ _ _ _ _ _ Ha).
    - unfold SCHEDTUNE_BOOST_TIME_NS. lia. }
  (* second request: the deadline moves, nothing is written *)
  assert (Hr2 : sched_state (power_hint k2 clk1 POWER_HINT_INTERACTION d2 wb)
                  fd (gettime_ns clk1 + SCHEDTUNE_BOOST_TIME_NS) 0
                  (W_sleep (gettime_ns clk0 + SCHEDTUNE_BOOST_TIME_NS)) (log ++ [hi])).
  { rewrite Eb. apply (request_boost_pending k2 clk1 d2 wa fd _ 0 _ _ Hpa Ha).
    - unfold SCHEDTUNE_BOOST_TIME_NS. lia.
    - lia. }
  assert (Hc : sched_state wc fd (gettime_ns clk1 + SCHEDTUNE_BOOST_TIME_NS) 0
                 (W_sleep (gettime_ns clk0 + SCHEDTUNE_BOOST_TIME_NS)) (log ++ [hi])).
  { subst wc. rewrite settle_blocked; [exact Hr2|].
    apply (worker_asleep kw clk1 _ _ _ _ _ _ Hr2).
    unfold SCHEDTUNE_BOOST_TIME_NS. lia. }
  (* the clock runs on *)
  destruct (advance_pending fuel kw t wc fd (gettime_ns clk1 + SCHEDTUNE_BOOST_TIME_NS)
              (gettime_ns clk0 + SCHEDTUNE_BOOST_TIME_NS) (log ++ [hi]) Hc) as (Hbefore & Hafter);
    [unfold SCHEDTUNE_BOOST_TIME_NS; lia
    |unfold SCHEDTUNE_BOOST_TIME_NS; lia
    |exact Hfuel|].
  fold wd in Hbefore, Hafter.
  split; [|split].
  - destruct Hc as (_ & _ & _ & _ & Hlog). exact Hlog.
  - intros Hearly. destruct (Hbefore Hearly) as (pc & _ & _ & _ & _ & Hlog). exact Hlog.
  - intros Hdue. pose proof (Hafter Hdue) as Hd.
    split; [|split].
    + destruct Hd as (_ & _ & _ & _ & Hlog). rewrite Hlog, <- app_assoc. reflexivity.
    + destruct Hd as (_ & Hdt & _). exact Hdt.
    + intros k' clk'. apply (worker_sem_wait_block k' clk' wd _ _ _ _ Hd). lia.
Qed.

Example sched_only_state :
  (interactiveActive (vars sched_only), intelSchedBoostActive (vars sched_only),
   deboost_time (intel sched_only), signal_lock (intel sched_only), worker sched_only,
   boost_writes 3 (trace sched_only))
  = (false, true, 0, 0, Some W_sem_wait, [(901000000, "10"%string)]).
Proof. vm_compute. reflexivity. Qed.

(** Boosts at 2000 ms and 2500 ms on the clock, observed at 3500 ms. *)
Lemma C1_two_boosts_one_deboost_witness :
  (debounce_path sched_only /\
   worker sched_only = Some W_sem_wait /\
   signal_lock (intel sched_only) = 0 /\
   deboost_time (intel sched_only) = 0 /\
   gettime_ns (ms 2000) <= gettime_ns (ms 2500)
     < gettime_ns (ms 2000) + SCHEDTUNE_BOOST_TIME_NS) /\
  let wa := settle 3 served (ms 2000)
              (power_hint served (ms 2000) POWER_HINT_INTERACTION 0 sched_only) in
  let wb := advance 3 served (gettime_ns (ms 2500)) wa in
  let wc := settle 3 served (ms 2500)
              (power_hint served (ms 2500) POWER_HINT_INTERACTION 0 wb) in
  let wd := advance 3 served 3500000000 wc in
  boost_writes (schedtune_boost_fd (intel sched_only)) (trace wd)
  = boost_writes (schedtune_boost_fd (intel sched_only)) (trace sched_only)
    ++ [(gettime_ns (ms 2000), SCHEDTUNE_BOOST_INTERACTIVE);
        (gettime_ns (ms 2500) + SCHEDTUNE_BOOST_TIME_NS, SCHEDTUNE_BOOST_NORM)].
Proof.
  assert (Hp : debounce_path sched_only) by (vm_compute; split; reflexivity).
  assert (Hw : worker sched_only = Some W_sem_wait) by (vm_compute; reflexivity).
  assert (Hs : signal_lock (intel sched_only) = 0) by (vm_compute; reflexivity).
  assert (Hd : deboost_time (intel sched_only) = 0) by (vm_compute; reflexivity).
  assert (H0 : 0 <= gettime_ns (ms 2000)) by (vm_compute; discriminate).
  assert (H1 : gettime_ns (ms 2000) <= gettime_ns (ms 2500)
               < gettime_ns (ms 2000) + SCHEDTUNE_BOOST_TIME_NS)
    by (vm_compute; split; [discriminate | reflexivity]).
  assert (Hm : gettime_ns (ms 2500) < 2 ^ 62) by (vm_compute; reflexivity).
  assert (Hf : (3 <= 3)%nat) by lia.
  split; [exact (conj Hp (conj Hw (conj Hs (conj Hd H1))))|].
  pose proof (C1_two_boosts_one_deboost sched_only served served served
                (ms 2000) (ms 2500) 0 0 3500000000 3 Hp Hw Hs Hd H0 H1 Hm Hf) as H.
  cbv zeta in H. destruct H as (_ & _ & Hafter).
  cbv zeta. apply Hafter. vm_compute. discriminate.
Defined.

(** The same run read off the trace: one write of "40" at 2000 ms, nothing
    more by 3000 ms, one write of "10" at 3500 ms. *)
Example two_boosts_trace :
  let run (t : Z) :=
    advance 3 served t
      (settle 3 served (ms 2500)
         (power_hint served (ms 2500) POWER_HINT_INTERACTION 0
            (advance 3 served 2500000000
               (settle 3 served (ms 2000)
                  (power_hint served (ms 2000) POWER_HINT_INTERACTION 0 sched_only))))) in
  boost_writes 3 (trace (run 3000000000))
    = [(901000000, "10"%string); (2000000000, "40"%string)] /\
  boost_writes 3 (trace (run 3499999999))
    = [(901000000, "10"%string); (2000000000, "40"%string)] /\
  boost_writes 3 (trace (run 3500000000))
    = [(901000000, "10"%string); (2000000000, "40"%string); (3500000000, "10"%string)] /\
  boost_writes 3 (trace (run 9000000000))
    = [(901000000, "10"%string); (2000000000, "40"%string); (3500000000, "10"%string)].
Proof. vm_compute. repeat split; reflexivity. Qed.

(** The other interleaving at start-up: a boost requested before the worker
    has run at all finds the semaphore still at 1 and raises it to 2, and the
    worker then writes the normal level twice in a row at the deadline. *)
Example boost_before_first_pass :
  let fresh := power_init absent absent served (ms 900) HAL_MODULE_INFO_SYM in
  let boosted := power_hint served (ms 2000) POWER_HINT_INTERACTION 0 fresh in
  let final := advance 6 served 9000000000 (settle 6 served (ms 2000) boosted) in
  signal_lock (intel boosted) = 2 /\
  boost_writes 3 (trace final)
    = [(2000000000, "40"%string); (3000000000, "10"%string); (3000000000, "10"%string)] /\
  worker_step served (ms 9000) final = None.
Proof. vm_compute. repeat split; reflexivity. Qed.


(** * Further properties *)

(** ** Start-up and the capability flags *)

Lemma sysfs_read_result (k : io_outcome) (path : string) (n : Z) :
  -1 <= rw_ret k <= INT_MAX ->
  fst (sysfs_read k path n) = (if (open_ret k <? 0) || (rw_ret k <? 0) then -1 else 0).
Proof.
  intros H. rewrite (sysfs_read_cases k path n H).
  destruct (open_ret k <? 0); [reflexivity|].
  destruct (rw_ret k <? 0); reflexivity.
Qed.

(** X1: the probe of [power_init].  Each capability flag is set exactly when
    its own attribute answered: the pulse flag and the performance-floor flag
    when the attribute opened and the one-byte read did not fail, the
    scheduler flag when the attribute opened for writing; the worker exists
    exactly when the scheduler flag is set; the cadence state is untouched. *)
Theorem X1_power_init_probes
    (k1 k2 k3 : io_outcome) (clk : timespec)
    (Hrw1 : -1 <= rw_ret k1 <= INT_MAX)
    (Hrw2 : -1 <= rw_ret k2 <= INT_MAX) :
  let w := power_init k1 k2 k3 clk HAL_MODULE_INFO_SYM in
  (interactiveActive (vars w) = true <-> 0 <= open_ret k1 /\ 0 <= rw_ret k1) /\
  (intelPStateActive (vars w) = true <-> 0 <= open_ret k2 /\ 0 <= rw_ret k2) /\
  (intelSchedBoostActive (vars w) = true <-> 0 <= open_ret k3) /\
  (worker w = Some W_sem_wait <-> 0 <= open_ret k3) /\
  (worker w = None <-> open_ret k3 < 0) /\
  schedtune_boost_fd (intel w) = open_ret k3 /\
  reset_state w.
Proof.
  intros w. subst w. unfold power_init. cbn [run_io]. cbv zeta.
  rewrite (sysfs_read_result k1 _ _ Hrw1), (sysfs_read_result k2 _ _ Hrw2).
  unfold schedtune_power_init. cbv zeta. cbn [run_io c_open fst snd map].
  change (schedtune_boost_fd (intel (set_schedtune_boost_fd ?v ?x))) with v.
  destruct (open_ret k1 <? 0) eqn:E1; destruct (rw_ret k1 <? 0) eqn:R1;
    destruct (open_ret k2 <? 0) eqn:E2; destruct (rw_ret k2 <? 0) eqn:R2;
    destruct (open_ret k3 <? 0) eqn:E3;
    cbn; zbool; unfold reset_state; cbn;
    repeat split; intros; try lia; try congruence; try discriminate; try reflexivity.
Qed.

Lemma X1_power_init_probes_witness :
  (-1 <= rw_ret served <= INT_MAX /\ -1 <= rw_ret absent <= INT_MAX) /\
  let w := power_init served absent served (ms 900) HAL_MODULE_INFO_SYM in
  (interactiveActive (vars w) = true <-> 0 <= open_ret served /\ 0 <= rw_ret served) /\
  (intelPStateActive (vars w) = true <-> 0 <= open_ret absent /\ 0 <= rw_ret absent) /\
  (intelSchedBoostActive (vars w) = true <-> 0 <= open_ret served) /\
  (worker w = Some W_sem_wait <-> 0 <= open_ret served) /\
  (worker w = None <-> open_ret served < 0) /\
  schedtune_boost_fd (intel w) = open_ret served /\
  reset_state w.
Proof.
  assert (H1 : -1 <= rw_ret served <= INT_MAX) by (vm_compute; split; discriminate).
  assert (H2 : -1 <= rw_ret absent <= INT_MAX) by (vm_compute; split; discriminate).
  split; [exact (conj H1 H2)|].
  exact (X1_power_init_probes served absent served (ms 900) H1 H2).
Defined.

Lemma caps_hint_interaction (k : io_outcome) (clk : timespec) (w : world) :
  caps (hint_interaction k clk w) = caps w.
Proof.
  unfold hint_interaction.
  destruct (negb (interactiveActive (vars w))).
  - destruct (negb (intelSchedBoostActive (vars w))); [reflexivity|].
    destruct (schedtune_boost_touch_fields k clk w) as (_ & _ & _ & Hv).
    unfold caps. rewrite Hv. reflexivity.
  - cbv zeta. unfold touch_pulse. break_if; cbn [run_io snd];
      unfold touch_timer; break_if;
      unfold touch_scroll_entry; break_if;
      unfold touch_classify; repeat break_if; reflexivity.
Qed.

Lemma caps_hint_vsync (k : io_outcome) (clk : timespec) (data : Z) (w : world) :
  caps (hint_vsync k clk data w) = caps w.
Proof.
  unfold hint_vsync.
  transitivity (caps (vsync_touch_release clk w)).
  - unfold vsync_pulse. repeat break_if; reflexivity.
  - unfold vsync_touch_release. break_if; [|reflexivity].
    cbv zeta. break_if; reflexivity.
Qed.

Lemma power_hint_keeps_engine_fields (k : io_outcome) (clk : timespec)
    (hint : power_hint_t) (data : Z) (w : world) :
  let w' := power_hint k clk hint data w in
  caps w' = caps w /\ worker w' = worker w /\
  schedtune_boost_fd (intel w') = schedtune_boost_fd (intel w).
Proof.
  unfold power_hint. destruct hint.
  - destruct (negb (interactiveActive (vars (pthread_mutex_lock w)))).
    + repeat split.
    + split; [|split].
      * change (caps (pthread_mutex_unlock ?x)) with (caps x).
        rewrite caps_hint_vsync. reflexivity.
      * unfold hint_vsync, vsync_pulse, vsync_touch_release.
        repeat break_if; reflexivity.
      * unfold hint_vsync, vsync_pulse, vsync_touch_release.
        repeat break_if; reflexivity.
  - split; [|split].
    + change (caps (pthread_mutex_unlock ?x)) with (caps x).
      rewrite caps_hint_interaction. reflexivity.
    + unfold hint_interaction, schedtune_boost, touch_pulse, touch_timer,
        touch_scroll_entry, touch_classify.
      repeat break_if; reflexivity.
    + unfold hint_interaction, schedtune_boost, touch_pulse, touch_timer,
        touch_scroll_entry, touch_classify.
      repeat break_if; reflexivity.
  - repeat split.
  - repeat split.
Qed.

Lemma worker_step_keeps_engine_fields (k : io_outcome) (clk : timespec) (w w' : world) :
  worker_step k clk w = Some w' ->
  caps w' = caps w /\ worker w <> None /\
  schedtune_boost_fd (intel w') = schedtune_boost_fd (intel w).
Proof.
  intros E. destruct (worker_step_touch_fields k clk w w' E) as (_ & _ & _ & Hv).
  split; [unfold caps; rewrite Hv; reflexivity|].
  revert E. unfold worker_step. destruct (worker w) as [[ | | u]|]; try discriminate.
  - destruct (0 <? signal_lock (intel w)); [|discriminate].
    intros [= <-]. split; [discriminate | reflexivity].
  - cbv zeta.
    destruct (deboost_time (intel (pthread_mutex_lock w)) >? gettime_ns clk);
      intros [= <-]; (split; [discriminate | reflexivity]).
  - destruct (u <=? gettime_ns clk); [|discriminate].
    intros [= <-]. split; [discriminate | reflexivity].
Qed.

(** X2: what the probe found is never revised.  Over any run of hints and
    worker steps from any state the three capability flags and the
    scheduler-boost descriptor stay as they are, and a worker that was not
    created is never created later. *)
Theorem X2_capabilities_are_read_only (acts : list action) (w : world) :
  caps (exec acts w) = caps w /\
  schedtune_boost_fd (intel (exec acts w)) = schedtune_boost_fd (intel w) /\
  (worker w = None -> worker (exec acts w) = None).
Proof.
  revert w. induction acts as [|a acts IH]; intros w; [repeat split; auto|].
  cbn [exec fold_left]. fold (exec acts (step w a)).
  destruct (IH (step w a)) as (Hc & Hf & Hw).
  assert (Hs : caps (step w a) = caps w /\
               schedtune_boost_fd (intel (step w a)) = schedtune_boost_fd (intel w) /\
               (worker w = None -> worker (step w a) = None)).
  { destruct a as [k clk hint data | k clk]; cbn [step].
    - destruct (power_hint_keeps_engine_fields k clk hint data w) as (H1 & H2 & H3).
      repeat split; try assumption. intros Hn. rewrite H2. exact Hn.
    - destruct (worker_step k clk w) as [w'|] eqn:E; [|repeat split; auto].
      destruct (worker_step_keeps_engine_fields k clk w w' E) as (H1 & H2 & H3).
      repeat split; try assumption. intros Hn. contradiction. }
  destruct Hs as (Hc' & Hf' & Hw').
  rewrite Hc, Hf, Hc', Hf'. repeat split. intros Hn. apply Hw, Hw', Hn.
Qed.

(** X3: hints that are ignored.  A low-power hint or a hint of a kind the
    switch does not know changes nothing at all, and when neither pulse
    boost nor scheduler boost is available no hint of any kind does: every
    member, every static and the trace of system calls are as before and
    the mutex is free again. *)
Theorem X3_ignored_hints_change_nothing
    (k : io_outcome) (clk : timespec) (hint : power_hint_t) (data : Z) (w : world)
    (Hfree : lock (intel w) = false)
    (Hignored :
       hint = POWER_HINT_LOW_POWER \/
       (exists code, hint = POWER_HINT_OTHER code) \/
       (interactiveActive (vars w) = false /\ intelSchedBoostActive (vars w) = false)) :
  power_hint k clk hint data w = w.
Proof.
  destruct Hignored as [-> | [[code ->] | [Hia Hsb]]].
  - unfold power_hint. apply unlock_lock_free, Hfree.
  - unfold power_hint. apply unlock_lock_free, Hfree.
  - unfold power_hint, hint_interaction.
    change (vars (pthread_mutex_lock w)) with (vars w).
    rewrite Hia, Hsb. cbn [negb].
    destruct hint; apply unlock_lock_free, Hfree.
Qed.

Lemma X3_ignored_hints_change_nothing_witness :
  (lock (intel HAL_MODULE_INFO_SYM) = false /\
   interactiveActive (vars HAL_MODULE_INFO_SYM) = false /\
   intelSchedBoostActive (vars HAL_MODULE_INFO_SYM) = false) /\
  power_hint served (ms 1000) POWER_HINT_INTERACTION 0 HAL_MODULE_INFO_SYM
  = HAL_MODULE_INFO_SYM.
Proof.
  split; [repeat split; reflexivity|].
  apply (X3_ignored_hints_change_nothing served (ms 1000) POWER_HINT_INTERACTION 0
           HAL_MODULE_INFO_SYM eq_refl).
  right. right. split; reflexivity.
Defined.

(** ** The cadence test, case by case *)

Lemma touch_scroll_entry_skip (diff : Q) (w : world) :
  Qlt_bool diff (inject_Z SHORT_TOUCH_TIME) = false ->
  touch_scroll_entry diff w = w.
Proof. intros H. unfold touch_scroll_entry. rewrite H. reflexivity. Qed.

Lemma touch_timer_off_scroll (w : world) :
  touchboost_disable (intel w) <> 1 -> touch_timer w = w.
Proof.
  intros H. unfold touch_timer. apply Z.eqb_neq in H. rewrite H. reflexivity.
Qed.

(** X4: a touch after a pause.  With pulse boost available, an interaction
    hint more than 100 ms after the recorded time stamp puts scroll mode,
    the timer flag, the vsync boost, the pulses left and the fast-touch count
    back to 0 whatever they were, records the clock reading in both time
    stamps and asserts the pulse attribute once. *)
Theorem X4_touch_after_pause_resets
    (k : io_outcome) (clk : timespec) (data : Z) (w : world)
    (Hia : interactiveActive (vars w) = true)
    (Hlong : (inject_Z LONG_TOUCH_TIME < diff_ms clk (prev_time (vars w)))%Q) :
  let w' := power_hint k clk POWER_HINT_INTERACTION data w in
  reset_state w' /\
  curr_time (vars w') = clk /\ prev_time (vars w') = clk /\
  pulses w' = S (pulses w).
Proof.
  intros w'.
  assert (Hnf : Qlt_bool (diff_ms clk (prev_time (vars w)))
                  (inject_Z SHORT_TOUCH_TIME) = false).
  { apply Qlt_bool_false. apply Qlt_le_weak.
    apply Qle_lt_trans with (inject_Z LONG_TOUCH_TIME); [|exact Hlong].
    unfold Qle. simpl. lia. }
  apply Qlt_bool_true in Hlong.
  assert (E : w' = pthread_mutex_unlock
                     (touch_pulse k clk
                        (touch_timer
                           (touch_scroll_entry (diff_ms clk (prev_time (vars w)))
                              (touch_classify (diff_ms clk (prev_time (vars w)))
                                 (stamped clk w))))))
    by (apply power_hint_interaction_active; exact Hia).
  clearbody w'.
  set (c := touch_classify _ _) in E.
  assert (Hc : c = set_consecutive_touch_int 0
                     (set_vsync_count 0
                        (set_touchboost_disable 0
                           (set_timer_set 0 (set_vsync_boost 0 (stamped clk w))))))
    by (subst c; unfold touch_classify; rewrite Hnf, Hlong; reflexivity).
  rewrite (touch_scroll_entry_skip _ _ Hnf) in E.
  rewrite touch_timer_off_scroll in E by (rewrite Hc; cbn; discriminate).
  unfold touch_pulse in E.
  assert (Ht : touchboost_disable (intel c) = 0) by (rewrite Hc; reflexivity).
  rewrite Ht in E. cbn [Z.eqb] in E.
  rewrite E, Hc. unfold reset_state.
  repeat split.
  apply (pulses_one_more w _ k clk). reflexivity.
Qed.

Lemma X4_touch_after_pause_resets_witness :
  (interactiveActive (vars scrolling) = true /\
   (inject_Z LONG_TOUCH_TIME < diff_ms (ms 1200) (prev_time (vars scrolling)))%Q /\
   touchboost_disable (intel scrolling) = 1) /\
  let w' := power_hint served (ms 1200) POWER_HINT_INTERACTION 0 scrolling in
  reset_state w' /\
  curr_time (vars w') = ms 1200 /\ prev_time (vars w') = ms 1200 /\
  pulses w' = S (pulses scrolling).
Proof.
  assert (Hia : interactiveActive (vars scrolling) = true) by (vm_compute; reflexivity).
  assert (Hl : (inject_Z LONG_TOUCH_TIME
                < diff_ms (ms 1200) (prev_time (vars scrolling)))%Q)
    by (vm_compute; reflexivity).
  assert (Hs : touchboost_disable (intel scrolling) = 1) by (vm_compute; reflexivity).
  split; [exact (conj Hia (conj Hl Hs))|].
  exact (X4_touch_after_pause_resets served (ms 1200) 0 scrolling Hia Hl).
Defined.

(** X5: a touch in the middle band.  With pulse boost available, an
    interaction hint that comes at least 20 ms and at most 100 ms after the
    recorded time stamp (both ends included) is neither a fast touch nor a
    fresh session: the fast-touch count, scroll mode, the vsync boost and the
    pulses left stay as they are, the time stamps move to the clock reading,
    and the pulse attribute is asserted exactly when scroll mode is off. *)
Theorem X5_touch_in_middle_band
    (k : io_outcome) (clk : timespec) (data : Z) (w : world)
    (Hia : interactiveActive (vars w) = true)
    (Hlo : (inject_Z SHORT_TOUCH_TIME <= diff_ms clk (prev_time (vars w)))%Q)
    (Hhi : (diff_ms clk (prev_time (vars w)) <= inject_Z LONG_TOUCH_TIME)%Q) :
  let w' := power_hint k clk POWER_HINT_INTERACTION data w in
  consecutive_touch_int (vars w') = consecutive_touch_int (vars w) /\
  touchboost_disable (intel w') = touchboost_disable (intel w) /\
  vsync_boost (intel w') = vsync_boost (intel w) /\
  vsync_count (vars w') = vsync_count (vars w) /\
  curr_time (vars w') = clk /\ prev_time (vars w') = clk /\
  pulses w' = (if touchboost_disable (intel w) =? 0 then S (pulses w) else pulses w).
Proof.
  intros w'.
  apply Qlt_bool_false in Hlo, Hhi.
  destruct (interaction_active_fields k clk data w Hia) as (Hv & Ht & Hb & Hr).
  fold w' in Hv, Ht, Hb, Hr. clearbody w'.
  set (c := touch_classify _ _) in *.
  assert (Hc : c = stamped clk w)
    by (subst c; unfold touch_classify; rewrite Hlo, Hhi; reflexivity).
  rewrite Hlo in Ht. cbn [andb] in Ht.
  rewrite Hc in Hv, Ht, Hb, Hr.
  rewrite Hv, Ht, Hb.
  repeat split.
  change (touchboost_disable (intel (stamped clk w)))
    with (touchboost_disable (intel w)) in Ht.
  rewrite Ht in Hr.
  destruct (touchboost_disable (intel w) =? 0).
  - apply (pulses_one_more w _ k clk). exact Hr.
  - apply pulses_same_trace. exact Hr.
Qed.

Lemma X5_touch_in_middle_band_witness :
  (interactiveActive (vars touched) = true /\
   (inject_Z SHORT_TOUCH_TIME <= diff_ms (ms 1020) (prev_time (vars touched)))%Q /\
   (diff_ms (ms 1020) (prev_time (vars touched)) <= inject_Z LONG_TOUCH_TIME)%Q) /\
  let w' := power_hint served (ms 1020) POWER_HINT_INTERACTION 0 touched in
  consecutive_touch_int (vars w') = consecutive_touch_int (vars touched) /\
  touchboost_disable (intel w') = touchboost_disable (intel touched) /\
  vsync_boost (intel w') = vsync_boost (intel touched) /\
  vsync_count (vars w') = vsync_count (vars touched) /\
  curr_time (vars w') = ms 1020 /\ prev_time (vars w') = ms 1020 /\
  pulses w' = (if touchboost_disable (intel touched) =? 0
               then S (pulses touched) else pulses touched).
Proof.
  assert (Hia : interactiveActive (vars touched) = true) by (vm_compute; reflexivity).
  assert (Hlo : (inject_Z SHORT_TOUCH_TIME
                 <= diff_ms (ms 1020) (prev_time (vars touched)))%Q)
    by (vm_compute; discriminate).
  assert (Hhi : (diff_ms (ms 1020) (prev_time (vars touched))
                 <= inject_Z LONG_TOUCH_TIME)%Q)
    by (vm_compute; discriminate).
  split; [exact (conj Hia (conj Hlo Hhi))|].
  exact (X5_touch_in_middle_band served (ms 1020) 0 touched Hia Hlo Hhi).
Defined.

(** ** Pulses, action by action *)

Lemma vsync_pulse_trace (k : io_outcome) (clk : timespec) (data : Z) (w : world) :
  trace (vsync_pulse k clk data w) = trace w \/
  trace (vsync_pulse k clk data w) = trace w ++ pulse_events k clk.
Proof.
  unfold vsync_pulse.
  destruct (negb (vsync_boost (intel w) =? 0)); [|left; reflexivity].
  destruct (negb (data =? 0) && (vsync_count (vars w) >? 0)); [|left; reflexivity].
  cbv zeta. break_if; right; reflexivity.
Qed.

Lemma power_hint_pulses_inactive (k : io_outcome) (clk : timespec)
    (hint : power_hint_t) (data : Z) (w : world) :
  interactiveActive (vars w) = false ->
  pulses (power_hint k clk hint data w) = pulses w.
Proof.
  intros Hia. unfold power_hint.
  change (vars (pthread_mutex_lock w)) with (vars w). rewrite Hia. cbn [negb].
  destruct hint; try (apply pulses_same_trace; reflexivity).
  unfold hint_interaction.
  change (vars (pthread_mutex_lock w)) with (vars w). rewrite Hia. cbn [negb].
  destruct (negb (intelSchedBoostActive (vars w))).
  - apply pulses_same_trace. reflexivity.
  - transitivity (pulses (schedtune_boost k clk (pthread_mutex_lock w))).
    + apply pulses_same_trace. reflexivity.
    + rewrite pulses_schedtune_boost. apply pulses_same_trace. reflexivity.
Qed.

Lemma power_hint_vsync_pulses (k : io_outcome) (clk : timespec) (data : Z) (w : world) :
  interactiveActive (vars w) = true ->
  let w' := power_hint k clk POWER_HINT_VSYNC data w in
  (pulses w' = pulses w \/ pulses w' = S (pulses w)) /\
  (data = 0 -> pulses w' = pulses w).
Proof.
  intros Hia w'. subst w'. rewrite (power_hint_vsync_active k clk data w Hia).
  set (r := vsync_touch_release clk (pthread_mutex_lock w)).
  assert (Hr : trace r = trace w)
    by (subst r; rewrite vsync_touch_release_trace; reflexivity).
  split.
  - destruct (vsync_pulse_trace k clk data r) as [E | E].
    + left. apply pulses_same_trace.
      change (trace (pthread_mutex_unlock ?x)) with (trace x). rewrite E. exact Hr.
    + right. apply (pulses_one_more w _ k clk).
      change (trace (pthread_mutex_unlock ?x)) with (trace x). rewrite E, Hr. reflexivity.
  - intros ->. rewrite vsync_pulse_null. apply pulses_same_trace. exact Hr.
Qed.

Lemma power_hint_interaction_pulses (k : io_outcome) (clk : timespec) (data : Z)
    (w : world) :
  interactiveActive (vars w) = true ->
  let w' := power_hint k clk POWER_HINT_INTERACTION data w in
  pulses w' = (if touchboost_disable (intel w') =? 0 then S (pulses w) else pulses w).
Proof.
  intros Hia w'.
  destruct (interaction_active_fields k clk data w Hia) as (_ & _ & _ & Hr).
  fold w' in Hr. clearbody w'. rewrite touch_classify_trace in Hr.
  change (trace (stamped clk w)) with (trace w) in Hr.
  destruct (touchboost_disable (intel w') =? 0).
  - apply (pulses_one_more w _ k clk). exact Hr.
  - apply pulses_same_trace. exact Hr.
Qed.

(** X6: one pulse at most per action.  No action asserts the pulse
    attribute more than once and none takes an assertion back; a worker step
    and any hint handled with pulse boost unavailable assert none; with pulse
    boost available an interaction hint asserts one exactly when it ends
    outside scroll mode, and a vsync hint with a null payload asserts
    none. *)
Theorem X6_one_pulse_at_most_per_action (a : action) (w : world) :
  (pulses (step w a) = pulses w \/ pulses (step w a) = S (pulses w)) /\
  (interactiveActive (vars w) = false -> pulses (step w a) = pulses w) /\
  (forall k clk, a = Worker k clk -> pulses (step w a) = pulses w) /\
  (forall k clk data,
      a = Hint k clk POWER_HINT_INTERACTION data ->
      interactiveActive (vars w) = true ->
      pulses (step w a) =
        (if touchboost_disable (intel (step w a)) =? 0 then S (pulses w) else pulses w)) /\
  (forall k clk, a = Hint k clk POWER_HINT_VSYNC 0 -> pulses (step w a) = pulses w).
Proof.
  assert (Hworker : forall k clk, pulses (step w (Worker k clk)) = pulses w).
  { intros k clk. cbn [step].
    destruct (worker_step k clk w) as [w'|] eqn:E; [|reflexivity].
    apply (pulses_worker_step k clk w w' E). }
  assert (Hoff : interactiveActive (vars w) = false -> pulses (step w a) = pulses w).
  { intros Hia. destruct a as [k clk hint data | k clk]; [|apply Hworker].
    apply power_hint_pulses_inactive. exact Hia. }
  split; [|split; [exact Hoff | split; [|split]]].
  - destruct (interactiveActive (vars w)) eqn:Hia; [|left; apply Hoff; reflexivity].
    destruct a as [k clk hint data | k clk]; [|left; apply Hworker].
    cbn [step]. destruct hint.
    + apply (power_hint_vsync_pulses k clk data w Hia).
    + rewrite (power_hint_interaction_pulses k clk data w Hia).
      destruct (touchboost_disable (intel _) =? 0); [right | left]; reflexivity.
    + left. apply pulses_same_trace. reflexivity.
    + left. apply pulses_same_trace. reflexivity.
  - intros k clk ->. apply Hworker.
  - intros k clk data -> Hia. cbn [step].
    apply (power_hint_interaction_pulses k clk data w Hia).
  - intros k clk ->. cbn [step].
    destruct (interactiveActive (vars w)) eqn:Hia.
    + apply (power_hint_vsync_pulses k clk 0 w Hia). reflexivity.
    + apply power_hint_pulses_inactive. exact Hia.
Qed.

(** ** A run of fast touches *)

Lemma touch_scroll_entry_timer (diff : Q) (w : world) :
  timer_set (intel (touch_scroll_entry diff w)) = timer_set (intel w).
Proof. unfold touch_scroll_entry. break_if; reflexivity. Qed.

Lemma touch_timer_result (w : world) :
  timer_set (intel (touch_timer w)) =
  (if (touchboost_disable (intel w) =? 1)
      && (consecutive_touch_int (vars w) >? 15)
      && (timer_set (intel w) =? 0)
   then 1 else timer_set (intel w)).
Proof. unfold touch_timer. break_if; reflexivity. Qed.

(** The timer flag after a fast touch. *)
Lemma fast_touch_timer (k : io_outcome) (clk : timespec) (data : Z) (w : world) :
  interactiveActive (vars w) = true ->
  (diff_ms clk (prev_time (vars w)) < inject_Z SHORT_TOUCH_TIME)%Q ->
  0 <= consecutive_touch_int (vars w) < INT_MAX ->
  let w' := power_hint k clk POWER_HINT_INTERACTION data w in
  timer_set (intel w') =
  (if (touchboost_disable (intel w') =? 1)
      && (consecutive_touch_int (vars w) + 1 >? 15)
      && (timer_set (intel w) =? 0)
   then 1 else timer_set (intel w)).
Proof.
  intros Hia Hfast Hrange w'.
  pose proof Hfast as Hfast'. apply Qlt_bool_true in Hfast'.
  assert (E : w' = pthread_mutex_unlock
                     (touch_pulse k clk
                        (touch_timer
                           (touch_scroll_entry (diff_ms clk (prev_time (vars w)))
                              (touch_classify (diff_ms clk (prev_time (vars w)))
                                 (stamped clk w))))))
    by (apply power_hint_interaction_active; exact Hia).
  clearbody w'.
  set (y := touch_scroll_entry _ _) in E.
  destruct (touch_pulse_frame k clk (touch_timer y)) as (Hi & _ & _ & _).
  destruct (touch_timer_frame y) as (Ht & _ & _ & _).
  destruct (touch_scroll_entry_frame (diff_ms clk (prev_time (vars w)))
              (touch_classify (diff_ms clk (prev_time (vars w))) (stamped clk w)))
    as (_ & _ & Hv & _).
  fold y in Hv.
  assert (Etimer : timer_set (intel w') = timer_set (intel (touch_timer y))).
  { rewrite E. change (timer_set (intel (pthread_mutex_unlock ?x)))
                 with (timer_set (intel x)). rewrite Hi. reflexivity. }
  assert (Etbd : touchboost_disable (intel w') = touchboost_disable (intel y)).
  { rewrite E. change (touchboost_disable (intel (pthread_mutex_unlock ?x)))
                 with (touchboost_disable (intel x)). rewrite Hi, Ht. reflexivity. }
  rewrite Etimer, touch_timer_result, Etbd.
  assert (Ec : consecutive_touch_int (vars y) = consecutive_touch_int (vars w) + 1).
  { rewrite Hv, (touch_classify_fast _ _ Hfast'). cbn.
    apply wrap_int_small. unfold INT_MAX in Hrange. lia. }
  assert (Es : timer_set (intel y) = timer_set (intel w)).
  { subst y. rewrite touch_scroll_entry_timer, (touch_classify_fast _ _ Hfast').
    reflexivity. }
  rewrite Ec, Es. reflexivity.
Qed.

Ltac zcmp :=
  rewrite ?Z.gtb_ltb in *;
  repeat match goal with
  | H : context [?a <=? ?b] |- _ => destruct (Z.leb_spec a b)
  | |- context [?a <=? ?b] => destruct (Z.leb_spec a b)
  | H : context [?a <? ?b] |- _ => destruct (Z.ltb_spec a b)
  | |- context [?a <? ?b] => destruct (Z.ltb_spec a b)
  | H : context [?a =? ?b] |- _ => destruct (Z.eqb_spec a b)
  | |- context [?a =? ?b] => destruct (Z.eqb_spec a b)
  end.

Lemma rapid_touches_from (hs : list (io_outcome * timespec * Z)) :
  forall (w : world) (m : Z),
    interactiveActive (vars w) = true ->
    0 <= m -> m + Z.of_nat (List.length hs) <= INT_MAX ->
    consecutive_touch_int (vars w) = m ->
    touchboost_disable (intel w) = (if 5 <=? m then 1 else 0) ->
    timer_set (intel w) = (if 16 <=? m then 1 else 0) ->
    vsync_boost (intel w) = 0 ->
    rapid (prev_time (vars w)) hs ->
    let w' := exec (touches hs) w in
    let n := m + Z.of_nat (List.length hs) in
    consecutive_touch_int (vars w') = n /\
    touchboost_disable (intel w') = (if 5 <=? n then 1 else 0) /\
    timer_set (intel w') = (if 16 <=? n then 1 else 0) /\
    vsync_boost (intel w') = 0 /\
    Z.of_nat (pulses w') = Z.of_nat (pulses w) + (Z.min n 4 - Z.min m 4).
Proof.
  induction hs as [|[[k clk] data] hs IH]; intros w m Hia Hm Hmax Hc Ht Hs Hb Hr.
  - cbn [touches map exec fold_left List.length Z.of_nat].
    rewrite Z.add_0_r. repeat split; try assumption. lia.
  - destruct Hr as [Hfast Hrest]. cbn [fst snd] in Hfast, Hrest.
    cbn [List.length] in Hmax. rewrite Nat2Z.inj_succ in Hmax.
    change (exec (touches ((k, clk, data) :: hs)) w)
      with (exec (touches hs) (power_hint k clk POWER_HINT_INTERACTION data w)).
    cbn [List.length]. rewrite Nat2Z.inj_succ.
    set (w1 := power_hint k clk POWER_HINT_INTERACTION data w).
    destruct (fast_touch_step k clk data w Hia Hfast ltac:(lia))
      as (Hc1 & Ht1 & Hp1 & Hi1 & Hb1 & _ & Hn1).
    pose proof (fast_touch_timer k clk data w Hia Hfast ltac:(lia)) as Hs1.
    fold w1 in Hc1, Ht1, Hp1, Hi1, Hb1, Hn1, Hs1. clearbody w1.
    rewrite Hc in Hc1, Ht1, Hs1. rewrite Ht in Ht1. rewrite Hs in Hs1.
    assert (Ht1' : touchboost_disable (intel w1) = (if 5 <=? m + 1 then 1 else 0)).
    { rewrite Ht1. clear - Hm. zcmp; cbn; try reflexivity; lia. }
    assert (Hs1' : timer_set (intel w1) = (if 16 <=? m + 1 then 1 else 0)).
    { rewrite Hs1, Ht1'. clear - Hm. zcmp; cbn; try reflexivity; lia. }
    assert (Hn1' : Z.of_nat (pulses w1)
                   = Z.of_nat (pulses w) + (Z.min (m + 1) 4 - Z.min m 4)).
    { rewrite Hn1, Ht1'. clear - Hm. zcmp; cbn; lia. }
    destruct (IH w1 (m + 1) Hi1 ltac:(lia) ltac:(lia) Hc1 Ht1' Hs1'
                ltac:(congruence) ltac:(rewrite Hp1; exact Hrest))
      as (Rc & Rt & Rs & Rb & Rp).
    replace (m + Z.succ (Z.of_nat (List.length hs)))
      with (m + 1 + Z.of_nat (List.length hs)) by lia.
    repeat split; try assumption.
    rewrite Rp, Hn1'. lia.
Qed.

(** X7: a run of fast touches of any length.  With pulse boost available,
    from the reset values, after [n] interaction hints that each come less
    than 20 ms after the time stamp recorded before them, the fast-touch
    count is [n], scroll mode is on exactly from the fifth hint, the timer
    flag is raised exactly from the sixteenth, and only the first four hints
    have asserted the pulse attribute. *)
Theorem X7_run_of_fast_touches
    (w : world) (hs : list (io_outcome * timespec * Z))
    (Hia : interactiveActive (vars w) = true)
    (Hreset : reset_state w)
    (Hlen : Z.of_nat (List.length hs) <= INT_MAX)
    (Hrapid : rapid (prev_time (vars w)) hs) :
  let w' := exec (touches hs) w in
  let n := Z.of_nat (List.length hs) in
  consecutive_touch_int (vars w') = n /\
  touchboost_disable (intel w') = (if 5 <=? n then 1 else 0) /\
  timer_set (intel w') = (if 16 <=? n then 1 else 0) /\
  vsync_boost (intel w') = 0 /\
  Z.of_nat (pulses w') = Z.of_nat (pulses w) + Z.min n 4.
Proof.
  destruct Hreset as (Ht & Hs & Hb & _ & Hc).
  destruct (rapid_touches_from hs w 0 Hia ltac:(lia) ltac:(lia) Hc Ht Hs Hb Hrapid)
    as (Rc & Rt & Rs & Rb & Rp).
  cbn [Z.add] in Rc, Rt, Rs, Rp.
  intros w' n. subst w' n.
  repeat split; try assumption.
  rewrite Rp. cbn. lia.
Qed.

Lemma X7_run_of_fast_touches_witness :
  (interactiveActive (vars touched) = true /\
   reset_state touched /\
   Z.of_nat (List.length sixteen_touches) <= INT_MAX /\
   rapid (prev_time (vars touched)) sixteen_touches) /\
  let w' := exec (touches sixteen_touches) touched in
  let n := Z.of_nat (List.length sixteen_touches) in
  consecutive_touch_int (vars w') = n /\
  touchboost_disable (intel w') = (if 5 <=? n then 1 else 0) /\
  timer_set (intel w') = (if 16 <=? n then 1 else 0) /\
  vsync_boost (intel w') = 0 /\
  Z.of_nat (pulses w') = Z.of_nat (pulses touched) + Z.min n 4.
Proof.
  assert (Hia : interactiveActive (vars touched) = true) by (vm_compute; reflexivity).
  assert (Hreset : reset_state touched) by (vm_compute; repeat split; reflexivity).
  assert (Hlen : Z.of_nat (List.length sixteen_touches) <= INT_MAX)
    by (vm_compute; discriminate).
  assert (Hrapid : rapid (prev_time (vars touched)) sixteen_touches)
    by (vm_compute; repeat split; reflexivity).
  split; [exact (conj Hia (conj Hreset (conj Hlen Hrapid)))|].
  exact (X7_run_of_fast_touches touched sixteen_touches Hia Hreset Hlen Hrapid).
Defined.

Example sixteen_touches_state :
  let w' := exec (touches sixteen_touches) touched in
  (consecutive_touch_int (vars w'), touchboost_disable (intel w'), timer_set (intel w'),
   pulses w', timer_set (intel (exec (touches (firstn 15 sixteen_touches)) touched)))
  = (16, 1, 1, 5%nat, 0).
Proof. vm_compute. reflexivity. Qed.

(** ** The flags in every reachable state *)

Ltac flags_stage :=
  match goal with
  | |- forall w : world, _ =>
      intros [[tbd ts vb lk fd dt sl] [ia ps sb ct pt vt vc cti] wk tr]
  end;
  unfold flags_inv; cbn;
  intros (Ht & Hs & Hb & Hst & Htime);
  repeat (break_if; cbn);
  repeat split; auto; try (intros; lia); try (left; reflexivity); try (right; reflexivity);
  try congruence.

Lemma flags_inv_touch_classify (diff : Q) :
  forall w, flags_inv w -> flags_inv (touch_classify diff w).
Proof. unfold touch_classify. flags_stage. Qed.

Lemma flags_inv_touch_scroll_entry (diff : Q) :
  forall w, flags_inv w -> flags_inv (touch_scroll_entry diff w).
Proof.
  unfold touch_scroll_entry. flags_stage.
Qed.

Lemma flags_inv_touch_timer : forall w, flags_inv w -> flags_inv (touch_timer w).
Proof. unfold touch_timer. flags_stage. Qed.

Lemma flags_inv_touch_pulse (k : io_outcome) (clk : timespec) :
  forall w, flags_inv w -> flags_inv (touch_pulse k clk w).
Proof. unfold touch_pulse. flags_stage. Qed.

Lemma flags_inv_stamped (clk : timespec) :
  forall w, flags_inv w -> flags_inv (stamped clk w).
Proof. unfold stamped. flags_stage. Qed.

Lemma flags_inv_vsync_touch_release (clk : timespec) :
  forall w, flags_inv w -> flags_inv (vsync_touch_release clk w).
Proof. unfold vsync_touch_release. flags_stage. Qed.

Lemma flags_inv_vsync_pulse (k : io_outcome) (clk : timespec) (data : Z) :
  forall w, flags_inv w -> flags_inv (vsync_pulse k clk data w).
Proof. unfold vsync_pulse. flags_stage. Qed.

Lemma flags_inv_same_fields (w w' : world) :
  touchboost_disable (intel w') = touchboost_disable (intel w) ->
  timer_set (intel w') = timer_set (intel w) ->
  vsync_boost (intel w') = vsync_boost (intel w) ->
  vars w' = vars w ->
  flags_inv w -> flags_inv w'.
Proof. unfold flags_inv. intros -> -> -> ->. exact (fun H => H). Qed.

Lemma flags_inv_hint_interaction (k : io_outcome) (clk : timespec) (w : world) :
  flags_inv w -> flags_inv (hint_interaction k clk w).
Proof.
  intros H. unfold hint_interaction.
  destruct (negb (interactiveActive (vars w))).
  - destruct (negb (intelSchedBoostActive (vars w))); [exact H|].
    destruct (schedtune_boost_touch_fields k clk w) as (Ht & Hs & Hb & Hv).
    apply (flags_inv_same_fields w); assumption.
  - cbv zeta.
    apply flags_inv_touch_pulse, flags_inv_touch_timer,
      flags_inv_touch_scroll_entry, flags_inv_touch_classify.
    revert H. destruct w as [[tbd ts vb lk fd dt sl] [ia ps sb ct pt vt vc cti] wk tr].
    unfold flags_inv. cbn. intros (Ht & Hs & Hb & Hst & _). repeat split; assumption.
Qed.

Lemma flags_inv_locking (b : bool) (w : world) : flags_inv w -> flags_inv (set_lock b w).
Proof.
  intros H. apply (flags_inv_same_fields w); try reflexivity. exact H.
Qed.

Lemma cadence_inv_power_hint (k : io_outcome) (clk : timespec) (hint : power_hint_t)
    (data : Z) (w : world) :
  flags_inv w -> cadence_inv (power_hint k clk hint data w).
Proof.
  intros H. split; [|apply power_hint_unlocks].
  pose proof (flags_inv_locking true w H) as Hl.
  unfold power_hint. fold (pthread_mutex_lock w) in Hl.
  destruct hint.
  - destruct (negb (interactiveActive (vars (pthread_mutex_lock w)))).
    + apply flags_inv_locking, Hl.
    + apply flags_inv_locking. unfold hint_vsync.
      apply flags_inv_vsync_pulse, flags_inv_vsync_touch_release, Hl.
  - apply flags_inv_locking, flags_inv_hint_interaction, Hl.
  - apply flags_inv_locking, Hl.
  - apply flags_inv_locking, Hl.
Qed.

Lemma cadence_inv_worker_step (k : io_outcome) (clk : timespec) (w w' : world) :
  worker_step k clk w = Some w' -> cadence_inv w -> cadence_inv w'.
Proof.
  intros E [Hf Hl].
  destruct (worker_step_touch_fields k clk w w' E) as (Ht & Hs & Hb & Hv).
  split; [apply (flags_inv_same_fields w); assumption|].
  revert E. unfold worker_step. destruct (worker w) as [[ | | u]|]; try discriminate.
  - destruct (0 <? signal_lock (intel w)); [|discriminate].
    intros [= <-]. exact Hl.
  - cbv zeta.
    destruct (deboost_time (intel (pthread_mutex_lock w)) >? gettime_ns clk);
      intros [= <-]; reflexivity.
  - destruct (u <=? gettime_ns clk); [|discriminate].
    intros [= <-]. exact Hl.
Qed.

Lemma cadence_inv_exec (acts : list action) (w : world) :
  cadence_inv w -> cadence_inv (exec acts w).
Proof.
  revert w. induction acts as [|a acts IH]; intros w H; [exact H|].
  cbn [exec fold_left]. apply IH.
  destruct a as [k clk hint data | k clk]; cbn [step].
  - apply cadence_inv_power_hint. exact (proj1 H).
  - destruct (worker_step k clk w) as [w'|] eqn:E; [|exact H].
    exact (cadence_inv_worker_step k clk w w' E H).
Qed.

Lemma power_init_cadence (k1 k2 k3 : io_outcome) (clk : timespec) :
  cadence_inv (power_init k1 k2 k3 clk HAL_MODULE_INFO_SYM).
Proof.
  unfold power_init, schedtune_power_init. cbn [run_io fst snd]. cbv zeta.
  repeat break_if; unfold cadence_inv, flags_inv; cbn;
    repeat split; auto; intros; discriminate.
Qed.

(** X8: the flags in every reachable state.  After [power_init] and any run
    of hints and worker steps, scroll mode, the timer flag and the vsync
    boost are each 0 or 1, the timer flag is raised only while scroll mode is
    on, the two touch time stamps are equal (so the vsync test measures from
    the last interaction hint), and the mutex is free. *)
Theorem X8_flags_in_every_reachable_state
    (k1 k2 k3 : io_outcome) (clk0 : timespec) (acts : list action) :
  let w := exec acts (power_init k1 k2 k3 clk0 HAL_MODULE_INFO_SYM) in
  (touchboost_disable (intel w) = 0 \/ touchboost_disable (intel w) = 1) /\
  (timer_set (intel w) = 0 \/ timer_set (intel w) = 1) /\
  (vsync_boost (intel w) = 0 \/ vsync_boost (intel w) = 1) /\
  (timer_set (intel w) = 1 -> touchboost_disable (intel w) = 1) /\
  curr_time (vars w) = prev_time (vars w) /\
  lock (intel w) = false.
Proof.
  intros w.
  destruct (cadence_inv_exec acts _ (power_init_cadence k1 k2 k3 clk0))
    as ((Ht & Hs & Hb & Hst & Htime) & Hl).
  fold w in Ht, Hs, Hb, Hst, Htime, Hl.
  repeat split; assumption.
Qed.

(** ** Vsync hints with no touch in between *)

Lemma vsync_touch_release_budget (clk : timespec) (w : world) :
  0 <= vsync_count (vars w) ->
  vsync_budget (vsync_touch_release clk w) <= vsync_budget w.
Proof.
  intros Hc. unfold vsync_touch_release.
  destruct (touchboost_disable (intel w) =? 1) eqn:E; [|lia].
  cbv zeta. break_if; unfold vsync_budget; cbn; rewrite ?E; unfold VSYNC_BOOST_COUNT; lia.
Qed.

Lemma vsync_hint_budget (k : io_outcome) (clk : timespec) (data : Z) (w : world) :
  vsync_inv w ->
  let w' := power_hint k clk POWER_HINT_VSYNC data w in
  vsync_inv w' /\
  Z.of_nat (pulses w') + vsync_budget w' <= Z.of_nat (pulses w) + vsync_budget w.
Proof.
  intros Hinv w'.
  split; [apply vsync_inv_power_hint; exact Hinv|].
  subst w'.
  destruct (interactiveActive (vars w)) eqn:Hia.
  - rewrite (power_hint_vsync_active k clk data w Hia).
    set (r := vsync_touch_release clk (pthread_mutex_lock w)).
    assert (Hr : vsync_inv r)
      by (apply vsync_inv_touch_release; apply (vsync_inv_fields w);
          [reflexivity | reflexivity | exact Hinv]).
    assert (Hbud : vsync_budget r <= vsync_budget w).
    { subst r. apply (vsync_touch_release_budget clk (pthread_mutex_lock w)).
      destruct Hinv as [[_ H]|[_ H]]; cbn; lia. }
    assert (Htr : trace r = trace w)
      by (subst r; rewrite vsync_touch_release_trace; reflexivity).
    assert (Hpr : pulses r = pulses w) by (apply pulses_same_trace; exact Htr).
    change (vsync_budget (pthread_mutex_unlock ?x)) with (vsync_budget x).
    change (pulses (pthread_mutex_unlock ?x)) with (pulses x).
    destruct Hr as [[Hb0 Hc0] | [Hb1 Hc1]].
    + rewrite (vsync_pulse_skip k clk data r Hb0). lia.
    + destruct (Z.eq_dec data 0) as [-> | Hd].
      * rewrite vsync_pulse_null. lia.
      * destruct (vsync_pulse_fire k clk data r) as (Hc & _ & Ht & _ & _ & Hp);
          [rewrite Hb1; discriminate | exact Hd | exact Hc1 |].
        rewrite (pulses_one_more r _ k clk Hp).
        unfold vsync_budget in *. rewrite Hc, Ht. lia.
  - unfold power_hint.
    change (vars (pthread_mutex_lock w)) with (vars w). rewrite Hia. cbn [negb].
    change (vsync_budget (pthread_mutex_unlock ?x)) with (vsync_budget x).
    change (pulses (pthread_mutex_unlock ?x)) with (pulses x).
    change (vsync_budget (pthread_mutex_lock w)) with (vsync_budget w).
    change (pulses (pthread_mutex_lock w)) with (pulses w). lia.
Qed.

Lemma vsync_run_budget (hs : list (io_outcome * timespec * Z)) :
  forall w, vsync_inv w ->
    vsync_inv (exec (vsyncs hs) w) /\
    Z.of_nat (pulses (exec (vsyncs hs) w)) + vsync_budget (exec (vsyncs hs) w)
    <= Z.of_nat (pulses w) + vsync_budget w.
Proof.
  induction hs as [|[[k clk] data] hs IH]; intros w Hinv.
  - split; [exact Hinv | cbn; lia].
  - change (exec (vsyncs ((k, clk, data) :: hs)) w)
      with (exec (vsyncs hs) (power_hint k clk POWER_HINT_VSYNC data w)).
    destruct (vsync_hint_budget k clk data w Hinv) as (H1 & H2).
    destruct (IH _ H1) as (H3 & H4).
    split; [exact H3 | lia].
Qed.

(** X9: boosting after a release is bounded.  However many vsync hints
    arrive with no interaction hint in between, they assert the pulse
    attribute at most as often as there are pulses left, plus four if scroll
    mode is on and a release is still to come: at most eight times from any
    reachable state, and at most four times from one where scroll mode and
    vsync boost are not both on. *)
Theorem X9_vsync_pulses_are_bounded
    (w : world) (hs : list (io_outcome * timespec * Z))
    (Hinv : vsync_inv w) :
  let w' := exec (vsyncs hs) w in
  Z.of_nat (pulses w') <= Z.of_nat (pulses w) + vsync_budget w /\
  Z.of_nat (pulses w') <= Z.of_nat (pulses w) + 8 /\
  (scroll_excludes_vsync w -> Z.of_nat (pulses w') <= Z.of_nat (pulses w) + 4).
Proof.
  intros w'.
  destruct (vsync_run_budget hs w Hinv) as (Hinv' & Hle). fold w' in Hinv', Hle.
  assert (Hpos : 0 <= vsync_budget w').
  { unfold vsync_budget, VSYNC_BOOST_COUNT.
    destruct Hinv' as [[_ H]|[_ H]]; destruct (touchboost_disable (intel w') =? 1); lia. }
  assert (Hmax : vsync_budget w <= 8).
  { unfold vsync_budget, VSYNC_BOOST_COUNT.
    destruct Hinv as [[_ H]|[_ H]]; destruct (touchboost_disable (intel w) =? 1); lia. }
  repeat split; try lia.
  intros He. unfold scroll_excludes_vsync in He.
  assert (vsync_budget w <= 4); [|lia].
  unfold vsync_budget, VSYNC_BOOST_COUNT.
  destruct (touchboost_disable (intel w) =? 1) eqn:E.
  - apply Z.eqb_eq in E. specialize (He E).
    destruct Hinv as [[_ H]|[H _]]; [lia | congruence].
  - destruct Hinv as [[_ H]|[_ H]]; lia.
Qed.

Lemma X9_vsync_pulses_are_bounded_witness :
  vsync_inv scrolling /\
  let hs := [(served, ms 1060, 1); (served, ms 1090, 1); (served, ms 1106, 1);
             (served, ms 1123, 1); (served, ms 1140, 1); (served, ms 1156, 1);
             (served, ms 1173, 1)] in
  let w' := exec (vsyncs hs) scrolling in
  Z.of_nat (pulses w') <= Z.of_nat (pulses scrolling) + vsync_budget scrolling /\
  Z.of_nat (pulses w') <= Z.of_nat (pulses scrolling) + 8 /\
  (scroll_excludes_vsync scrolling ->
   Z.of_nat (pulses w') <= Z.of_nat (pulses scrolling) + 4).
Proof.
  assert (Hinv : vsync_inv scrolling) by (vm_compute; left; split; reflexivity).
  split; [exact Hinv|].
  intros hs. exact (X9_vsync_pulses_are_bounded scrolling hs Hinv).
Defined.

Example vsync_run_after_scroll :
  let hs := [(served, ms 1060, 1); (served, ms 1090, 1); (served, ms 1106, 1);
             (served, ms 1123, 1); (served, ms 1140, 1); (served, ms 1156, 1);
             (served, ms 1173, 1)] in
  pulses (exec (vsyncs hs) scrolling) = (pulses scrolling + 4)%nat.
Proof. vm_compute. reflexivity. Qed.

(** ** Kernel answers and the state *)

Ltac same_state_stage :=
  let w := fresh "w" in
  let w' := fresh "w'" in
  let E := fresh "E" in
  intros w w' E;
  destruct w as [? ? ? ?]; destruct w' as [? ? ? ?];
  unfold state_of in E; cbn [intel vars worker] in E;
  injection E as ? ? ?; subst;
  unfold state_of;
  match goal with
  | |- context [mkWorld ?i ?v _ _] => destruct i, v
  end;
  cbn; repeat (break_if; cbn); reflexivity.

Lemma same_state_touch_classify (diff : Q) :
  forall w w', state_of w = state_of w' ->
    state_of (touch_classify diff w) = state_of (touch_classify diff w').
Proof. unfold touch_classify. same_state_stage. Qed.

Lemma same_state_touch_scroll_entry (diff : Q) :
  forall w w', state_of w = state_of w' ->
    state_of (touch_scroll_entry diff w) = state_of (touch_scroll_entry diff w').
Proof. unfold touch_scroll_entry. same_state_stage. Qed.

Lemma same_state_touch_timer :
  forall w w', state_of w = state_of w' ->
    state_of (touch_timer w) = state_of (touch_timer w').
Proof. unfold touch_timer. same_state_stage. Qed.

Lemma same_state_touch_pulse (k k' : io_outcome) (clk : timespec) :
  forall w w', state_of w = state_of w' ->
    state_of (touch_pulse k clk w) = state_of (touch_pulse k' clk w').
Proof. unfold touch_pulse. same_state_stage. Qed.

Lemma same_state_stamped (clk : timespec) :
  forall w w', state_of w = state_of w' ->
    state_of (stamped clk w) = state_of (stamped clk w').
Proof. unfold stamped. same_state_stage. Qed.

Lemma same_state_schedtune_boost (k k' : io_outcome) (clk : timespec) :
  forall w w', state_of w = state_of w' ->
    state_of (schedtune_boost k clk w) = state_of (schedtune_boost k' clk w').
Proof. unfold schedtune_boost. same_state_stage. Qed.

Lemma same_state_vsync_touch_release (clk : timespec) :
  forall w w', state_of w = state_of w' ->
    state_of (vsync_touch_release clk w) = state_of (vsync_touch_release clk w').
Proof. unfold vsync_touch_release. same_state_stage. Qed.

Lemma same_state_vsync_pulse (k k' : io_outcome) (clk : timespec) (data : Z) :
  forall w w', state_of w = state_of w' ->
    state_of (vsync_pulse k clk data w) = state_of (vsync_pulse k' clk data w').
Proof. unfold vsync_pulse. same_state_stage. Qed.

Lemma same_state_set_lock (b : bool) :
  forall w w', state_of w = state_of w' ->
    state_of (set_lock b w) = state_of (set_lock b w').
Proof. same_state_stage. Qed.

Lemma same_state_fields (w w' : world) :
  state_of w = state_of w' -> intel w = intel w' /\ vars w = vars w' /\ worker w = worker w'.
Proof. unfold state_of. intros [= -> -> ->]. repeat split. Qed.

Lemma same_state_hint_interaction (k k' : io_outcome) (clk : timespec) (w w' : world) :
  state_of w = state_of w' ->
  state_of (hint_interaction k clk w) = state_of (hint_interaction k' clk w').
Proof.
  intros H. destruct (same_state_fields w w' H) as (Hi & Hv & Hw).
  unfold hint_interaction. rewrite <- Hv.
  destruct (negb (interactiveActive (vars w))).
  - destruct (negb (intelSchedBoostActive (vars w))); [exact H|].
    apply same_state_schedtune_boost. exact H.
  - cbv zeta.
    change (curr_time (vars (set_curr_time clk w))) with clk.
    change (curr_time (vars (set_curr_time clk w'))) with clk.
    change (prev_time (vars (set_curr_time clk w))) with (prev_time (vars w)).
    change (prev_time (vars (set_curr_time clk w'))) with (prev_time (vars w')).
    rewrite <- Hv.
    apply same_state_touch_pulse, same_state_touch_timer,
      same_state_touch_scroll_entry, same_state_touch_classify.
    revert H. clear. revert w w'. same_state_stage.
Qed.

Lemma same_state_power_hint (k k' : io_outcome) (clk : timespec) (hint : power_hint_t)
    (data : Z) (w w' : world) :
  state_of w = state_of w' ->
  state_of (power_hint k clk hint data w) = state_of (power_hint k' clk hint data w').
Proof.
  intros H. destruct (same_state_fields w w' H) as (Hi & Hv & Hw).
  pose proof (same_state_set_lock true w w' H) as Hl.
  unfold power_hint. fold (pthread_mutex_lock w) in Hl. fold (pthread_mutex_lock w') in Hl.
  change (vars (pthread_mutex_lock w)) with (vars w).
  change (vars (pthread_mutex_lock w')) with (vars w').
  rewrite <- Hv.
  destruct hint.
  - destruct (negb (interactiveActive (vars w))).
    + apply same_state_set_lock, Hl.
    + apply same_state_set_lock. unfold hint_vsync.
      apply same_state_vsync_pulse, same_state_vsync_touch_release, Hl.
  - apply same_state_set_lock, same_state_hint_interaction, Hl.
  - apply same_state_set_lock, Hl.
  - apply same_state_set_lock, Hl.
Qed.

Lemma same_state_worker_step (k k' : io_outcome) (clk : timespec) :
  forall w w', state_of w = state_of w' ->
    option_map state_of (worker_step k clk w) = option_map state_of (worker_step k' clk w').
Proof.
  intros [i v wk tr] [i' v' wk' tr'].
  unfold state_of; cbn [intel vars worker].
  intros E; injection E as E1 E2 E3; subst i' v' wk'.
  destruct i as [tbd ts vb lk fd dt sl].
  unfold worker_step. cbn [worker].
  destruct wk as [[ | | u]|]; cbn; repeat (break_if; cbn); reflexivity.
Qed.

Lemma same_state_step (a a' : action) (w w' : world) :
  same_call a a' -> state_of w = state_of w' ->
  state_of (step w a) = state_of (step w' a').
Proof.
  intros Hc H.
  destruct a as [k clk hint data | k clk]; destruct a' as [k' clk' hint' data' | k' clk'];
    cbn in Hc; try contradiction.
  - destruct Hc as (<- & <- & <-). cbn [step]. apply same_state_power_hint. exact H.
  - subst clk'. cbn [step].
    pose proof (same_state_worker_step k k' clk w w' H) as E.
    destruct (worker_step k clk w) as [x|]; destruct (worker_step k' clk w') as [y|];
      cbn [option_map] in E.
    + congruence.
    + discriminate E.
    + discriminate E.
    + exact H.
Qed.

(** X10: the state does not depend on what the kernel answers.  Two runs of
    the same hints and worker steps at the same clock readings, in which the
    kernel answers the attribute reads and writes differently (failures
    included), go through the same members, statics and worker positions;
    only the traces of system calls differ. *)
Theorem X10_state_ignores_kernel_answers
    (acts acts' : list action) (w w' : world)
    (Hcalls : Forall2 same_call acts acts')
    (Hstart : state_of w = state_of w') :
  state_of (exec acts w) = state_of (exec acts' w').
Proof.
  revert w w' Hstart. induction Hcalls as [|a a' acts acts' Ha _ IH]; intros w w' H.
  - exact H.
  - cbn [exec fold_left]. apply IH. apply same_state_step; assumption.
Qed.

Lemma X10_state_ignores_kernel_answers_witness :
  let failing (n : Z) (h : power_hint_t) (d : Z) := Hint absent (ms n) h d in
  let acts := [touch 1000; touch 1010; vsync 1015 1; Worker served (ms 1016)] in
  let acts' := [failing 1000 POWER_HINT_INTERACTION 0; failing 1010 POWER_HINT_INTERACTION 0;
                failing 1015 POWER_HINT_VSYNC 1; Worker absent (ms 1016)] in
  (Forall2 same_call acts acts' /\ state_of booted = state_of booted) /\
  state_of (exec acts booted) = state_of (exec acts' booted).
Proof.
  intros failing acts acts'.
  assert (Hc : Forall2 same_call acts acts')
    by (repeat constructor).
  split; [exact (conj Hc eq_refl)|].
  exact (X10_state_ignores_kernel_answers acts acts' booted booted Hc eq_refl).
Defined.

(** ** Descriptors *)

Lemma fd_balance_app (t1 t2 : list event) :
  fd_balance (t1 ++ t2) = fd_balance t1 + fd_balance t2.
Proof.
  induction t1 as [|[at_ c] t1 IH]; cbn [app fd_balance]; [lia|].
  destruct c; rewrite IH; lia.
Qed.

Lemma fd_balance_pulse_events (k : io_outcome) (clk : timespec) :
  fd_balance (pulse_events k clk) = 0.
Proof.
  unfold pulse_events, sysfs_write, c_open, c_write, io_bind.
  destruct (open_ret k <? 0) eqn:E; cbn; rewrite ?E; [reflexivity|].
  destruct (wrap_int (rw_ret k) <? 0); cbn; rewrite ?E; reflexivity.
Qed.

Lemma fd_balance_sysfs_read (k : io_outcome) (clk : timespec) (path : string) (n : Z) :
  fd_balance (map (fun c => (gettime_ns clk, c)) (snd (sysfs_read k path n))) = 0.
Proof.
  unfold sysfs_read, c_open, c_read, io_bind.
  destruct (open_ret k <? 0) eqn:E; cbn; rewrite ?E; [reflexivity|].
  destruct (wrap_int (rw_ret k) <? 0); cbn; rewrite ?E; reflexivity.
Qed.

Lemma fd_balance_boost_events (k : io_outcome) (clk : timespec) (fd : Z) (lvl : string) :
  fd_balance (boost_events k clk fd lvl) = 0.
Proof.
  unfold boost_events, schedtune_sysfs_boost, c_write, io_bind.
  destruct (wrap_int (rw_ret k) <? 0); reflexivity.
Qed.

Lemma schedtune_boost_trace (k : io_outcome) (clk : timespec) (w : world) :
  trace (schedtune_boost k clk w) = trace w \/
  trace (schedtune_boost k clk w)
  = trace w ++ boost_events k clk (schedtune_boost_fd (intel w)) SCHEDTUNE_BOOST_INTERACTIVE.
Proof.
  unfold schedtune_boost. destruct (deboost_time (intel w) =? 0); [right | left]; reflexivity.
Qed.

Lemma worker_step_trace (k : io_outcome) (clk : timespec) (w w' : world) :
  worker_step k clk w = Some w' ->
  trace w' = trace w \/
  trace w' = trace w ++ boost_events k clk (schedtune_boost_fd (intel w)) SCHEDTUNE_BOOST_NORM.
Proof.
  unfold worker_step. destruct (worker w) as [[ | | u]|]; try discriminate.
  - destruct (0 <? signal_lock (intel w)); [|discriminate]. intros [= <-]. left. reflexivity.
  - cbv zeta.
    destruct (deboost_time (intel (pthread_mutex_lock w)) >? gettime_ns clk);
      intros [= <-]; [left | right]; reflexivity.
  - destruct (u <=? gettime_ns clk); [|discriminate]. intros [= <-]. left. reflexivity.
Qed.

Lemma power_hint_trace (k : io_outcome) (clk : timespec) (hint : power_hint_t)
    (data : Z) (w : world) :
  let w' := power_hint k clk hint data w in
  trace w' = trace w \/
  trace w' = trace w ++ pulse_events k clk \/
  trace w' = trace w ++ boost_events k clk (schedtune_boost_fd (intel w))
                          SCHEDTUNE_BOOST_INTERACTIVE.
Proof.
  intros w'. subst w'.
  destruct (interactiveActive (vars w)) eqn:Hia.
  - destruct hint; try (left; reflexivity).
    + rewrite (power_hint_vsync_active k clk data w Hia).
      change (trace (pthread_mutex_unlock ?x)) with (trace x).
      destruct (vsync_pulse_trace k clk data
                  (vsync_touch_release clk (pthread_mutex_lock w))) as [E | E];
        rewrite E, vsync_touch_release_trace; [left | right; left]; reflexivity.
    + destruct (interaction_active_fields k clk data w Hia) as (_ & _ & _ & Hr).
      rewrite touch_classify_trace in Hr.
      change (trace (stamped clk w)) with (trace w) in Hr. rewrite Hr.
      destruct (touchboost_disable (intel _) =? 0); [right; left | left]; reflexivity.
  - unfold power_hint, hint_interaction.
    change (vars (pthread_mutex_lock w)) with (vars w). rewrite Hia. cbn [negb].
    destruct hint; try (left; reflexivity).
    destruct (negb (intelSchedBoostActive (vars w))); [left; reflexivity|].
    change (trace (pthread_mutex_unlock ?x)) with (trace x).
    destruct (schedtune_boost_trace k clk (pthread_mutex_lock w)) as [E | E];
      rewrite E; [left | right; right]; reflexivity.
Qed.

Lemma step_fd_balance (a : action) (w : world) :
  fd_balance (trace (step w a)) = fd_balance (trace w).
Proof.
  destruct a as [k clk hint data | k clk]; cbn [step].
  - destruct (power_hint_trace k clk hint data w) as [E | [E | E]]; rewrite E;
      rewrite ?fd_balance_app, ?fd_balance_pulse_events, ?fd_balance_boost_events; lia.
  - destruct (worker_step k clk w) as [w'|] eqn:Hs; [|reflexivity].
    destruct (worker_step_trace k clk w w' Hs) as [E | E]; rewrite E;
      rewrite ?fd_balance_app, ?fd_balance_boost_events; lia.
Qed.

Lemma power_init_fd_balance (k1 k2 k3 : io_outcome) (clk : timespec) :
  fd_balance (trace (power_init k1 k2 k3 clk HAL_MODULE_INFO_SYM))
  = (if open_ret k3 <? 0 then 0 else 1).
Proof.
  unfold power_init. cbn [run_io]. cbv zeta.
  set (wa := if fst (sysfs_read k1 TOUCHBOOST_PULSE_SYSFS 1) =? 0 then _ else _).
  set (wb := if fst (sysfs_read k2 cpufreq_boost_intel_pstate 1) =? 0 then _ else _).
  assert (Hb : fd_balance (trace wb) = 0).
  { subst wb wa.
    destruct (fst (sysfs_read k2 cpufreq_boost_intel_pstate 1) =? 0);
      destruct (fst (sysfs_read k1 TOUCHBOOST_PULSE_SYSFS 1) =? 0);
      cbn [trace add_trace set_interactiveActive set_intelPStateActive upd_vars
           HAL_MODULE_INFO_SYM app];
      rewrite fd_balance_app, !fd_balance_sysfs_read; reflexivity. }
  unfold schedtune_power_init. cbv zeta. cbn [run_io c_open fst snd map].
  change (schedtune_boost_fd (intel (set_schedtune_boost_fd ?v ?x))) with v.
  destruct (open_ret k3 <? 0) eqn:E; cbn [fst snd Z.eqb];
    cbn [trace set_worker set_schedtune_boost_fd upd_intel upd_vars add_trace
         set_signal_lock set_deboost_time set_intelSchedBoostActive];
    rewrite ?fd_balance_app, Hb; cbn [fd_balance]; rewrite E; reflexivity.
Qed.

(** X11: no descriptor is leaked.  From [power_init] on, after any run of
    hints and worker steps and whatever the kernel answers, every descriptor
    the helpers opened has been closed again: the count of descriptors open
    is 1 when the scheduler-boost attribute opened at start-up (that one is
    kept for the life of the process) and 0 when it did not. *)
Theorem X11_no_descriptor_leak
    (k1 k2 k3 : io_outcome) (clk0 : timespec) (acts : list action) :
  fd_balance (trace (exec acts (power_init k1 k2 k3 clk0 HAL_MODULE_INFO_SYM)))
  = (if open_ret k3 <? 0 then 0 else 1).
Proof.
  rewrite <- (power_init_fd_balance k1 k2 k3 clk0).
  generalize (power_init k1 k2 k3 clk0 HAL_MODULE_INFO_SYM).
  induction acts as [|a acts IH]; intros w; [reflexivity|].
  cbn [exec fold_left]. fold (exec acts (step w a)).
  rewrite IH. apply step_fd_balance.
Qed.

(** ** Clock arithmetic *)

(** X12: [diff] is the elapsed time.  The value the hint handler computes
    from two clock readings is their distance in nanoseconds divided by a
    million, also when the nanosecond fields alone would give a negative
    difference; so a hint is a fast touch exactly when fewer than 20 000 000 ns
    have passed, a fresh session exactly when more than 100 000 000 ns have,
    and a vsync sees a release exactly when more than 30 000 000 ns have. *)
Theorem X12_diff_is_elapsed_time (a b : timespec) :
  let d := timespec_ns a - timespec_ns b in
  (diff_ms a b == inject_Z d / inject_Z 1000000)%Q /\
  ((diff_ms a b < inject_Z SHORT_TOUCH_TIME)%Q <-> d < 20000000) /\
  ((inject_Z LONG_TOUCH_TIME < diff_ms a b)%Q <-> 100000000 < d) /\
  ((inject_Z VSYNC_TOUCH_TIME < diff_ms a b)%Q <-> 30000000 < d).
Proof.
  intros d. subst d. destruct a as [s1 n1], b as [s2 n2].
  unfold diff_ms, timespec_ns, NSEC_PER_SEC, SHORT_TOUCH_TIME, LONG_TOUCH_TIME,
    VSYNC_TOUCH_TIME.
  cbn [tv_sec tv_nsec].
  unfold Qdiv, Qinv, Qmult, Qplus, Qeq, Qlt, inject_Z. cbn.
  repeat split; intros; lia.
Qed.

(** X13: how the worker goes to sleep.  At its check, with the deadline
    still ahead of a non-negative clock reading, the worker writes nothing,
    leaves the deadline as it is, releases the mutex, and hands [nanosleep] a
    well-formed interval (seconds not negative, nanoseconds within a second)
    that is positive and ends exactly at the deadline it read. *)
Theorem X13_worker_sleeps_until_deadline
    (k : io_outcome) (clk : timespec) (w : world)
    (Hpc : worker w = Some W_check)
    (Hahead : 0 <= gettime_ns clk < deboost_time (intel w))
    (Hmax : deboost_time (intel w) < 2 ^ 63) :
  let now := gettime_ns clk in
  let ts := nanosleep_ns (wrap_ll (deboost_time (intel w) - now)) in
  (0 <= tv_sec ts /\ 0 <= tv_nsec ts < NSEC_PER_SEC /\
   0 < timespec_ns ts /\ now + timespec_ns ts = deboost_time (intel w)) /\
  exists w',
    worker_step k clk w = Some w' /\
    worker w' = Some (W_sleep (deboost_time (intel w))) /\
    deboost_time (intel w') = deboost_time (intel w) /\
    signal_lock (intel w') = signal_lock (intel w) /\
    lock (intel w') = false /\
    trace w' = trace w.
Proof.
  intros now ts. subst now ts.
  rewrite wrap_ll_small by lia.
  set (d := deboost_time (intel w) - gettime_ns clk).
  assert (Hd : 0 < d) by (subst d; lia).
  split.
  - rewrite nanosleep_ns_duration. unfold nanosleep_ns, NSEC_PER_SEC. cbn [tv_sec tv_nsec].
    repeat split; try (subst d; lia).
    + apply Z.quot_pos; lia.
    + apply Z.rem_bound_pos; lia.
    + apply Z.rem_bound_pos; lia.
  - unfold worker_step. rewrite Hpc. cbv zeta.
    change (deboost_time (intel (pthread_mutex_lock w))) with (deboost_time (intel w)).
    assert (Hgt : (deboost_time (intel w) >? gettime_ns clk) = true)
      by (apply Z.gtb_lt; lia).
    rewrite Hgt, wrap_ll_small by lia. fold d. rewrite nanosleep_ns_duration.
    replace (gettime_ns clk + d) with (deboost_time (intel w)) by (subst d; lia).
    eexists. split; [reflexivity|]. repeat split.
Qed.

Lemma X13_worker_sleeps_until_deadline_witness :
  let w := step (power_hint served (ms 2000) POWER_HINT_INTERACTION 0 sched_only)
             (Worker served (ms 2000)) in
  (worker w = Some W_check /\
   0 <= gettime_ns (ms 2000) < deboost_time (intel w) /\
   deboost_time (intel w) < 2 ^ 63) /\
  exists w',
    worker_step served (ms 2000) w = Some w' /\
    worker w' = Some (W_sleep (deboost_time (intel w))) /\
    deboost_time (intel w') = deboost_time (intel w) /\
    signal_lock (intel w') = signal_lock (intel w) /\
    lock (intel w') = false /\
    trace w' = trace w.
Proof.
  intros w.
  assert (Hpc : worker w = Some W_check) by (vm_compute; reflexivity).
  assert (Ha : 0 <= gettime_ns (ms 2000) < deboost_time (intel w))
    by (vm_compute; split; [discriminate | reflexivity]).
  assert (Hm : deboost_time (intel w) < 2 ^ 63) by (vm_compute; reflexivity).
  split; [exact (conj Hpc (conj Ha Hm))|].
  exact (proj2 (X13_worker_sleeps_until_deadline served (ms 2000) w Hpc Ha Hm)).
Defined.

(** X14: pulse boost comes first.  While pulse boost is available no hint
    of any kind reaches the scheduler-boost engine, also when that is
    available too: the deadline and the semaphore stay as they are, and the
    hint's system calls are none or those of one assertion of the pulse
    attribute. *)
Theorem X14_pulse_boost_has_priority
    (k : io_outcome) (clk : timespec) (hint : power_hint_t) (data : Z) (w : world)
    (Hia : interactiveActive (vars w) = true) :
  let w' := power_hint k clk hint data w in
  deboost_time (intel w') = deboost_time (intel w) /\
  signal_lock (intel w') = signal_lock (intel w) /\
  (trace w' = trace w \/ trace w' = trace w ++ pulse_events k clk).
Proof.
  intros w'. subst w'. destruct hint.
  - rewrite (power_hint_vsync_active k clk data w Hia).
    split; [|split].
    + unfold vsync_pulse, vsync_touch_release. repeat break_if; reflexivity.
    + unfold vsync_pulse, vsync_touch_release. repeat break_if; reflexivity.
    + change (trace (pthread_mutex_unlock ?x)) with (trace x).
      destruct (vsync_pulse_trace k clk data
                  (vsync_touch_release clk (pthread_mutex_lock w))) as [E | E];
        rewrite E, vsync_touch_release_trace; [left | right]; reflexivity.
  - split; [|split].
    + rewrite (power_hint_interaction_active k clk data w Hia). cbv zeta.
      unfold touch_pulse, touch_timer, touch_scroll_entry, touch_classify.
      repeat break_if; reflexivity.
    + rewrite (power_hint_interaction_active k clk data w Hia). cbv zeta.
      unfold touch_pulse, touch_timer, touch_scroll_entry, touch_classify.
      repeat break_if; reflexivity.
    + destruct (interaction_active_fields k clk data w Hia) as (_ & _ & _ & Hr).
      rewrite touch_classify_trace in Hr.
      change (trace (stamped clk w)) with (trace w) in Hr. rewrite Hr.
      destruct (touchboost_disable (intel _) =? 0); [right | left]; reflexivity.
  - repeat split. left. reflexivity.
  - repeat split. left. reflexivity.
Qed.

Lemma X14_pulse_boost_has_priority_witness :
  (interactiveActive (vars booted) = true /\
   intelSchedBoostActive (vars booted) = true) /\
  let w' := power_hint served (ms 1000) POWER_HINT_INTERACTION 0 booted in
  deboost_time (intel w') = deboost_time (intel booted) /\
  signal_lock (intel w') = signal_lock (intel booted) /\
  (trace w' = trace booted \/ trace w' = trace booted ++ pulse_events served (ms 1000)).
Proof.
  assert (Hia : interactiveActive (vars booted) = true) by (vm_compute; reflexivity).
  assert (Hsb : intelSchedBoostActive (vars booted) = true) by (vm_compute; reflexivity).
  split; [exact (conj Hia Hsb)|].
  exact (X14_pulse_boost_has_priority served (ms 1000) POWER_HINT_INTERACTION 0 booted Hia).
Defined.

(** ** The engine over any list of requests *)

Lemma settle_vars (fuel : nat) (k : io_outcome) (clk : timespec) :
  forall w, vars (settle fuel k clk w) = vars w.
Proof.
  induction fuel as [|fuel IH]; intros w; [reflexivity|].
  cbn [settle]. destruct (worker_step k clk w) as [w'|] eqn:E; [|reflexivity].
  rewrite IH. exact (proj2 (proj2 (proj2 (worker_step_touch_fields k clk w w' E)))).
Qed.

Lemma advance_vars (fuel : nat) (k : io_outcome) (t : Z) :
  forall w, vars (advance fuel k t w) = vars w.
Proof.
  induction fuel as [|fuel IH]; intros w; [reflexivity|].
  cbn [advance]. destruct (worker w) as [[ | | u]|]; try reflexivity.
  destruct (u <=? t); [|reflexivity].
  rewrite IH. apply settle_vars.
Qed.

Lemma debounce_path_vars (w w' : world) :
  vars w' = vars w -> debounce_path w -> debounce_path w'.
Proof. unfold debounce_path. intros ->. exact (fun H => H). Qed.

(** Asleep with the deadline ahead of [t]: at [t] the worker is asleep
    again, until some instant after [t], and has written nothing. *)
Lemma advance_before_deadline (fuel : nat) (k : io_outcome) (t : Z) (w : world)
    (fd dt u : Z) (log : list (Z * string)) :
  sched_state w fd dt 0 (W_sleep u) log ->
  0 <= u <= dt -> dt < 2 ^ 63 -> t < dt ->
  (2 <= fuel)%nat ->
  exists u', sched_state (advance fuel k t w) fd dt 0 (W_sleep u') log /\ t < u' <= dt.
Proof.
  intros Hst Hu Hmax Hearly Hfuel.
  destruct (Z_lt_le_dec t u) as [Hbefore | Hafter].
  - rewrite (advance_asleep fuel k t u w (sched_state_sleeping _ _ _ _ _ _ Hst) Hbefore).
    exists u. split; [exact Hst | lia].
  - destruct fuel as [|fuel]; [lia|].
    rewrite (advance_wake fuel k t u w (sched_state_sleeping _ _ _ _ _ _ Hst) Hafter).
    pose proof (gettime_ns_at_ns u ltac:(lia)) as Eclk.
    assert (H1 : sched_state (settle (S fuel) k (at_ns u) w) fd dt 0 (W_sleep dt) log).
    { apply (settle_woken_early (S fuel) k (at_ns u) u w fd dt 0 log Hst);
        rewrite ?Eclk; lia. }
    rewrite (advance_asleep fuel k t dt _ (sched_state_sleeping _ _ _ _ _ _ H1) Hearly).
    exists dt. split; [exact H1 | lia].
Qed.

(** One request, from the idle engine. *)
Lemma request_from_idle (fuel : nat) (kw k : io_outcome) (clk : timespec) (data : Z)
    (w : world) (fd : Z) (log : list (Z * string)) :
  debounce_path w ->
  sched_state w fd 0 0 W_sem_wait log ->
  0 <= gettime_ns clk < 2 ^ 62 ->
  (2 <= fuel)%nat ->
  let w' := settle fuel kw clk (power_hint k clk POWER_HINT_INTERACTION data w) in
  debounce_path w' /\
  engine_pending w' fd (Some (gettime_ns clk + SCHEDTUNE_BOOST_TIME_NS)) (gettime_ns clk)
    (log ++ [(gettime_ns clk, SCHEDTUNE_BOOST_INTERACTIVE)]).
Proof.
  intros Hpath Hst Hclk Hfuel w'.
  pose proof (request_boost_idle k clk data w fd 0 W_sem_wait log Hpath Hst Hclk) as H1.
  pose proof (debounce_path_request_boost k clk data w Hpath) as Hp1.
  assert (H2 : sched_state w' fd (gettime_ns clk + SCHEDTUNE_BOOST_TIME_NS) 0
                 (W_sleep (gettime_ns clk + SCHEDTUNE_BOOST_TIME_NS))
                 (log ++ [(gettime_ns clk, SCHEDTUNE_BOOST_INTERACTIVE)])).
  { apply settle_signalled; try exact H1; try exact Hfuel;
      unfold SCHEDTUNE_BOOST_TIME_NS; lia. }
  split.
  - apply (debounce_path_vars (power_hint k clk POWER_HINT_INTERACTION data w));
      [apply settle_vars | exact Hp1].
  - cbn [engine_pending]. split; [reflexivity|].
    eexists. split; [exact H2|]. unfold SCHEDTUNE_BOOST_TIME_NS. lia.
Qed.

Lemma burst_follows_debounce (fuel : nat) (kw : io_outcome) (t : Z) (fd : Z)
    (reqs : list (io_outcome * timespec * Z)) :
  (3 <= fuel)%nat ->
  forall (w : world) (pending : option Z) (tlast : Z) (log : list (Z * string)),
    debounce_path w ->
    engine_pending w fd pending tlast log ->
    0 <= tlast < 2 ^ 62 ->
    in_order tlast (request_times reqs) ->
    (forall d, final_deadline pending (request_times reqs) = Some d -> d <= t) ->
    boost_writes fd (trace (advance fuel kw t (burst fuel kw reqs w)))
    = log ++ debounce_log pending (request_times reqs).
Proof.
  intros Hfuel.
  induction reqs as [|[[k clk] data] reqs IH]; intros w pending tlast log Hpath Hst Hl Hord Hend.
  - cbn [burst request_times map debounce_log final_deadline] in *.
    destruct pending as [dl|]; cbn [engine_pending] in Hst.
    + destruct Hst as (Hdl & u & Hs & Hu).
      specialize (Hend dl eq_refl).
      destruct (advance_pending fuel kw t w fd dl u log Hs) as (_ & Hafter);
        [lia | unfold SCHEDTUNE_BOOST_TIME_NS in Hdl; lia | exact Hfuel |].
      destruct (Hafter Hend) as (_ & _ & _ & _ & Hlog). exact Hlog.
    + rewrite (advance_waiting fuel kw t w (sched_state_blocked_waiting _ _ _ _ _ Hst)).
      destruct Hst as (_ & _ & _ & _ & Hlog). rewrite app_nil_r. exact Hlog.
  - cbn [request_times map fst snd] in Hord, Hend.
    fold (request_times reqs) in Hord, Hend.
    destruct Hord as [Hclk Hrest].
    cbn [burst fst snd]. cbn [request_times map fst snd]. fold (request_times reqs).
    set (tc := gettime_ns clk) in *.
    set (wa := advance fuel kw tc w).
    assert (Hpa : debounce_path wa)
      by (apply (debounce_path_vars w); [apply advance_vars | exact Hpath]).
    destruct pending as [dl|]; cbn [engine_pending] in Hst.
    + destruct Hst as (Hdl & u & Hs & Hu).
      unfold SCHEDTUNE_BOOST_TIME_NS in Hdl.
      cbn [debounce_log final_deadline] in *.
      destruct (tc <? dl) eqn:Ecmp; zbool.
      * (* the request moves the deadline *)
        destruct (advance_before_deadline fuel kw tc w fd dl u log Hs)
          as (u' & Ha & Hu'); try lia.
        fold wa in Ha.
        pose proof (request_boost_pending k clk data wa fd dl 0 (W_sleep u') log
                      Hpa Ha ltac:(lia) ltac:(fold tc; lia)) as Hr.
        fold tc in Hr.
        set (wr := power_hint k clk POWER_HINT_INTERACTION data wa) in *.
        assert (Hs' : settle fuel kw clk wr = wr)
          by (apply settle_blocked;
              apply (worker_asleep kw clk u' wr _ _ _ _ Hr); fold tc; lia).
        rewrite Hs'.
        apply (IH wr (Some (tc + SCHEDTUNE_BOOST_TIME_NS)) tc log).
        -- apply debounce_path_request_boost. exact Hpa.
        -- cbn [engine_pending]. split; [reflexivity|].
           exists u'. split; [exact Hr|]. unfold SCHEDTUNE_BOOST_TIME_NS. lia.
        -- lia.
        -- exact Hrest.
        -- exact Hend.
      * (* the episode has ended: a new one starts *)
        destruct (advance_pending fuel kw tc w fd dl u log Hs) as (_ & Hafter);
          [lia | lia | exact Hfuel |].
        pose proof (Hafter ltac:(lia)) as Ha. fold wa in Ha.
        destruct (request_from_idle fuel kw k clk data wa fd _ Hpa Ha
                    ltac:(fold tc; lia) ltac:(lia)) as (Hp' & Hst').
        fold tc in Hst'.
        rewrite (IH _ (Some (tc + SCHEDTUNE_BOOST_TIME_NS)) tc _ Hp' Hst'
                   ltac:(lia) Hrest Hend).
        rewrite <- !app_assoc. reflexivity.
    + cbn [debounce_log final_deadline] in *.
      assert (Ea : wa = w)
        by (apply advance_waiting; exact (sched_state_blocked_waiting _ _ _ _ _ Hst)).
      rewrite Ea in *.
      destruct (request_from_idle fuel kw k clk data w fd _ Hpath Hst
                  ltac:(fold tc; lia) ltac:(lia)) as (Hp' & Hst').
      fold tc in Hst'.
      rewrite (IH _ (Some (tc + SCHEDTUNE_BOOST_TIME_NS)) tc _ Hp' Hst'
                 ltac:(lia) Hrest Hend).
      rewrite <- !app_assoc. reflexivity.
Qed.

(** X15: with the pulse boost unavailable and the worker idle at its wait,
    any list of boost requests in arrival order makes the engine write to
    the scheduler-boost attribute exactly what a debounce with a one-window
    hold writes: the boost level at a request that finds no episode under
    way, nothing at a request that comes before the deadline (it moves the
    deadline to one window after itself), and the normal level exactly at
    the deadline of each episode, once the clock has passed the last one. *)
Theorem X15_engine_follows_debounce (w : world) (kw : io_outcome)
    (reqs : list (io_outcome * timespec * Z)) (t : Z) (fuel : nat) :
  debounce_path w ->
  worker w = Some W_sem_wait ->
  signal_lock (intel w) = 0 ->
  deboost_time (intel w) = 0 ->
  in_order 0 (request_times reqs) ->
  match final_deadline None (request_times reqs) with
  | Some d => d <= t
  | None => True
  end ->
  (3 <= fuel)%nat ->
  boost_writes (schedtune_boost_fd (intel w))
    (trace (advance fuel kw t (burst fuel kw reqs w)))
  = boost_writes (schedtune_boost_fd (intel w)) (trace w)
    ++ debounce_log None (request_times reqs).
Proof.
  intros Hpath Hw Hs Hd Hord Hend Hfuel.
  apply (burst_follows_debounce fuel kw t _ reqs Hfuel w None 0 _ Hpath).
  - cbn [engine_pending]. unfold sched_state. repeat split; assumption.
  - lia.
  - exact Hord.
  - intros d Ed. rewrite Ed in Hend. exact Hend.
Qed.

Lemma X15_engine_follows_debounce_witness :
  (debounce_path sched_only /\
   worker sched_only = Some W_sem_wait /\
   signal_lock (intel sched_only) = 0 /\
   deboost_time (intel sched_only) = 0 /\
   in_order 0 (request_times three_requests) /\
   match final_deadline None (request_times three_requests) with
   | Some d => d <= 6000000000
   | None => True
   end) /\
  boost_writes (schedtune_boost_fd (intel sched_only))
    (trace (advance 3 served 6000000000 (burst 3 served three_requests sched_only)))
  = boost_writes (schedtune_boost_fd (intel sched_only)) (trace sched_only)
    ++ debounce_log None (request_times three_requests).
Proof.
  assert (Hp : debounce_path sched_only) by (vm_compute; split; reflexivity).
  assert (Hw : worker sched_only = Some W_sem_wait) by (vm_compute; reflexivity).
  assert (Hs : signal_lock (intel sched_only) = 0) by (vm_compute; reflexivity).
  assert (Hd : deboost_time (intel sched_only) = 0) by (vm_compute; reflexivity).
  assert (Ho : in_order 0 (request_times three_requests))
    by (vm_compute; repeat split; (discriminate || reflexivity)).
  assert (He : match final_deadline None (request_times three_requests) with
               | Some d => d <= 6000000000
               | None => True
               end) by (vm_compute; discriminate).
  assert (Hf : (3 <= 3)%nat) by lia.
  split; [exact (conj Hp (conj Hw (conj Hs (conj Hd (conj Ho He)))))|].
  exact (X15_engine_follows_debounce sched_only served three_requests 6000000000 3
           Hp Hw Hs Hd Ho He Hf).
Defined.

(** The log of the three requests: one episode for the first two, ended one
    window after the second, and one for the third. *)
Example three_requests_log :
  debounce_log None (request_times three_requests)
  = [(2000000000, SCHEDTUNE_BOOST_INTERACTIVE); (3500000000, SCHEDTUNE_BOOST_NORM);
     (4000000000, SCHEDTUNE_BOOST_INTERACTIVE); (5000000000, SCHEDTUNE_BOOST_NORM)].
Proof. vm_compute. reflexivity. Qed.

(** ** The engine under any schedule *)

Lemma sched_state_here (w : world) (pc : worker_pc) :
  worker w = Some pc ->
  sched_state w (schedtune_boost_fd (intel w)) (deboost_time (intel w))
    (signal_lock (intel w)) pc
    (boost_writes (schedtune_boost_fd (intel w)) (trace w)).
Proof. intros H. repeat split. exact H. Qed.

Lemma engine_inv_of_sched_state (w : world) (fd dt sl : Z) (pc : worker_pc)
    (log : list (Z * string)) :
  sched_state w fd dt sl pc log ->
  0 <= sl ->
  sl + match pc with W_sem_wait => 0 | _ => 1 end <= (if dt =? 0 then 1 else 2) ->
  (dt <> 0 -> 1 <= sl + match pc with W_sem_wait => 0 | _ => 1 end) ->
  (dt <> 0 <->
   match rev log with
   | [] => None
   | (_, lvl) :: _ => Some lvl
   end = Some SCHEDTUNE_BOOST_INTERACTIVE) ->
  engine_inv w.
Proof.
  intros (Hfd & Hdt & Hsl & Hpc & Hlog) H0 H1 H2 H3.
  unfold engine_inv, passes_due, last_boost_write.
  rewrite Hfd, Hdt, Hsl, Hpc, Hlog.
  split; [discriminate|].
  destruct pc; repeat split; try assumption; try (apply H3); try (apply H2).
Qed.

Lemma quiet_hint (k : io_outcome) (clk : timespec) (hint : power_hint_t) (data : Z)
    (w : world) :
  interactiveActive (vars w) = false ->
  hint <> POWER_HINT_INTERACTION ->
  power_hint k clk hint data w = pthread_mutex_unlock (pthread_mutex_lock w).
Proof.
  intros Hoff Hh. unfold power_hint. cbv zeta.
  change (vars (pthread_mutex_lock w)) with (vars w). rewrite Hoff.
  destruct hint; try reflexivity. contradiction Hh. reflexivity.
Qed.

Lemma worker_check_sleeps (k : io_outcome) (clk : timespec) (w : world)
    (fd dt sl : Z) (log : list (Z * string)) :
  sched_state w fd dt sl W_check log ->
  gettime_ns clk < dt ->
  exists w' u, worker_step k clk w = Some w' /\
               sched_state w' fd dt sl (W_sleep u) log.
Proof.
  intros (Hfd & Hdt & Hsl & Hpc & Hlog) Ht.
  unfold worker_step. rewrite Hpc. cbv zeta.
  change (deboost_time (intel (pthread_mutex_lock w))) with (deboost_time (intel w)).
  rewrite Hdt.
  assert (Hgt : (dt >? gettime_ns clk) = true) by (apply Z.gtb_lt; lia). rewrite Hgt.
  eexists. eexists. split; [reflexivity|]. repeat split; assumption.
Qed.

Lemma engine_inv_power_hint (k : io_outcome) (clk : timespec) (hint : power_hint_t)
    (data : Z) (w : world) :
  debounce_path w ->
  0 <= gettime_ns clk < 2 ^ 62 ->
  engine_inv w ->
  engine_inv (power_hint k clk hint data w).
Proof.
  intros Hpath Hclk Hinv.
  assert (Hcase : hint = POWER_HINT_INTERACTION \/ hint <> POWER_HINT_INTERACTION)
    by (destruct hint; (left; reflexivity) || (right; discriminate)).
  destruct Hcase as [-> | Hq].
  - destruct Hinv as (Hw & H0 & H1 & H2 & H3).
    unfold passes_due, last_boost_write in *.
    destruct (worker w) as [pc|] eqn:Epc; [|contradiction Hw; reflexivity].
    pose proof (sched_state_here w pc Epc) as Hst.
    destruct (Z.eq_dec (deboost_time (intel w)) 0) as [Ez | Enz].
    + rewrite Ez in *. cbn [Z.eqb] in H1.
      pose proof (request_boost_idle k clk data w _ _ _ _ Hpath Hst Hclk) as Hr.
      apply (engine_inv_of_sched_state _ _ _ _ _ _ Hr).
      * lia.
      * assert (E : (gettime_ns clk + SCHEDTUNE_BOOST_TIME_NS =? 0) = false)
          by (apply Z.eqb_neq; unfold SCHEDTUNE_BOOST_TIME_NS; lia).
        rewrite E. destruct pc; lia.
      * intros _. destruct pc; lia.
      * rewrite rev_app_distr. cbn [rev app].
        split; [reflexivity | intros _; unfold SCHEDTUNE_BOOST_TIME_NS; lia].
    + pose proof (request_boost_pending k clk data w _ _ _ _ _ Hpath Hst Enz Hclk) as Hr.
      apply Z.eqb_neq in Enz as Eb. rewrite Eb in H1.
      apply (engine_inv_of_sched_state _ _ _ _ _ _ Hr).
      * exact H0.
      * assert (E : (gettime_ns clk + SCHEDTUNE_BOOST_TIME_NS =? 0) = false)
          by (apply Z.eqb_neq; unfold SCHEDTUNE_BOOST_TIME_NS; lia).
        rewrite E. destruct pc; lia.
      * intros _. specialize (H2 Enz). destruct pc; lia.
      * split; [intros _; apply H3; exact Enz
               | intros _; unfold SCHEDTUNE_BOOST_TIME_NS; lia].
  - rewrite (quiet_hint k clk hint data w (proj1 Hpath) Hq). exact Hinv.
Qed.

Lemma engine_inv_worker_step (k : io_outcome) (clk : timespec) (w w' : world) :
  worker_step k clk w = Some w' ->
  engine_inv w ->
  engine_inv w'.
Proof.
  intros Hstep (Hw & H0 & H1 & H2 & H3).
  unfold passes_due, last_boost_write in *.
  destruct (worker w) as [pc|] eqn:Epc; [|contradiction Hw; reflexivity].
  pose proof (sched_state_here w pc Epc) as Hst.
  destruct pc as [ | | u].
  - destruct (Z_lt_le_dec 0 (signal_lock (intel w))) as [Hpos | Hnone].
    + destruct (worker_sem_wait_pass k clk w _ _ _ _ Hst Hpos) as (w1 & E1 & Hr).
      rewrite E1 in Hstep. injection Hstep as <-.
      apply (engine_inv_of_sched_state _ _ _ _ _ _ Hr); try assumption; lia.
    + rewrite (worker_sem_wait_block k clk w _ _ _ _ Hst Hnone) in Hstep. discriminate.
  - destruct (Z_lt_le_dec (gettime_ns clk) (deboost_time (intel w))) as [Hearly | Hdue].
    + destruct (worker_check_sleeps k clk w _ _ _ _ Hst Hearly) as (w1 & u & E1 & Hr).
      rewrite E1 in Hstep. injection Hstep as <-.
      apply (engine_inv_of_sched_state _ _ _ _ _ _ Hr); assumption.
    + destruct (worker_check_deboost k clk w _ _ _ _ Hst Hdue) as (w1 & E1 & Hr).
      rewrite E1 in Hstep. injection Hstep as <-.
      apply (engine_inv_of_sched_state _ _ _ _ _ _ Hr).
      * exact H0.
      * cbn [Z.eqb]. destruct (deboost_time (intel w) =? 0); lia.
      * intros Hd. contradiction Hd. reflexivity.
      * rewrite rev_app_distr. cbn [rev app].
        split; [intros Hd; contradiction Hd; reflexivity | discriminate].
  - destruct (Z_lt_le_dec (gettime_ns clk) u) as [Hearly | Hdue].
    + rewrite (worker_asleep k clk u w _ _ _ _ Hst Hearly) in Hstep. discriminate.
    + destruct (worker_wakes k clk u w _ _ _ _ Hst Hdue) as (w1 & E1 & Hr).
      rewrite E1 in Hstep. injection Hstep as <-.
      apply (engine_inv_of_sched_state _ _ _ _ _ _ Hr); assumption.
Qed.

Lemma engine_inv_exec (acts : list action) :
  forall w,
    debounce_path w -> engine_inv w -> Forall hint_clock_ok acts ->
    debounce_path (exec acts w) /\ engine_inv (exec acts w).
Proof.
  induction acts as [|a acts IH]; intros w Hpath Hinv Hok; [split; assumption|].
  inversion Hok as [|? ? Ha Hrest]; subst.
  change (exec (a :: acts) w) with (exec acts (step w a)).
  destruct a as [k clk hint data | k clk]; cbn [step hint_clock_ok] in *.
  - apply IH; [| apply engine_inv_power_hint; assumption | exact Hrest].
    destruct (power_hint_keeps_engine_fields k clk hint data w) as (Hc & _ & _).
    unfold caps in Hc. unfold debounce_path in *.
    injection Hc as -> _ ->. exact Hpath.
  - destruct (worker_step k clk w) as [w'|] eqn:E.
    + apply IH; [| exact (engine_inv_worker_step k clk w w' E Hinv) | exact Hrest].
      apply (debounce_path_vars w); [| exact Hpath].
      exact (proj2 (proj2 (proj2 (worker_step_touch_fields k clk w w' E)))).
    + apply IH; assumption.
Qed.

(** X17: with the pulse boost unavailable and the scheduler-boost attribute
    opened, in every state reached from [power_init] by hints and worker
    steps in any order and at any clock readings (those of the hints not
    negative), the semaphore holds between 0 and 2, a deadline is pending
    exactly when the level last written to the attribute is the boost
    level, and whenever a deadline is pending a pass of the worker is still
    due: the semaphore is positive or the worker is inside its inner loop. *)
Theorem X17_boost_level_tracks_deadline (k1 k2 k3 : io_outcome) (clk : timespec)
    (acts : list action) :
  let w0 := power_init k1 k2 k3 clk HAL_MODULE_INFO_SYM in
  interactiveActive (vars w0) = false ->
  0 <= open_ret k3 ->
  Forall hint_clock_ok acts ->
  let w := exec acts w0 in
  0 <= signal_lock (intel w) <= 2 /\
  (deboost_time (intel w) <> 0 <->
   last_boost_write (schedtune_boost_fd (intel w)) (trace w)
   = Some SCHEDTUNE_BOOST_INTERACTIVE) /\
  (deboost_time (intel w) <> 0 -> 1 <= passes_due w).
Proof.
  intros w0 Hoff Hopen Hok w.
  destruct (power_init_engine k1 k2 k3 clk Hopen) as (Hon & Hst).
  fold w0 in Hon, Hst.
  assert (Hinv0 : engine_inv w0).
  { apply (engine_inv_of_sched_state _ _ _ _ _ _ Hst); cbn [Z.eqb rev]; try lia.
    split; [lia | discriminate]. }
  destruct (engine_inv_exec acts w0 (conj Hoff Hon) Hinv0 Hok) as (_ & Hinv).
  fold w in Hinv.
  destruct Hinv as (Hw & H0 & H1 & H2 & H3).
  split; [|split; assumption].
  split; [exact H0|].
  unfold passes_due in H1.
  destruct (deboost_time (intel w) =? 0); destruct (worker w) as [[ | | ?]|]; lia.
Qed.

Lemma X17_boost_level_tracks_deadline_witness :
  (interactiveActive (vars (power_init absent absent served (ms 900) HAL_MODULE_INFO_SYM))
   = false /\
   0 <= open_ret served /\
   Forall hint_clock_ok racing_schedule) /\
  let w0 := power_init absent absent served (ms 900) HAL_MODULE_INFO_SYM in
  let w := exec racing_schedule w0 in
  0 <= signal_lock (intel w) <= 2 /\
  (deboost_time (intel w) <> 0 <->
   last_boost_write (schedtune_boost_fd (intel w)) (trace w)
   = Some SCHEDTUNE_BOOST_INTERACTIVE) /\
  (deboost_time (intel w) <> 0 -> 1 <= passes_due w).
Proof.
  assert (H1 : interactiveActive
                 (vars (power_init absent absent served (ms 900) HAL_MODULE_INFO_SYM))
               = false) by (vm_compute; reflexivity).
  assert (H2 : 0 <= open_ret served) by (vm_compute; discriminate).
  assert (H3 : Forall hint_clock_ok racing_schedule).
  { unfold racing_schedule.
    repeat (apply Forall_cons; [vm_compute; try exact I; split; (discriminate || reflexivity)|]).
    apply Forall_nil. }
  split; [exact (conj H1 (conj H2 H3))|].
  exact (X17_boost_level_tracks_deadline absent absent served (ms 900) racing_schedule
           H1 H2 H3).
Defined.

(** The racing schedule: the request before the worker's first pass leaves
    two tokens, and the run ends with two writes of the normal level. *)
Example racing_schedule_log :
  let w := exec racing_schedule
             (power_init absent absent served (ms 900) HAL_MODULE_INFO_SYM) in
  map snd (boost_writes (schedtune_boost_fd (intel w)) (trace w))
  = [SCHEDTUNE_BOOST_INTERACTIVE; SCHEDTUNE_BOOST_NORM; SCHEDTUNE_BOOST_NORM] /\
  signal_lock (intel w) = 0 /\ deboost_time (intel w) = 0.
Proof. vm_compute. repeat split. Qed.

(** ** Episodes of the boost level *)

Lemma debounce_log_open (ts : list Z) :
  forall prev s lo,
    in_order prev ts -> lo <= s -> s <= prev ->
    let log := (s, SCHEDTUNE_BOOST_INTERACTIVE)
                 :: debounce_log (Some (prev + SCHEDTUNE_BOOST_TIME_NS)) ts in
    episodes lo log /\
    (forall t0, s <= t0 <= prev -> covered t0 log) /\
    Forall (fun t => covered t log) ts.
Proof.
  induction ts as [|t ts IH]; intros prev s lo Hord Hlo Hs; cbv zeta.
  - cbn [debounce_log episodes covered].
    split; [|split].
    + repeat split; try reflexivity; lia.
    + intros t0 Ht0. left. lia.
    + apply Forall_nil.
  - destruct Hord as [Ht Hrest]. cbn [debounce_log].
    destruct (t <? prev + SCHEDTUNE_BOOST_TIME_NS) eqn:Ecmp.
    + apply Z.ltb_lt in Ecmp.
      destruct (IH t s lo Hrest Hlo ltac:(lia)) as (He & Hc & Hf).
      split; [exact He|]. split.
      * intros t0 Ht0. apply Hc. lia.
      * apply Forall_cons; [apply Hc; lia | exact Hf].
    + apply Z.ltb_ge in Ecmp.
      destruct (IH t t (prev + SCHEDTUNE_BOOST_TIME_NS) Hrest ltac:(lia) ltac:(lia))
        as (He & Hc & Hf).
      cbn [episodes covered] in *.
      split; [repeat split; try reflexivity; try lia; exact He|]. split.
      * intros t0 Ht0. left. lia.
      * apply Forall_cons; [right; apply Hc; lia|].
        revert Hf. apply Forall_impl. intros a Ha. right. exact Ha.
Qed.

Lemma debounce_log_idle (ts : list Z) (lo : Z) :
  in_order lo ts ->
  episodes lo (debounce_log None ts) /\
  Forall (fun t => covered t (debounce_log None ts)) ts.
Proof.
  destruct ts as [|t ts]; intros Hord.
  - split; [exact I | apply Forall_nil].
  - destruct Hord as [Ht Hrest]. cbn [debounce_log].
    destruct (debounce_log_open ts t t lo Hrest ltac:(lia) ltac:(lia)) as (He & Hc & Hf).
    split; [exact He|].
    apply Forall_cons; [apply Hc; lia | exact Hf].
Qed.

(** X16: under the conditions of X15 the writes to the scheduler-boost
    attribute form episodes: the boost level, then the normal level at
    least one window later, the next episode not before the end of the one
    before; and every request lies in an episode that lasts for a full
    window after it, so the boost level is never withdrawn earlier than one
    window after the last request. *)
Theorem X16_boost_held_for_a_window (w : world) (kw : io_outcome)
    (reqs : list (io_outcome * timespec * Z)) (t : Z) (fuel : nat) :
  debounce_path w ->
  worker w = Some W_sem_wait ->
  signal_lock (intel w) = 0 ->
  deboost_time (intel w) = 0 ->
  in_order 0 (request_times reqs) ->
  match final_deadline None (request_times reqs) with
  | Some d => d <= t
  | None => True
  end ->
  (3 <= fuel)%nat ->
  exists log,
    boost_writes (schedtune_boost_fd (intel w))
      (trace (advance fuel kw t (burst fuel kw reqs w)))
    = boost_writes (schedtune_boost_fd (intel w)) (trace w) ++ log /\
    episodes 0 log /\
    Forall (fun r => covered r log) (request_times reqs).
Proof.
  intros Hpath Hw Hs Hd Hord Hend Hfuel.
  exists (debounce_log None (request_times reqs)).
  split; [| exact (debounce_log_idle _ 0 Hord)].
  apply (burst_follows_debounce fuel kw t _ reqs Hfuel w None 0 _ Hpath).
  - cbn [engine_pending]. unfold sched_state. repeat split; assumption.
  - lia.
  - exact Hord.
  - intros d Ed. rewrite Ed in Hend. exact Hend.
Qed.

Lemma X16_boost_held_for_a_window_witness :
  (debounce_path sched_only /\
   worker sched_only = Some W_sem_wait /\
   signal_lock (intel sched_only) = 0 /\
   deboost_time (intel sched_only) = 0 /\
   in_order 0 (request_times three_requests) /\
   match final_deadline None (request_times three_requests) with
   | Some d => d <= 6000000000
   | None => True
   end) /\
  exists log,
    boost_writes (schedtune_boost_fd (intel sched_only))
      (trace (advance 3 served 6000000000 (burst 3 served three_requests sched_only)))
    = boost_writes (schedtune_boost_fd (intel sched_only)) (trace sched_only) ++ log /\
    episodes 0 log /\
    Forall (fun r => covered r log) (request_times three_requests).
Proof.
  assert (Hp : debounce_path sched_only) by (vm_compute; split; reflexivity).
  assert (Hw : worker sched_only = Some W_sem_wait) by (vm_compute; reflexivity).
  assert (Hs : signal_lock (intel sched_only) = 0) by (vm_compute; reflexivity).
  assert (Hd : deboost_time (intel sched_only) = 0) by (vm_compute; reflexivity).
  assert (Ho : in_order 0 (request_times three_requests))
    by (vm_compute; repeat split; (discriminate || reflexivity)).
  assert (He : match final_deadline None (request_times three_requests) with
               | Some d => d <= 6000000000
               | None => True
               end) by (vm_compute; discriminate).
  assert (Hf : (3 <= 3)%nat) by lia.
  split; [exact (conj Hp (conj Hw (conj Hs (conj Hd (conj Ho He)))))|].
  exact (X16_boost_held_for_a_window sched_only served three_requests 6000000000 3
           Hp Hw Hs Hd Ho He Hf).
Defined.

(** ** Clock readings and error reports *)

(** X18: for a normalised clock reading below 2^33 seconds [gettime_ns]
    does not overflow: it is the exact nanosecond count, not negative;
    [nanosleep_ns] splits that count back into the same reading; and two
    such readings compare as their counts do. *)
Theorem X18_clock_round_trip (a b : timespec) :
  normalised a -> normalised b ->
  gettime_ns a = timespec_ns a /\
  0 <= gettime_ns a < 2 ^ 63 /\
  nanosleep_ns (gettime_ns a) = a /\
  (gettime_ns a < gettime_ns b <->
   tv_sec a < tv_sec b \/ (tv_sec a = tv_sec b /\ tv_nsec a < tv_nsec b)).
Proof.
  intros [Has Han] [Hbs Hbn].
  assert (Eg : forall ts, 0 <= tv_sec ts < 2 ^ 33 -> 0 <= tv_nsec ts < NSEC_PER_SEC ->
                 gettime_ns ts = timespec_ns ts /\ 0 <= timespec_ns ts < 2 ^ 63).
  { intros ts Hs Hn. unfold gettime_ns, timespec_ns, NSEC_PER_SEC in *.
    assert (0 <= tv_sec ts * 1000000000 + tv_nsec ts < 2 ^ 63) by lia.
    split; [apply wrap_ll_small; lia | assumption]. }
  destruct (Eg a Has Han) as [Ea Ra]. destruct (Eg b Hbs Hbn) as [Eb Rb].
  rewrite Ea, Eb.
  split; [reflexivity|]. split; [exact Ra|]. split.
  - destruct a as [s n]. unfold nanosleep_ns, timespec_ns, NSEC_PER_SEC in *.
    cbn [tv_sec tv_nsec] in *.
    rewrite Z.quot_div_nonneg, Z.rem_mod_nonneg by lia.
    rewrite Z.mul_comm.
    f_equal.
    + symmetry. apply (Z.div_unique_pos _ _ s n); lia.
    + symmetry. apply (Z.mod_unique_pos _ _ s n); lia.
  - unfold timespec_ns, NSEC_PER_SEC in *. split; intros H; nia.
Qed.

Lemma X18_clock_round_trip_witness :
  (normalised (ms 2500) /\ normalised (ms 3000)) /\
  gettime_ns (ms 2500) = timespec_ns (ms 2500) /\
  0 <= gettime_ns (ms 2500) < 2 ^ 63 /\
  nanosleep_ns (gettime_ns (ms 2500)) = ms 2500 /\
  (gettime_ns (ms 2500) < gettime_ns (ms 3000) <->
   tv_sec (ms 2500) < tv_sec (ms 3000) \/
   (tv_sec (ms 2500) = tv_sec (ms 3000) /\ tv_nsec (ms 2500) < tv_nsec (ms 3000))).
Proof.
  assert (Ha : normalised (ms 2500))
    by (vm_compute; repeat split; (discriminate || reflexivity)).
  assert (Hb : normalised (ms 3000))
    by (vm_compute; repeat split; (discriminate || reflexivity)).
  split; [exact (conj Ha Hb)|].
  exact (X18_clock_round_trip (ms 2500) (ms 3000) Ha Hb).
Defined.

(** X19: how the attribute helpers report errors.  [sysfs_write] and
    [sysfs_read] log exactly one error line when they return a negative
    result and none otherwise, and attempt exactly one transfer unless the
    [open] failed, in which case none; [schedtune_sysfs_boost] always makes
    its one write of two bytes to the descriptor it is given, returns what
    [write] returned as an [int], and logs one line exactly when that is
    negative. *)
Theorem X19_failures_are_logged_once (k : io_outcome) (path s : string) (n fd : Z)
    (lvl : string) :
  let wr := sysfs_write k path s in
  let rd := sysfs_read k path n in
  let bw := schedtune_sysfs_boost k fd lvl in
  List.length (error_lines (snd wr)) = (if fst wr <? 0 then 1%nat else 0%nat) /\
  List.length (error_lines (snd rd)) = (if fst rd <? 0 then 1%nat else 0%nat) /\
  transfers (snd wr)
  = (if open_ret k <? 0 then []
     else [SysWrite (open_ret k) s (strlen s) (rw_ret k)]) /\
  transfers (snd rd)
  = (if open_ret k <? 0 then [] else [SysRead (open_ret k) n (rw_ret k)]) /\
  fst bw = wrap_int (rw_ret k) /\
  transfers (snd bw) = [SysWrite fd lvl 2 (rw_ret k)] /\
  List.length (error_lines (snd bw)) = (if fst bw <? 0 then 1%nat else 0%nat).
Proof.
  cbv zeta.
  unfold sysfs_write, sysfs_read, schedtune_sysfs_boost, c_open, c_write, c_read,
    c_close, ALOGE, io_bind, io_ret.
  destruct (open_ret k <? 0); destruct (wrap_int (rw_ret k) <? 0) eqn:E;
    cbn [fst snd app error_lines transfers List.length Z.ltb Z.compare];
    rewrite ?E; repeat split; reflexivity.
Qed.
